(** * Glacier Explorer: velocity estimation, context building and their
      presentation glue, embedded from [llm_core.py] and [app.py].

    The Python code is embedded shallowly:
    - Python objects are values of [pyval]; a [dict] is an association list
      in insertion order (the code reads [list(stats_data.keys())[0]], so
      order is observable);
    - a Python [float] is an IEEE-754 binary64 number, [spec_float] with
      precision 53 and maximal exponent 1024;
    - Earth Engine client objects are the expression trees the client
      library builds ([ee]); the only server round trip is [getInfo];
    - exceptions, the log of backend interactions, Streamlit's session state
      and the widgets drawn on screen are threaded through one state and
      error monad [M]. *)

From Stdlib Require Import ZArith List String Ascii Bool Lia.
From Stdlib Require Import Numbers.DecimalString.
From Stdlib Require Import Floats.SpecFloat.
From Stdlib Require Import Reals Lra.
Import ListNotations.

Open Scope string_scope.
Open Scope Z_scope.

(* ================================================================== *)
(** * Python values *)
(* ================================================================== *)

Module Py.

(** Earth Engine client objects ([ee]) and Python values ([pyval]) refer to
    each other: a geometry is built from arbitrary Python arguments, and a
    result dict stores image handles. An [ee] object is the expression the
    client library has built: one constructor per library call the program
    makes, named after it. [map_arg] is the image a function passed to
    [map] is applied to; [maxPixels], written [1e9] in the source, is kept
    as the integer it denotes. *)
#[warnings="-register-all"]
Inductive pyval : Type :=
| PNone
| PBool (b : bool)
| PInt (z : Z)
| PFloat (f : spec_float)
| PStr (s : string)
| PTuple (l : list pyval)
| PDict (d : list (string * pyval))
| PObj (o : ee)
with ee : Type :=
| Geometry_Point (lon lat : pyval)
| buffer (g : ee) (distance : pyval)
| ImageCollection (id : string)
| FeatureCollection (id : string)
| Image_const (n : Z)
| filterBounds (c g : ee)
| filterDate (c : ee) (start stop : string)
| Filter_lt (prop : string) (v : Z)
| filter (c f : ee)
| map_arg
| map_ (c body : ee)
| size (c : ee)
| sort (c : ee) (prop : string)
| first (c : ee)
| select (i : ee) (band : string)
| bitwiseAnd (i : ee) (n : Z)
| eq_ (i : ee) (n : Z)
| And (a b : ee)
| updateMask (i m : ee)
| displacement (i referenceImage : ee) (maxOffset patchWidth : Z)
| hypot (a b : ee)
| divide (a : ee) (n : Z)
| rename (i : ee) (name : string)
| paint (i fc : ee) (v : Z)
| gt (i : ee) (n : Z)
| Reducer_mean
| Reducer_minMax
| combine (r1 r2 : ee) (prefix : string) (sharedInputs : bool)
| reduceRegion (i reducer geometry : ee) (scale maxPixels : Z).

Definition dict := list (string * pyval).

(** An exception: its class name and [str(e)]. *)
Record exn := Exn { exn_class : string; exn_msg : string }.

Inductive result (A : Type) : Type :=
| Ok (a : A)
| Raise (x : exn).
Arguments Ok {A} a.
Arguments Raise {A} x.

Definition and_then {A B} (r : result A) (k : A -> result B) : result B :=
  match r with
  | Ok a => k a
  | Raise x => Raise x
  end.

(** ** Dictionaries *)

Fixpoint dict_lookup (d : dict) (k : string) : option pyval :=
  match d with
  | [] => None
  | (k', v) :: d' => if String.eqb k' k then Some v else dict_lookup d' k
  end.

(** [d.get(k, default)] *)
Definition dict_get (d : dict) (k : string) (default : pyval) : pyval :=
  match dict_lookup d k with
  | Some v => v
  | None => default
  end.

(** [d[k]]; [str(KeyError(k))] is the repr of the key. *)
Definition dict_index (d : dict) (k : string) : result pyval :=
  match dict_lookup d k with
  | Some v => Ok v
  | None => Raise (Exn "KeyError" ("'" ++ k ++ "'"))
  end.

(** ** Binary64 numbers *)

Definition b64_of_Z (z : Z) : spec_float := binary_normalize 53 1024 z 0 false.
Definition b64_mul := SFmul 53 1024.
Definition b64_sub := SFsub 53 1024.
Definition b64_div := SFdiv 53 1024.

(** The double written as the decimal literal [n / 10^k] in the source: the
    correctly rounded quotient of two exactly representable integers. *)
Definition b64_literal (n : Z) (k : nat) : spec_float :=
  b64_div (b64_of_Z n) (b64_of_Z (10 ^ Z.of_nat k)).

Definition is_finite (x : spec_float) : bool :=
  match x with
  | S754_zero _ | S754_finite _ _ _ => true
  | S754_infinity _ | S754_nan => false
  end.

(** [float(n)] for an [int]: [OverflowError] beyond the binary64 range. *)
Definition float_of_int (z : Z) : result spec_float :=
  let x := b64_of_Z z in
  if is_finite x then Ok x
  else Raise (Exn "OverflowError" "int too large to convert to float").

(** ** Strings *)

Definition string_of_Z (z : Z) : string := NilZero.string_of_int (Z.to_int z).

Fixpoint repeat_string (s : string) (n : nat) : string :=
  match n with
  | O => ""
  | S n' => s ++ repeat_string s n'
  end.

(** Decimal digits of [n >= 0], zero-padded on the left to [width]. *)
Definition zero_pad (width : nat) (n : Z) : string :=
  let s := string_of_Z n in
  repeat_string "0" (width - String.length s) ++ s.

(** [sub] occurs in [s]. *)
Definition contains (s sub : string) : Prop :=
  exists pre post, s = pre ++ sub ++ post.

(** ** Fixed-point formatting, [f"{x:.<prec>f}"]

    CPython formats a float with the correctly rounded decimal expansion of
    its exact binary value (round half to even at the last digit kept). *)

Definition round_half_even (n d : Z) : Z :=
  let q := n / d in
  match (2 * (n mod d)) ?= d with
  | Lt => q
  | Gt => q + 1
  | Eq => if Z.even q then q else q + 1
  end.

(** [|m * 2^e| * 10^prec], rounded to an integer. *)
Definition scaled_digits (prec : nat) (m : positive) (e : Z) : Z :=
  let num := Zpos m * 10 ^ Z.of_nat prec in
  if 0 <=? e then num * 2 ^ e else round_half_even num (2 ^ (- e)).

Definition sign_string (s : bool) : string := if s then "-" else "".

Definition fixed_digits (prec : nat) (n : Z) : string :=
  let p := 10 ^ Z.of_nat prec in
  match prec with
  | O => string_of_Z n
  | _ => string_of_Z (n / p) ++ "." ++ zero_pad prec (n mod p)
  end.

Definition format_f (prec : nat) (x : spec_float) : string :=
  match x with
  | S754_nan => "nan"
  | S754_infinity s => sign_string s ++ "inf"
  | S754_zero s => sign_string s ++ fixed_digits prec 0
  | S754_finite s m e => sign_string s ++ fixed_digits prec (scaled_digits prec m e)
  end.

Definition type_name (v : pyval) : string :=
  match v with
  | PNone => "NoneType"
  | PBool _ => "bool"
  | PInt _ => "int"
  | PFloat _ => "float"
  | PStr _ => "str"
  | PTuple _ => "tuple"
  | PDict _ => "dict"
  | PObj _ => "ComputedObject"
  end.

(** [format(v, ".<prec>f")]: numbers are formatted, [bool] being an [int];
    a [str] rejects the format code, everything else has no [__format__]
    accepting a format string. *)
Definition py_format_f (prec : nat) (v : pyval) : result string :=
  match v with
  | PFloat x => Ok (format_f prec x)
  | PInt z =>
      match float_of_int z with
      | Ok x => Ok (format_f prec x)
      | Raise e => Raise e
      end
  | PBool b => Ok (format_f prec (b64_of_Z (if b then 1 else 0)))
  | PStr _ => Raise (Exn "ValueError" "Unknown format code 'f' for object of type 'str'")
  | _ => Raise (Exn "TypeError"
                  ("unsupported format string passed to " ++ type_name v ++ ".__format__"))
  end.

(** [isinstance(v, (int, float))]; [bool] is a subclass of [int]. *)
Definition is_int_or_float (v : pyval) : bool :=
  match v with
  | PInt _ | PFloat _ | PBool _ => true
  | _ => false
  end.

(** Truth value of an object. *)
Definition truthy (v : pyval) : bool :=
  match v with
  | PNone => false
  | PBool b => b
  | PInt z => negb (z =? 0)
  | PFloat (S754_zero _) => false
  | PFloat _ => true
  | PStr s => negb (String.eqb s "")
  | PTuple l => match l with [] => false | _ => true end
  | PDict d => match d with [] => false | _ => true end
  | PObj _ => true
  end.

(** [a or b] *)
Definition py_or (a b : pyval) : pyval := if truthy a then a else b.

(** [v == s] for a string literal [s]. *)
Definition eq_str (v : pyval) (s : string) : bool :=
  match v with
  | PStr t => String.eqb t s
  | _ => false
  end.

(** [v == 0] *)
Definition eq_zero (v : pyval) : bool :=
  match v with
  | PInt z => z =? 0
  | PBool b => negb b
  | PFloat (S754_zero _) => true
  | _ => false
  end.

End Py.

(* ================================================================== *)
(** * Calendar dates: the part of [datetime] the program uses *)
(* ================================================================== *)

Module Datetime.
Import Py.

(** A [datetime.date]; also a [datetime.datetime] at midnight, which is all
    that [strptime(s, "%Y-%m-%d")] produces. *)
Record date := Date { year : Z; month : Z; day : Z }.

Definition MINYEAR : Z := 1.
Definition MAXYEAR : Z := 9999.
Definition MAXORDINAL : Z := 3652059.

Definition is_leap (y : Z) : bool :=
  (y mod 4 =? 0) && (negb (y mod 100 =? 0) || (y mod 400 =? 0)).

Definition days_before_year (y : Z) : Z :=
  let y1 := y - 1 in y1 * 365 + y1 / 4 - y1 / 100 + y1 / 400.

Definition DAYS_IN_MONTH (m : Z) : Z :=
  match m with
  | 1 => 31 | 2 => 28 | 3 => 31 | 4 => 30 | 5 => 31 | 6 => 30
  | 7 => 31 | 8 => 31 | 9 => 30 | 10 => 31 | 11 => 30 | 12 => 31
  | _ => -1
  end.

Definition DAYS_BEFORE_MONTH (m : Z) : Z :=
  match m with
  | 1 => 0 | 2 => 31 | 3 => 59 | 4 => 90 | 5 => 120 | 6 => 151
  | 7 => 181 | 8 => 212 | 9 => 243 | 10 => 273 | 11 => 304 | 12 => 334
  | _ => -1
  end.

Definition days_in_month (y m : Z) : Z :=
  if (m =? 2) && is_leap y then 29 else DAYS_IN_MONTH m.

Definition days_before_month (y m : Z) : Z :=
  DAYS_BEFORE_MONTH m + (if (2 <? m) && is_leap y then 1 else 0).

Definition ymd2ord (y m d : Z) : Z :=
  days_before_year y + days_before_month y m + d.

Definition toordinal (d : date) : Z := ymd2ord (year d) (month d) (day d).

Definition DI400Y : Z := 146097.
Definition DI100Y : Z := 36524.
Definition DI4Y : Z := 1461.

Definition ord2ymd (n0 : Z) : date :=
  let n := n0 - 1 in
  let n400 := n / DI400Y in
  let n := n mod DI400Y in
  let y := n400 * 400 + 1 in
  let n100 := n / DI100Y in
  let n := n mod DI100Y in
  let n4 := n / DI4Y in
  let n := n mod DI4Y in
  let n1 := n / 365 in
  let n := n mod 365 in
  let y := y + n100 * 100 + n4 * 4 + n1 in
  if (n1 =? 4) || (n100 =? 4) then Date (y - 1) 12 31
  else
    let leapyear := (n1 =? 3) && (negb (n4 =? 24) || (n100 =? 3)) in
    let m := Z.shiftr (n + 50) 5 in
    let preceding := DAYS_BEFORE_MONTH m + (if (2 <? m) && leapyear then 1 else 0) in
    if n <? preceding then
      let m' := m - 1 in
      let preceding' :=
        preceding - (DAYS_IN_MONTH m' + (if (m' =? 2) && leapyear then 1 else 0)) in
      Date y m' (n - preceding' + 1)
    else Date y m (n - preceding + 1).

(** [date(y, m, d)]: the constructor checks its fields. *)
Definition make_date (y m d : Z) : result date :=
  if negb ((MINYEAR <=? y) && (y <=? MAXYEAR)) then
    Raise (Exn "ValueError" ("year " ++ string_of_Z y ++ " is out of range"))
  else if negb ((1 <=? m) && (m <=? 12)) then
    Raise (Exn "ValueError" "month must be in 1..12")
  else if negb ((1 <=? d) && (d <=? days_in_month y m)) then
    Raise (Exn "ValueError" "day is out of range for month")
  else Ok (Date y m d).

(** [d + timedelta(days=k)] *)
Definition add_days (d : date) (k : Z) : result date :=
  let o := toordinal d + k in
  if (0 <? o) && (o <=? MAXORDINAL) then Ok (ord2ymd o)
  else Raise (Exn "OverflowError" "date value out of range").

(** [(d2 - d1).days] *)
Definition days_between (d2 d1 : date) : Z := toordinal d2 - toordinal d1.

(** [d.strftime("%Y-%m-%d")]; the year is written with four digits. *)
Definition strftime_Ymd (d : date) : string :=
  zero_pad 4 (year d) ++ "-" ++ zero_pad 2 (month d) ++ "-" ++ zero_pad 2 (day d).

(** [d1 >= d2] on dates: the fields compared in order. *)
Definition date_geb (d1 d2 : date) : bool :=
  match year d1 ?= year d2 with
  | Gt => true
  | Lt => false
  | Eq => match month d1 ?= month d2 with
          | Gt => true
          | Lt => false
          | Eq => day d2 <=? day d1
          end
  end.

(** ** [datetime.strptime(s, "%Y-%m-%d")]

    The format compiles to the regular expression
    [(\d\d\d\d)-(1[0-2]|0[1-9]|[1-9])-(3[01]|[12]\d|0[1-9]|[1-9]| [1-9])],
    matched at the start of the string; text left over is an error.
    Strings are byte strings here, and a digit is an ASCII digit. *)

Definition digit (c : ascii) : option Z :=
  let n := Z.of_N (N_of_ascii c) - 48 in
  if (0 <=? n) && (n <=? 9) then Some n else None.

Definition digit_in (lo hi : Z) (c : ascii) : option Z :=
  match digit c with
  | Some n => if (lo <=? n) && (n <=? hi) then Some n else None
  | None => None
  end.

Definition is_char (c d : ascii) : bool := Ascii.eqb c d.

(** The month group and the dash after it. *)
Definition parse_month (s : string) : option (Z * string) :=
  match s with
  | String c1 (String c2 (String c3 r)) =>
      match digit_in 1 1 c1, digit_in 0 2 c2, is_char c3 "-" with
      | Some _, Some b, true => Some (10 + b, r)
      | _, _, _ =>
          match digit_in 0 0 c1, digit_in 1 9 c2, is_char c3 "-" with
          | Some _, Some b, true => Some (b, r)
          | _, _, _ =>
              match digit_in 1 9 c1, is_char c2 "-" with
              | Some a, true => Some (a, String c3 r)
              | _, _ => None
              end
          end
      end
  | String c1 (String c2 r) =>
      match digit_in 1 9 c1, is_char c2 "-" with
      | Some a, true => Some (a, r)
      | _, _ => None
      end
  | _ => None
  end.

(** The day group: the first alternative that matches wins. *)
Definition parse_day (s : string) : option (Z * string) :=
  match s with
  | String c1 r1 =>
      let two :=
        match r1 with
        | String c2 r2 =>
            match digit_in 3 3 c1, digit_in 0 1 c2 with
            | Some _, Some b => Some (30 + b, r2)
            | _, _ =>
                match digit_in 1 2 c1, digit c2 with
                | Some a, Some b => Some (10 * a + b, r2)
                | _, _ =>
                    match digit_in 0 0 c1, digit_in 1 9 c2 with
                    | Some _, Some b => Some (b, r2)
                    | _, _ => None
                    end
                end
            end
        | EmptyString => None
        end in
      match two with
      | Some res => Some res
      | None =>
          match digit_in 1 9 c1 with
          | Some a => Some (a, r1)
          | None =>
              match r1 with
              | String c2 r2 =>
                  match is_char c1 " ", digit_in 1 9 c2 with
                  | true, Some b => Some (b, r2)
                  | _, _ => None
                  end
              | EmptyString => None
              end
          end
      end
  | EmptyString => None
  end.

Definition no_match (s : string) : exn :=
  Exn "ValueError" ("time data '" ++ s ++ "' does not match format '%Y-%m-%d'").

Definition parse_Ymd (s : string) : result date :=
  match s with
  | String y1 (String y2 (String y3 (String y4 (String dash r)))) =>
      match digit y1, digit y2, digit y3, digit y4, is_char dash "-" with
      | Some a, Some b, Some c, Some d, true =>
          match parse_month r with
          | Some (m, r') =>
              match parse_day r' with
              | Some (dd, EmptyString) => make_date (1000 * a + 100 * b + 10 * c + d) m dd
              | Some (_, rest) =>
                  Raise (Exn "ValueError" ("unconverted data remains: " ++ rest))
              | None => Raise (no_match s)
              end
          | None => Raise (no_match s)
          end
      | _, _, _, _, _ => Raise (no_match s)
      end
  | _ => Raise (no_match s)
  end.

Definition strptime (v : pyval) : result date :=
  match v with
  | PStr s => parse_Ymd s
  | _ => Raise (Exn "TypeError"
                  ("strptime() argument 1 must be str, not " ++ type_name v))
  end.

End Datetime.

(* ================================================================== *)
(** * The world the program runs in *)
(* ================================================================== *)

Module World.
Import Py.

(** What the program does not define itself: Python's [repr] of floats,
    containers and client objects, the Earth Engine client library (which
    may reject a call) and server (answering [getInfo]), the hosted text
    model and the process environment. *)
Record runtime := {
  py_repr : pyval -> string;
  ee_client : ee -> option exn;
  ee_server : ee -> result pyval;
  generate_content : string -> result string;
  GOOGLE_API_KEY : option string
}.

(** One interaction with the geo backend: a client-library call building
    an object, or a [getInfo] round trip to the server. *)
Inductive event :=
| Call (e : ee)
| GetInfo (e : ee).

(** Elements Streamlit draws. Input widgets are not recorded: the values
    they return are arguments of the render functions. *)
Inductive widget :=
| st_subheader (s : string)
| st_info (s : string)
| st_error (s : string)
| st_success (s : string)
| st_warning (s : string)
| st_spinner (s : string)
| st_metric (label value : string)
| st_write (s : string)
| st_markdown (s : string)
| st_button (label : string)
| st_download_button (label data file_name : string).

(** [GlacierVelocityEngine] and [GlacierQA] instances. *)
Record engine := { max_offset_m : Z; window_days : Z }.
Record qa_system_t := { model : string }.

(** [st.session_state]: a key that is absent is [None]. *)
Record session_state := {
  velocity_engine : option engine;
  velocity_result : option dict;
  qa_system : option qa_system_t;
  qa_latest_question : option string;
  qa_latest_answer : option string
}.

Record world := {
  backend_log : list event;
  prompts : list string;
  session : session_state;
  screen : list widget
}.

Definition M (A : Type) : Type := world -> result A * world.

Definition ret {A} (a : A) : M A := fun w => (Ok a, w).

Definition bind {A B} (m : M A) (k : A -> M B) : M B :=
  fun w =>
    match m w with
    | (Ok a, w') => k a w'
    | (Raise x, w') => (Raise x, w')
    end.

Definition raise {A} (x : exn) : M A := fun w => (Raise x, w).

(** A pure computation that may raise. *)
Definition lift {A} (r : result A) : M A := fun w => (r, w).

(** [try: m except Exception as e: h(e)] *)
Definition try_except {A} (m : M A) (h : exn -> M A) : M A :=
  fun w =>
    match m w with
    | (Ok a, w') => (Ok a, w')
    | (Raise x, w') => h x w'
    end.

Definition log_event (ev : event) : M unit :=
  fun w => (Ok tt, {| backend_log := backend_log w ++ [ev]; prompts := prompts w;
                      session := session w; screen := screen w |}).

Definition log_prompt (p : string) : M unit :=
  fun w => (Ok tt, {| backend_log := backend_log w; prompts := prompts w ++ [p];
                      session := session w; screen := screen w |}).

Definition draw (x : widget) : M unit :=
  fun w => (Ok tt, {| backend_log := backend_log w; prompts := prompts w;
                      session := session w; screen := screen w ++ [x] |}).

Definition get_session : M session_state := fun w => (Ok (session w), w).

Definition put_session (s : session_state) : M unit :=
  fun w => (Ok tt, {| backend_log := backend_log w; prompts := prompts w;
                      session := s; screen := screen w |}).

End World.

Declare Scope monad_scope.
Notation "x <~ r ;; k" := (Py.and_then r (fun x => k))
  (at level 61, r at next level, right associativity) : monad_scope.
Notation "x <- m ;; k" := (World.bind m (fun x => k))
  (at level 61, m at next level, right associativity) : monad_scope.
Notation "m ;;; k" := (World.bind m (fun _ => k))
  (at level 61, right associativity) : monad_scope.
Open Scope monad_scope.

(* ================================================================== *)
(** * llm_core.py *)
(* ================================================================== *)

Section Program.
Import Py Datetime World.

Variable rt : runtime.

Definition LF : string := String (ascii_of_nat 10) EmptyString.

(** [str(v)], as an f-string field without a format spec renders it. *)
Definition py_str (v : pyval) : string :=
  match v with
  | PNone => "None"
  | PBool true => "True"
  | PBool false => "False"
  | PInt z => string_of_Z z
  | PStr s => s
  | _ => py_repr rt v
  end.

Definition operand_error (op : string) (v : pyval) (other : string) : exn :=
  Exn "TypeError" ("unsupported operand type(s) for " ++ op ++ ": '"
                   ++ type_name v ++ "' and '" ++ other ++ "'").

(** [v * k] for an [int] literal [k]: numbers multiply, sequences repeat. *)
Definition py_mul_int (v : pyval) (k : Z) : result pyval :=
  match v with
  | PInt z => Ok (PInt (z * k))
  | PBool b => Ok (PInt ((if b then 1 else 0) * k))
  | PFloat x => Ok (PFloat (b64_mul x (b64_of_Z k)))
  | PStr s => Ok (PStr (repeat_string s (Z.to_nat k)))
  | PTuple l => Ok (PTuple (List.concat (List.repeat l (Z.to_nat k))))
  | _ => Raise (operand_error "*" v "int")
  end.

(** [v * c] and [v - c] for a [float] literal [c]. *)
Definition py_float_op (op : string) (f : spec_float -> spec_float -> spec_float)
    (v : pyval) (c : spec_float) : result spec_float :=
  match v with
  | PFloat x => Ok (f x c)
  | PInt z =>
      match float_of_int z with
      | Ok x => Ok (f x c)
      | Raise e => Raise e
      end
  | PBool b => Ok (f (b64_of_Z (if b then 1 else 0)) c)
  | PStr _ | PTuple _ =>
      if String.eqb op "*"
      then Raise (Exn "TypeError" "can't multiply sequence by non-int of type 'float'")
      else Raise (operand_error op v "float")
  | _ => Raise (operand_error op v "float")
  end.

(** ** Talking to Earth Engine *)

(** A client-library call: the library may reject it; otherwise the object
    is the expression built. *)
Definition call (e : ee) : M ee :=
  log_event (Call e) ;;;
  match ee_client rt e with
  | Some x => raise x
  | None => ret e
  end.

(** [obj.getInfo()] *)
Definition getInfo (e : ee) : M pyval :=
  log_event (GetInfo e) ;;; lift (ee_server rt e).

(** ** class GlacierVelocityEngine *)

Definition GlacierVelocityEngine : engine :=
  {| max_offset_m := 100; window_days := 30 |}.

Definition mask_s2_clouds (image : ee) : M ee :=
  qa <- call (select image "QA60") ;;
  let cloud_bit_mask := Z.shiftl 1 10 in
  let cirrus_bit_mask := Z.shiftl 1 11 in
  c <- call (bitwiseAnd qa cloud_bit_mask) ;;
  c0 <- call (eq_ c 0) ;;
  r <- call (bitwiseAnd qa cirrus_bit_mask) ;;
  r0 <- call (eq_ r 0) ;;
  mask <- call (And c0 r0) ;;
  call (updateMask image mask).

Definition _get_sentinel2_collection (aoi : ee) (start_date end_date : string) : M ee :=
  c <- call (ImageCollection "COPERNICUS/S2_SR_HARMONIZED") ;;
  c <- call (filterBounds c aoi) ;;
  c <- call (filterDate c start_date end_date) ;;
  f <- call (Filter_lt "CLOUDY_PIXEL_PERCENTAGE" 20) ;;
  c <- call (filter c f) ;;
  body <- mask_s2_clouds map_arg ;;
  call (map_ c body).

(** The [±window_days] search window around [dt], as the two date strings
    passed to [_get_sentinel2_collection]. *)
Definition window (self : engine) (dt : date) : M (string * string) :=
  lo <- lift (add_days dt (- window_days self)) ;;
  hi <- lift (add_days dt (window_days self)) ;;
  ret (strftime_Ymd lo, strftime_Ymd hi).

Definition insufficient_imagery (n1 n2 : pyval) : dict :=
  [("success", PBool false);
   ("error", PStr ("Insufficient cloud-free images found. Period 1 had "
                   ++ py_str n1 ++ " images, Period 2 had " ++ py_str n2
                   ++ ". Try different dates."))].

Definition no_glaciers : dict :=
  [("success", PBool false);
   ("error", PStr "No GLIMS glacier polygons found in the analysis area.")].

Definition calculation_failed (e : exn) : dict :=
  [("success", PBool false);
   ("error", PStr ("Velocity calculation failed: " ++ exn_msg e))].

(** [abs((dt2 - dt1).days)], with [0] replaced by [1]. *)
Definition time_gap (dt1 dt2 : date) : Z :=
  let time_gap_days := Z.abs (days_between dt2 dt1) in
  if time_gap_days =? 0 then 1 else time_gap_days.

(** [col.size().getInfo()] *)
Definition size_info (col : ee) : M pyval :=
  s <- call (size col) ;; getInfo s.

(** The body of the [try] block of [calculate_velocity]. *)
Definition calculate_velocity_try (self : engine)
    (lat lon date1 date2 buffer_km : pyval) : M dict :=
  point <- call (Geometry_Point lon lat) ;;
  dist <- lift (py_mul_int buffer_km 1000) ;;
  aoi <- call (buffer point dist) ;;
  dt1 <- lift (strptime date1) ;;
  dt2 <- lift (strptime date2) ;;
  w1 <- window self dt1 ;;
  col1 <- _get_sentinel2_collection aoi (fst w1) (snd w1) ;;
  w2 <- window self dt2 ;;
  col2 <- _get_sentinel2_collection aoi (fst w2) (snd w2) ;;
  n1 <- size_info col1 ;;
  empty <- (if eq_zero n1 then ret true
            else n2 <- size_info col2 ;; ret (eq_zero n2)) ;;
  if (empty : bool) then
    n1 <- size_info col1 ;;
    n2 <- size_info col2 ;;
    ret (insufficient_imagery n1 n2)
  else
    s1 <- call (sort col1 "CLOUDY_PIXEL_PERCENTAGE") ;;
    img1 <- call (first s1) ;;
    s2 <- call (sort col2 "CLOUDY_PIXEL_PERCENTAGE") ;;
    img2 <- call (first s2) ;;
    b2 <- call (select img2 "B8") ;;
    b1 <- call (select img1 "B8") ;;
    disp <- call (displacement b2 b1 (max_offset_m self) 256) ;;
    dx <- call (select disp "dx") ;;
    dy <- call (select disp "dy") ;;
    let time_gap_days := time_gap dt1 dt2 in
    h <- call (hypot dx dy) ;;
    q <- call (divide h time_gap_days) ;;
    speed_m_day <- call (rename q "velocity") ;;
    fc <- call (FeatureCollection "GLIMS/20230607") ;;
    glaciers <- call (filterBounds fc aoi) ;;
    g <- size_info glaciers ;;
    if eq_zero g then ret no_glaciers
    else
      zero <- call (Image_const 0) ;;
      painted <- call (paint zero glaciers 1) ;;
      glacier_mask <- call (gt painted 0) ;;
      speed_final <- call (updateMask speed_m_day glacier_mask) ;;
      r1 <- call Reducer_mean ;;
      r2 <- call Reducer_minMax ;;
      reducer <- call (combine r1 r2 "" true) ;;
      rr <- call (reduceRegion speed_final reducer aoi 100 1000000000) ;;
      stats <- getInfo rr ;;
      ret [("success", PBool true);
           ("velocity_m_day", PObj speed_final);
           ("glacier_polygons", PObj glaciers);
           ("time_gap_days", PInt time_gap_days);
           ("stats", stats);
           ("analysis_dates", PTuple [date1; date2])].

Definition calculate_velocity (self : engine)
    (lat lon date1 date2 buffer_km : pyval) : M dict :=
  try_except (calculate_velocity_try self lat lon date1 date2 buffer_km)
             (fun e => ret (calculation_failed e)).

(** ** class GlacierQA *)

Definition GlacierQA : M qa_system_t :=
  match GOOGLE_API_KEY rt with
  | Some (String _ _) => ret {| model := "gemini-1.5-flash" |}
  | _ => raise (Exn "ValueError" "GOOGLE_API_KEY not found in .env file. Please set it.")
  end.

(** The eight spaces that indent the lines of the triple-quoted templates. *)
Definition ind : string := "        ".

Definition location_section (name lat lon date description : string) : string :=
  LF ++ ind ++ "**GLACIER ANALYSIS CONTEXT:**" ++ LF
  ++ LF
  ++ ind ++ "**Location Information:**" ++ LF
  ++ ind ++ "- Glacier/Location: " ++ name ++ LF
  ++ ind ++ "- Coordinates: " ++ lat ++ "°N, " ++ lon ++ "°E" ++ LF
  ++ ind ++ "- Analysis Date: " ++ date ++ LF
  ++ LF
  ++ ind ++ "**Climate Data (Source: FLDAS):**" ++ LF
  ++ ind ++ "- Selected Variable: " ++ description ++ LF
  ++ ind.

Definition velocity_section (date1 date2 avg_vel_str max_vel_str : string) : string :=
  LF ++ ind ++ "**Glacier Velocity Analysis (Source: Sentinel-2):**" ++ LF
  ++ ind ++ "- Time Period: " ++ date1 ++ " to " ++ date2 ++ LF
  ++ ind ++ "- Average Velocity: " ++ avg_vel_str ++ " m/day" ++ LF
  ++ ind ++ "- Max Velocity: " ++ max_vel_str ++ " m/day" ++ LF
  ++ ind.

Definition scientific_background : string :=
  LF ++ ind ++ "**Scientific Background:**" ++ LF
  ++ ind ++ "- Glacier velocity often increases with temperature due to surface meltwater lubricating the glacier bed." ++ LF
  ++ ind ++ "- Summer velocities are typically higher than winter velocities." ++ LF
  ++ ind ++ "- Air temperature is a primary driver of glacier melt. A mean temperature above 0°C is significant." ++ LF
  ++ ind ++ "- Snowfall (accumulation) and melting (ablation) determine a glacier's mass balance and health." ++ LF
  ++ ind.

(** [v.get(...)] needs [v] to be a dict. *)
Definition as_dict (v : pyval) : result dict :=
  match v with
  | PDict d => Ok d
  | _ => Raise (Exn "AttributeError"
                  ("'" ++ type_name v ++ "' object has no attribute 'get'"))
  end.

(** The text [create_context] adds for [stats_data]. *)
Definition stats_lines (climate_data : dict) (stats_data : pyval) : result string :=
  if truthy stats_data then
    stats <~ as_dict stats_data ;;
    let variable := dict_get climate_data "variable" PNone in
    let mean_temp_k := dict_get stats (py_str variable ++ "_mean") PNone in
    if truthy mean_temp_k && eq_str variable "Tair_f_tavg" then
      mean_temp_c <~ py_float_op "-" b64_sub mean_temp_k (b64_literal 27315 2) ;;
      k <~ py_format_f 2 mean_temp_k ;;
      Ok ("- Mean Temperature: " ++ k ++ " K (" ++ format_f 2 mean_temp_c ++ " °C)" ++ LF)
    else
      first_key <~ match stats with
                   | (k0, _) :: _ => Ok k0
                   | [] => Raise (Exn "IndexError" "list index out of range")
                   end ;;
      v <~ py_format_f 4 (dict_get stats first_key (PStr "N/A")) ;;
      Ok ("- Mean Value: " ++ v ++ LF)
  else Ok "".

(** [f"{v:.4f}" if isinstance(v, (int, float)) else "Not Calculated"] *)
Definition vel_str (v : pyval) : result string :=
  if is_int_or_float v then py_format_f 4 v else Ok "Not Calculated".

(** The text [create_context] adds for [velocity_data]. *)
Definition velocity_lines (velocity_data : pyval) : result string :=
  if truthy velocity_data then
    vd <~ as_dict velocity_data ;;
    let avg_vel := dict_get vd "avg_velocity" PNone in
    let max_vel := dict_get vd "max_velocity" PNone in
    avg_vel_str <~ vel_str avg_vel ;;
    max_vel_str <~ vel_str max_vel ;;
    Ok (velocity_section (py_str (dict_get vd "date1" (PStr "N/A")))
                         (py_str (dict_get vd "date2" (PStr "N/A")))
                         avg_vel_str max_vel_str)
  else Ok "".

Definition create_context (glacier_info climate_data date_info : dict)
    (stats_data velocity_data : pyval) : result string :=
  let name := py_str (dict_get glacier_info "name" (PStr "Unknown")) in
  lat <~ py_format_f 4 (dict_get glacier_info "lat" (PStr "N/A")) ;;
  lon <~ py_format_f 4 (dict_get glacier_info "lon" (PStr "N/A")) ;;
  let context :=
    location_section name lat lon
      (py_str (dict_get date_info "date" (PStr "N/A")))
      (py_str (dict_get climate_data "description" (PStr "N/A"))) in
  s <~ stats_lines climate_data stats_data ;;
  let context := context ++ s in
  v <~ velocity_lines velocity_data ;;
  let context := context ++ v in
  Ok (context ++ scientific_background).

Definition system_prompt : string :=
  LF ++ ind ++ "You are an expert in glaciology and remote sensing. Your role is to analyze the provided data context and answer the user's question." ++ LF
  ++ ind ++ "- Be concise and clear." ++ LF
  ++ ind ++ "- Directly use the data from the context (e.g., temperature values, velocity)." ++ LF
  ++ ind ++ "- Explain the scientific reasoning behind your answer." ++ LF
  ++ ind ++ "- If data is missing, state what is missing and how it would improve the analysis." ++ LF
  ++ ind ++ "- Keep your response to 2-3 paragraphs." ++ LF
  ++ ind.

Definition full_prompt (question context : string) : string :=
  system_prompt ++ LF ++ LF ++ context ++ LF ++ LF ++ "**User Question:** " ++ question.

Definition answer_question (question context : string) : M string :=
  try_except
    (log_prompt (full_prompt question context) ;;;
     lift (generate_content rt (full_prompt question context)))
    (fun e => ret ("Error generating response: " ++ exn_msg e)).

Definition suggest_questions (glacier_name climate_variable : pyval)
    (has_velocity : bool) : list string :=
  let questions :=
    ["How might current " ++ py_str climate_variable ++ " conditions affect "
       ++ py_str glacier_name ++ "?";
     "What does this " ++ py_str climate_variable
       ++ " data tell us about the glacier's health?"] in
  if has_velocity then
    questions ++ ["How does the measured velocity relate to the climate conditions?";
                  "Is this velocity typical for a glacier in this region?"]
  else questions.

(** ** Module-level functions *)

Definition initialize_velocity_engine : M (option engine) :=
  try_except (ret (Some GlacierVelocityEngine))
    (fun e => draw (st_error ("Failed to initialize velocity engine: " ++ exn_msg e)) ;;;
              ret None).

(** How one run of the script ends: normally, or cut short by [st.rerun()]
    or [st.stop()]. *)
Inductive run_status := Completed | Rerun | Stopped.

(** What the widgets of the velocity tab return in this run. *)
Record velocity_inputs := {
  start_date : date;
  end_date : date;
  calculate_pressed : bool
}.

Definition set_velocity_result (r : dict) : M unit :=
  s <- get_session ;;
  put_session {| velocity_engine := velocity_engine s;
                 velocity_result := Some r;
                 qa_system := qa_system s;
                 qa_latest_question := qa_latest_question s;
                 qa_latest_answer := qa_latest_answer s |}.

(** Lines 199-211: showing the stored result. *)
Definition show_velocity_result : M unit :=
  s <- get_session ;;
  match velocity_result s with
  | None => ret tt
  | Some result =>
      if truthy (dict_get result "success" PNone) then
        stats <- lift (as_dict (dict_get result "stats" (PDict []))) ;;
        let mean_vel := py_or (dict_get stats "velocity_mean" (PInt 0)) (PInt 0) in
        let max_vel := py_or (dict_get stats "velocity_max" (PInt 0)) (PInt 0) in
        days <- lift (dict_index result "time_gap_days") ;;
        draw (st_success ("Analysis Complete for **" ++ py_str days ++ " days**.")) ;;;
        a <- lift (py_format_f 2 mean_vel) ;;
        draw (st_metric "Avg. Velocity" (a ++ " m/day")) ;;;
        b <- lift (py_format_f 2 max_vel) ;;
        draw (st_metric "Max. Velocity" (b ++ " m/day")) ;;;
        annual <- lift (py_float_op "*" b64_mul mean_vel (b64_literal 36525 2)) ;;
        draw (st_metric "Est. Annual Speed" (format_f 1 annual ++ " m/year"))
      else
        draw (st_error ("Analysis Failed: "
                        ++ py_str (dict_get result "error" (PStr "Unknown error"))))
  end.

Definition render_manual_velocity_interface (location : dict)
    (selected_glacier : string) (inp : velocity_inputs) : M run_status :=
  draw (st_subheader "Glacier Velocity Analysis") ;;;
  draw (st_info "Measure glacier speed between two dates using Sentinel-2 satellite imagery.") ;;;
  let date1 := start_date inp in
  let date2 := end_date inp in
  status <- (if calculate_pressed inp then
               if date_geb date1 date2 then
                 draw (st_error "End date must be after start date.") ;;; ret Completed
               else
                 s <- get_session ;;
                 engine <- match velocity_engine s with
                           | Some e => ret e
                           | None => raise (Exn "AttributeError"
                               "st.session_state has no attribute 'velocity_engine'")
                           end ;;
                 draw (st_spinner "Calculating velocity... This can take up to a minute.") ;;;
                 lat <- lift (dict_index location "lat") ;;
                 lon <- lift (dict_index location "lon") ;;
                 result <- calculate_velocity engine lat lon
                             (PStr (strftime_Ymd date1)) (PStr (strftime_Ymd date2))
                             (PInt 5) ;;
                 set_velocity_result result ;;;
                 ret Rerun
             else ret Completed) ;;
  match status with
  | Completed => show_velocity_result ;;; ret Completed
  | _ => ret status
  end.

(** What the widgets of the assistant tab return in this run. *)
Record qa_inputs := {
  question : string;
  ask_pressed : bool
}.

(** A [str] is held as its UTF-8 bytes.  The characters [str.strip()]
    removes are those of [str.isspace()]; the ones of one byte are
    U+0009..U+000D, U+001C..U+001F and U+0020. *)
Definition is_space (c : ascii) : bool :=
  let n := N_of_ascii c in
  (((9 <=? n) && (n <=? 13)) || ((28 <=? n) && (n <=? 32)))%N.

(** The ones of two bytes: U+0085 (C2 85) and U+00A0 (C2 A0). *)
Definition is_space2 (c1 c2 : ascii) : bool :=
  let a := N_of_ascii c1 in
  let b := N_of_ascii c2 in
  ((a =? 194) && ((b =? 133) || (b =? 160)))%N.

(** The ones of three bytes: U+1680 (E1 9A 80), U+2000..U+200A
    (E2 80 80..8A), U+2028, U+2029 (E2 80 A8, A9), U+202F (E2 80 AF),
    U+205F (E2 81 9F) and U+3000 (E3 80 80). *)
Definition is_space3 (c1 c2 c3 : ascii) : bool :=
  let a := N_of_ascii c1 in
  let b := N_of_ascii c2 in
  let c := N_of_ascii c3 in
  (((a =? 225) && (b =? 154) && (c =? 128))
   || ((a =? 226) && (b =? 128)
       && (((128 <=? c) && (c <=? 138)) || (c =? 168) || (c =? 169) || (c =? 175)))
   || ((a =? 226) && (b =? 129) && (c =? 159))
   || ((a =? 227) && (b =? 128) && (c =? 128)))%N.

(** [bool(s.strip())]: some character is not white space.  The string is
    read from its start, one character (of one, two or three bytes) at a
    time, as long as the characters are white space. *)
Fixpoint strip_nonempty (s : string) : bool :=
  match s with
  | EmptyString => false
  | String c1 r1 =>
      if is_space c1 then strip_nonempty r1
      else
        match r1 with
        | String c2 r2 =>
            if is_space2 c1 c2 then strip_nonempty r2
            else
              match r2 with
              | String c3 r3 =>
                  if is_space3 c1 c2 c3 then strip_nonempty r3 else true
              | EmptyString => true
              end
        | EmptyString => true
        end
  end.

Definition set_qa_system (q : qa_system_t) : M unit :=
  s <- get_session ;;
  put_session {| velocity_engine := velocity_engine s;
                 velocity_result := velocity_result s;
                 qa_system := Some q;
                 qa_latest_question := qa_latest_question s;
                 qa_latest_answer := qa_latest_answer s |}.

Definition set_qa_latest (q a : string) : M unit :=
  s <- get_session ;;
  put_session {| velocity_engine := velocity_engine s;
                 velocity_result := velocity_result s;
                 qa_system := qa_system s;
                 qa_latest_question := Some q;
                 qa_latest_answer := Some a |}.

Fixpoint draw_suggestions (l : list string) : M unit :=
  match l with
  | [] => ret tt
  | x :: l' => draw (st_button x) ;;; draw_suggestions l'
  end.

(** [velocity_data is not None] *)
Definition is_not_None (v : pyval) : bool :=
  match v with
  | PNone => false
  | _ => true
  end.

Definition render_ai_assistant_tab (glacier_info climate_data date_info : dict)
    (stats_data velocity_data : pyval) (inp : qa_inputs) : M unit :=
  draw (st_subheader "Ask the AI Glacier Expert") ;;;
  s <- get_session ;;
  _ <- match qa_system s with
       | Some q => ret q
       | None => q <- GlacierQA ;; set_qa_system q ;;; ret q
       end ;;
  (if ask_pressed inp then
     if strip_nonempty (question inp) then
       draw (st_spinner "AI is analyzing your data...") ;;;
       context <- lift (create_context glacier_info climate_data date_info
                                       stats_data velocity_data) ;;
       answer <- answer_question (question inp) context ;;
       set_qa_latest (question inp) answer
     else draw (st_warning "Please enter a question.")
   else ret tt) ;;;
  draw (st_write "**Suggested Questions:**") ;;;
  let has_velocity := is_not_None velocity_data in
  let suggestions :=
    suggest_questions (dict_get glacier_info "name" (PStr "this glacier"))
                      (dict_get climate_data "description" (PStr "climate data"))
                      has_velocity in
  draw_suggestions suggestions ;;;
  s <- get_session ;;
  match qa_latest_answer s with
  | None => ret tt
  | Some a =>
      q <- match qa_latest_question s with
           | Some q => ret q
           | None => raise (Exn "AttributeError"
               "st.session_state has no attribute 'qa_latest_question'")
           end ;;
      draw (st_markdown "---") ;;;
      draw (st_info ("**Your Question:** " ++ q)) ;;;
      draw (st_markdown a) ;;;
      let answer_text := "Question: " ++ q ++ LF ++ LF ++ "Answer:" ++ LF ++ a in
      draw (st_download_button "Download Answer" answer_text "glacier_analysis.txt")
  end.

(* ================================================================== *)
(** * app.py *)
(* ================================================================== *)

(** [d[k] = v]: an existing key keeps its place. *)
Fixpoint dict_set (d : dict) (k : string) (v : pyval) : dict :=
  match d with
  | [] => [(k, v)]
  | (k', v') :: d' =>
      if String.eqb k' k then (k, v) :: d' else (k', v') :: dict_set d' k v
  end.

Definition place (lat lon : spec_float) (zoom : Z) : dict :=
  [("lat", PFloat lat); ("lon", PFloat lon); ("zoom", PInt zoom)].

Definition glacier_locations : dict :=
  [("Pindari Glacier", PDict (place (b64_literal 3032 2) (b64_literal 7996 2) 12));
   ("Gangotri Glacier", PDict (place (b64_literal 3093 2) (b64_literal 7908 2) 12));
   ("Siachen Glacier", PDict (place (b64_literal 3542 2) (b64_literal 7710 2) 11));
   ("Baltoro Glacier", PDict (place (b64_literal 3571 2) (b64_literal 7643 2) 11))].

(** What the widgets of the page header return in this run. The climate-map
    tab (lines 175-219 of [app.py]) is not embedded; the objects it leaves
    for the assistant tab are taken as given. *)
Record app_inputs := {
  search_mode : string;
  number_input_lat : spec_float;
  number_input_lon : spec_float;
  selectbox_glacier : string;
  analysis_date : date;
  buffer_size : Z;
  zoom_level : Z;
  velocity_tab : velocity_inputs;
  ai_tab : qa_inputs;
  selected_climate_name : string;
  climate_var : string;
  fldas : ee;
  climate_img : option ee
}.

(** Lines 120-149: the location chosen in the header. *)
Definition choose_location (inp : app_inputs) : result (dict * string) :=
  let location := place (b64_literal 3032 2) (b64_literal 7996 2) 12 in
  if String.eqb (search_mode inp) "Custom Coordinates" then
    let location := dict_set location "lat" (PFloat (number_input_lat inp)) in
    let location := dict_set location "lon" (PFloat (number_input_lon inp)) in
    Ok (dict_set location "zoom" (PInt (zoom_level inp)), "Custom Location")
  else
    l <~ dict_index glacier_locations (selectbox_glacier inp) ;;
    location <~ as_dict l ;;
    Ok (dict_set location "zoom" (PInt (zoom_level inp)), selectbox_glacier inp).

(** Lines 156-162: the analysis area and what is known about it. *)
Definition fetch_data (location : dict) (selected_glacier : string)
    (inp : app_inputs) : M (ee * dict * dict) :=
  lon <- lift (dict_index location "lon") ;;
  lat <- lift (dict_index location "lat") ;;
  center_point <- call (Geometry_Point lon lat) ;;
  analysis_area <- call (buffer center_point (PInt (buffer_size inp * 1000))) ;;
  fc <- call (FeatureCollection "GLIMS/20230607") ;;
  glaciers_fc <- call (filterBounds fc analysis_area) ;;
  glacier_count <- size_info glaciers_fc ;;
  lat <- lift (dict_index location "lat") ;;
  lon <- lift (dict_index location "lon") ;;
  let glacier_info :=
    [("name", PStr selected_glacier); ("lat", lat); ("lon", lon);
     ("buffer_size", PInt (buffer_size inp)); ("glacier_count", glacier_count)] in
  let date_info := [("date", PStr (strftime_Ymd (analysis_date inp)))] in
  ret (analysis_area, glacier_info, date_info).

(** [st.session_state.get('velocity_result')] *)
Definition session_get_velocity_result (s : session_state) : pyval :=
  match velocity_result s with
  | Some r => PDict r
  | None => PNone
  end.

(** Lines 224-233: the assistant tab. *)
Definition tab_ai (analysis_area : ee) (glacier_info date_info : dict)
    (inp : app_inputs) : M unit :=
  image_count <- size_info (fldas inp) ;;
  let climate_data :=
    [("variable", PStr (climate_var inp));
     ("description", PStr (selected_climate_name inp));
     ("image_count", image_count)] in
  stats_data <- match climate_img inp with
                | Some img =>
                    r1 <- call Reducer_mean ;;
                    r2 <- call Reducer_minMax ;;
                    reducer <- call (combine r1 r2 "" true) ;;
                    rr <- call (reduceRegion img reducer analysis_area 1000 1000000000) ;;
                    getInfo rr
                | None => ret PNone
                end ;;
  s <- get_session ;;
  render_ai_assistant_tab glacier_info climate_data date_info stats_data
                          (session_get_velocity_result s) (ai_tab inp).

Definition set_velocity_engine (e : option engine) : M unit :=
  s <- get_session ;;
  put_session {| velocity_engine := e;
                 velocity_result := velocity_result s;
                 qa_system := qa_system s;
                 qa_latest_question := qa_latest_question s;
                 qa_latest_answer := qa_latest_answer s |}.

(** One run of the script, from the engine set-up (line 108) on, without
    the climate-map tab. *)
Definition app_py (inp : app_inputs) : M run_status :=
  s <- get_session ;;
  (match velocity_engine s with
   | Some _ => ret tt
   | None => e <- initialize_velocity_engine ;; set_velocity_engine e
   end) ;;;
  loc <- lift (choose_location inp) ;;
  let location := fst loc in
  let selected_glacier := snd loc in
  fetched <- try_except
               (r <- fetch_data location selected_glacier inp ;; ret (Some r))
               (fun e =>
                  draw (st_error ("An error occurred during Earth Engine processing: "
                                  ++ exn_msg e)) ;;;
                  ret None) ;;
  match fetched with
  | None => ret Stopped
  | Some (analysis_area, glacier_info, date_info) =>
      status <- render_manual_velocity_interface location selected_glacier
                  (velocity_tab inp) ;;
      match status with
      | Completed => tab_ai analysis_area glacier_info date_info inp ;;; ret Completed
      | _ => ret status
      end
  end.

(** One run of the whole script, from the initialisation of the client
    library on.  Lines 100-106: [ee_init] is what the credential check,
    [ee.Authenticate()] and [ee.Initialize(...)] of the client library give,
    [Ok] or the exception raised; when they raise, the error is drawn and
    [st.stop()] ends the run before the engine is set up.  Lines 173-219,
    the climate-map tab, are [tab_map]: any computation, which may talk to
    the backend, draw, or raise and end the run; the values it hands on
    ([selected_climate_name], [climate_var], [fldas], [climate_img]) are
    those of [inp].  The texts of the page header (title, sidebar, captions)
    are not drawn here. *)
Definition app_script (ee_init : result unit) (tab_map : M unit) (inp : app_inputs)
  : M run_status :=
  match ee_init with
  | Raise e =>
      draw (st_error ("Failed to initialize Google Earth Engine. Error: " ++ exn_msg e)) ;;;
      ret Stopped
  | Ok _ =>
      s <- get_session ;;
      (match velocity_engine s with
       | Some _ => ret tt
       | None => e <- initialize_velocity_engine ;; set_velocity_engine e
       end) ;;;
      loc <- lift (choose_location inp) ;;
      let location := fst loc in
      let selected_glacier := snd loc in
      fetched <- try_except
                   (r <- fetch_data location selected_glacier inp ;; ret (Some r))
                   (fun e =>
                      draw (st_error ("An error occurred during Earth Engine processing: "
                                      ++ exn_msg e)) ;;;
                      ret None) ;;
      match fetched with
      | None => ret Stopped
      | Some (analysis_area, glacier_info, date_info) =>
          tab_map ;;;
          status <- render_manual_velocity_interface location selected_glacier
                      (velocity_tab inp) ;;
          match status with
          | Completed => tab_ai analysis_area glacier_info date_info inp ;;; ret Completed
          | _ => ret status
          end
      end
  end.

(* ================================================================== *)
(** * What the objects built by [calculate_velocity] denote *)
(* ================================================================== *)

(** The objects the client library hands back when it accepts every call
    of [calculate_velocity]: the expressions the server later evaluates. *)

Definition aoi_of (lat lon dist : pyval) : ee :=
  buffer (Geometry_Point lon lat) dist.

Definition cloud_mask_of (image : ee) : ee :=
  let qa := select image "QA60" in
  updateMask image
    (And (eq_ (bitwiseAnd qa (Z.shiftl 1 10)) 0) (eq_ (bitwiseAnd qa (Z.shiftl 1 11)) 0)).

Definition collection_of (aoi : ee) (w : string * string) : ee :=
  map_ (filter (filterDate (filterBounds (ImageCollection "COPERNICUS/S2_SR_HARMONIZED") aoi)
                           (fst w) (snd w))
               (Filter_lt "CLOUDY_PIXEL_PERCENTAGE" 20))
       (cloud_mask_of map_arg).

Definition window_of (self : engine) (dt : date) : string * string :=
  (strftime_Ymd (ord2ymd (toordinal dt - window_days self)),
   strftime_Ymd (ord2ymd (toordinal dt + window_days self))).

Definition best_image_of (col : ee) : ee :=
  first (sort col "CLOUDY_PIXEL_PERCENTAGE").

Definition displacement_of (self : engine) (col1 col2 : ee) : ee :=
  displacement (select (best_image_of col2) "B8") (select (best_image_of col1) "B8")
               (max_offset_m self) 256.

Definition speed_m_day_of (disp : ee) (days : Z) : ee :=
  rename (divide (hypot (select disp "dx") (select disp "dy")) days) "velocity".

Definition glaciers_of (aoi : ee) : ee :=
  filterBounds (FeatureCollection "GLIMS/20230607") aoi.

Definition glacier_mask_of (glaciers : ee) : ee :=
  gt (paint (Image_const 0) glaciers 1) 0.

Definition speed_final_of (disp : ee) (days : Z) (glaciers : ee) : ee :=
  updateMask (speed_m_day_of disp days) (glacier_mask_of glaciers).

Definition mean_min_max : ee := combine Reducer_mean Reducer_minMax "" true.

Definition stats_query (speed_final aoi : ee) : ee :=
  reduceRegion speed_final mean_min_max aoi 100 1000000000.

Definition success_dict (speed_final glaciers : ee) (days : Z) (stats date1 date2 : pyval)
  : dict :=
  [("success", PBool true);
   ("velocity_m_day", PObj speed_final);
   ("glacier_polygons", PObj glaciers);
   ("time_gap_days", PInt days);
   ("stats", stats);
   ("analysis_dates", PTuple [date1; date2])].

(** A reading of the server's raster algebra: what an image expression is
    worth at a pixel ([None] is masked, no data), which features a
    collection holds, and which pixels a region reduction visits. *)
Record raster_semantics := {
  pixel : Type;
  feature : Type;
  sample : ee -> pixel -> option R;
  features : ee -> list feature;
  covers : feature -> pixel -> bool;
  intersects : feature -> ee -> bool;
  region : ee -> Z -> list pixel;
  reduce : ee -> list R -> pyval
}.

(** A pixel lies in the footprint of a feature collection. *)
Definition inside (sem : raster_semantics) (fc : ee) (p : pixel sem) : bool :=
  existsb (fun f => covers sem f p) (features sem fc).

(** Values of the unmasked pixels among [ps]. *)
Fixpoint unmasked {A} (f : A -> option R) (ps : list A) : list R :=
  match ps with
  | [] => []
  | p :: ps' =>
      match f p with
      | Some x => x :: unmasked f ps'
      | None => unmasked f ps'
      end
  end.

(** The documented meaning of the Earth Engine operations the estimator
    composes. *)
Record lawful (sem : raster_semantics) : Prop := {
  features_filterBounds : forall fc g,
    features sem (filterBounds fc g)
    = List.filter (fun f => intersects sem f g) (features sem fc);
  sample_const : forall n p, sample sem (Image_const n) p = Some (IZR n);
  sample_hypot : forall a b p,
    sample sem (hypot a b) p
    = match sample sem a p, sample sem b p with
      | Some x, Some y => Some (sqrt (x * x + y * y))
      | _, _ => None
      end;
  sample_divide : forall a n p,
    sample sem (divide a n) p = option_map (fun x => (x / IZR n)%R) (sample sem a p);
  sample_rename : forall a s p, sample sem (rename a s) p = sample sem a p;
  sample_paint : forall i fc v p,
    sample sem (paint i fc v) p
    = if inside sem fc p then Some (IZR v) else sample sem i p;
  sample_gt : forall a n p,
    sample sem (gt a n) p
    = option_map (fun x => if Rlt_dec (IZR n) x then 1%R else 0%R) (sample sem a p);
  sample_updateMask : forall a m p,
    sample sem (updateMask a m) p
    = match sample sem m p with
      | Some v => if Req_dec_T v 0 then None else sample sem a p
      | None => None
      end;
  server_reduceRegion : forall i r g scale maxPixels v,
    ee_server rt (reduceRegion i r g scale maxPixels) = Ok v ->
    v = reduce sem r (unmasked (sample sem i) (region sem g scale))
}.

(** The speed the claim describes at a pixel: the displacement magnitude
    per elapsed day inside the glacier footprint, nothing outside it. *)
Definition speed_at (sem : raster_semantics) (disp : ee) (days : Z) (glaciers : ee)
    (p : pixel sem) : option R :=
  if inside sem glaciers p then
    match sample sem (select disp "dx") p, sample sem (select disp "dy") p with
    | Some dx, Some dy => Some (sqrt (dx * dx + dy * dy) / IZR days)%R
    | _, _ => None
    end
  else None.

End Program.

(* ================================================================== *)
(** * Specifications: outcomes, interaction traces, sample runtimes *)
(* ================================================================== *)

Section Outcomes.
Import Py Datetime World.

Variable rt : runtime.

(** The four ways one call of [calculate_velocity] can end, with what the
    backend said on the way. *)
Inductive velocity_outcome (self : engine) (lat lon date1 date2 buffer_km : pyval)
  : dict -> Prop :=
| outcome_failed (e : exn) :
    velocity_outcome self lat lon date1 date2 buffer_km (calculation_failed e)
| outcome_insufficient dist dt1 dt2 n1 n2 :
    py_mul_int buffer_km 1000 = Ok dist ->
    strptime date1 = Ok dt1 ->
    strptime date2 = Ok dt2 ->
    ee_server rt (size (collection_of (aoi_of lat lon dist) (window_of self dt1))) = Ok n1 ->
    ee_server rt (size (collection_of (aoi_of lat lon dist) (window_of self dt2))) = Ok n2 ->
    eq_zero n1 || eq_zero n2 = true ->
    velocity_outcome self lat lon date1 date2 buffer_km (insufficient_imagery rt n1 n2)
| outcome_no_glaciers dist dt1 dt2 n1 n2 g :
    py_mul_int buffer_km 1000 = Ok dist ->
    strptime date1 = Ok dt1 ->
    strptime date2 = Ok dt2 ->
    ee_server rt (size (collection_of (aoi_of lat lon dist) (window_of self dt1))) = Ok n1 ->
    ee_server rt (size (collection_of (aoi_of lat lon dist) (window_of self dt2))) = Ok n2 ->
    eq_zero n1 || eq_zero n2 = false ->
    ee_server rt (size (glaciers_of (aoi_of lat lon dist))) = Ok g ->
    eq_zero g = true ->
    velocity_outcome self lat lon date1 date2 buffer_km no_glaciers
| outcome_success dist dt1 dt2 n1 n2 g stats :
    py_mul_int buffer_km 1000 = Ok dist ->
    strptime date1 = Ok dt1 ->
    strptime date2 = Ok dt2 ->
    ee_server rt (size (collection_of (aoi_of lat lon dist) (window_of self dt1))) = Ok n1 ->
    ee_server rt (size (collection_of (aoi_of lat lon dist) (window_of self dt2))) = Ok n2 ->
    eq_zero n1 || eq_zero n2 = false ->
    ee_server rt (size (glaciers_of (aoi_of lat lon dist))) = Ok g ->
    eq_zero g = false ->
    ee_server rt
      (stats_query
         (speed_final_of
            (displacement_of self (collection_of (aoi_of lat lon dist) (window_of self dt1))
                                  (collection_of (aoi_of lat lon dist) (window_of self dt2)))
            (time_gap dt1 dt2) (glaciers_of (aoi_of lat lon dist)))
         (aoi_of lat lon dist)) = Ok stats ->
    velocity_outcome self lat lon date1 date2 buffer_km
      (success_dict
         (speed_final_of
            (displacement_of self (collection_of (aoi_of lat lon dist) (window_of self dt1))
                                  (collection_of (aoi_of lat lon dist) (window_of self dt2)))
            (time_gap dt1 dt2) (glaciers_of (aoi_of lat lon dist)))
         (glaciers_of (aoi_of lat lon dist)) (time_gap dt1 dt2) stats date1 date2).

(** Partial-correctness reading of a computation: whenever it returns a
    value, the value satisfies [P]. *)
Definition returns {A} (m : M A) (P : A -> Prop) : Prop :=
  forall w, match fst (m w) with
            | Ok a => P a
            | Raise _ => True
            end.

End Outcomes.

Module Trace.
Import Py Datetime World.

(** The world after further backend interactions. *)
Definition logged (w : world) (evs : list event) : world :=
  {| backend_log := backend_log w ++ evs; prompts := prompts w;
     session := session w; screen := screen w |}.

Definition setup (lat lon dist : pyval) : list event :=
  [Call (Geometry_Point lon lat); Call (aoi_of lat lon dist)].

Definition collection (aoi : ee) (w : string * string) : list event :=
  let c0 := ImageCollection "COPERNICUS/S2_SR_HARMONIZED" in
  let c1 := filterBounds c0 aoi in
  let c2 := filterDate c1 (fst w) (snd w) in
  let f := Filter_lt "CLOUDY_PIXEL_PERCENTAGE" 20 in
  let qa := select map_arg "QA60" in
  let c := bitwiseAnd qa (Z.shiftl 1 10) in
  let r := bitwiseAnd qa (Z.shiftl 1 11) in
  [Call c0; Call c1; Call c2; Call f; Call (filter c2 f);
   Call qa; Call c; Call (eq_ c 0); Call r; Call (eq_ r 0);
   Call (And (eq_ c 0) (eq_ r 0)); Call (cloud_mask_of map_arg);
   Call (collection_of aoi w)].

Definition count (col : ee) : list event :=
  [Call (size col); GetInfo (size col)].

(** The test [col1.size().getInfo() == 0 or col2.size().getInfo() == 0]:
    the second window is asked only when the first is not empty. *)
Definition emptiness_test (col1 col2 : ee) (n1 : pyval) : list event :=
  count col1 ++ (if eq_zero n1 then [] else count col2).

Definition selection (self : engine) (col1 col2 : ee) : list event :=
  let img1 := best_image_of col1 in
  let img2 := best_image_of col2 in
  let disp := displacement_of self col1 col2 in
  [Call (sort col1 "CLOUDY_PIXEL_PERCENTAGE"); Call img1;
   Call (sort col2 "CLOUDY_PIXEL_PERCENTAGE"); Call img2;
   Call (select img2 "B8"); Call (select img1 "B8"); Call disp;
   Call (select disp "dx"); Call (select disp "dy")].

Definition speed (disp : ee) (days : Z) : list event :=
  let h := hypot (select disp "dx") (select disp "dy") in
  [Call h; Call (divide h days); Call (speed_m_day_of disp days)].

Definition glacier_lookup (aoi : ee) : list event :=
  [Call (FeatureCollection "GLIMS/20230607"); Call (glaciers_of aoi)]
  ++ count (glaciers_of aoi).

Definition masking (disp : ee) (days : Z) (glaciers : ee) : list event :=
  [Call (Image_const 0); Call (paint (Image_const 0) glaciers 1);
   Call (glacier_mask_of glaciers); Call (speed_final_of disp days glaciers)].

Definition statistics (speed_final aoi : ee) : list event :=
  [Call Reducer_mean; Call Reducer_minMax; Call mean_min_max;
   Call (stats_query speed_final aoi); GetInfo (stats_query speed_final aoi)].

(** Everything up to and including the emptiness test. *)
Definition imagery (self : engine) (lat lon dist : pyval) (dt1 dt2 : date) (n1 : pyval)
  : list event :=
  let aoi := aoi_of lat lon dist in
  let col1 := collection_of aoi (window_of self dt1) in
  let col2 := collection_of aoi (window_of self dt2) in
  setup lat lon dist
  ++ collection aoi (window_of self dt1) ++ collection aoi (window_of self dt2)
  ++ emptiness_test col1 col2 n1.

(** From image selection to the polygon count. *)
Definition tracking (self : engine) (lat lon dist : pyval) (dt1 dt2 : date) : list event :=
  let aoi := aoi_of lat lon dist in
  let col1 := collection_of aoi (window_of self dt1) in
  let col2 := collection_of aoi (window_of self dt2) in
  selection self col1 col2
  ++ speed (displacement_of self col1 col2) (time_gap dt1 dt2)
  ++ glacier_lookup aoi.

(** Lines 156-160 of [app.py]: the analysis area of the page, of radius
    [r] kilometers, and the glaciers in it. *)
Definition fetch (lat lon : pyval) (r : Z) : list event :=
  let area := aoi_of lat lon (PInt (r * 1000)) in
  [Call (Geometry_Point lon lat); Call area;
   Call (FeatureCollection "GLIMS/20230607"); Call (glaciers_of area)]
  ++ count (glaciers_of area).

(** The event is part of computing statistics. *)
Definition is_statistics (ev : event) : bool :=
  match ev with
  | Call (reduceRegion _ _ _ _ _) | GetInfo (reduceRegion _ _ _ _ _) => true
  | Call Reducer_mean | Call Reducer_minMax | Call (combine _ _ _ _) => true
  | _ => false
  end.

End Trace.

(** Sample runtimes: a client library that accepts every call and a server
    that knows how many images each window holds (by its start date), how
    many glacier polygons the area holds, the statistics of a region, and
    one monthly climate image. *)
Module Demo.
Import Py Datetime World.

Definition server (images : string -> Z) (glaciers : Z) (stats : pyval) (e : ee)
  : result pyval :=
  match e with
  | size (filterBounds (FeatureCollection _) _) => Ok (PInt glaciers)
  | size (map_ (filter (filterDate _ start _) _) _) => Ok (PInt (images start))
  | size (ImageCollection _) => Ok (PInt 1)
  | reduceRegion _ _ _ _ _ => Ok stats
  | _ => Raise (Exn "EEException" "Invalid request")
  end.

Definition rt (images : string -> Z) (glaciers : Z) (stats : pyval) : runtime :=
  {| py_repr := fun _ => "<object>";
     ee_client := fun _ => None;
     ee_server := server images glaciers stats;
     generate_content := fun _ => Ok "It depends on the melt season.";
     GOOGLE_API_KEY := Some "key" |}.

(** A mean speed of about 0.0034223 m/day, [0x1.c091c8faeb261p-9]. *)
Definition slow : spec_float := S754_finite false 7891317622223457 (-61).

Definition stats : pyval :=
  PDict [("velocity_mean", PFloat slow);
         ("velocity_min", PFloat (b64_literal 1 1));
         ("velocity_max", PFloat (b64_literal 25 1))].

(** A one-dimensional raster along a valley.  A pixel is a position in
    kilometres and a feature a stretch [(from, to)] of the valley; the disk
    of [d] metres around the point at [x] is the stretch from [x - d/1000]
    to [x + d/1000].  The glacier inventory holds three glaciers, the third
    far up the valley; the displacement between the two images at position
    [p] is [(3p, 4p)] metres. *)
Definition stretch (g : ee) : Z * Z :=
  match g with
  | buffer (Geometry_Point (PInt x) _) (PInt d) => (x - d / 1000, x + d / 1000)
  | _ => (0, -1)
  end.

Definition overlaps (f g : Z * Z) : bool := (fst f <=? snd g) && (fst g <=? snd f).

Fixpoint features1d (e : ee) : list (Z * Z) :=
  match e with
  | FeatureCollection _ => [(2, 4); (8, 12); (100, 110)]
  | filterBounds fc g => List.filter (fun f => overlaps f (stretch g)) (features1d fc)
  | _ => []
  end.

Definition covers1d (f : Z * Z) (p : Z) : bool := (fst f <=? p) && (p <=? snd f).

Fixpoint sample1d (e : ee) (p : Z) : option R :=
  match e with
  | Image_const n => Some (IZR n)
  | hypot a b =>
      match sample1d a p, sample1d b p with
      | Some x, Some y => Some (sqrt (x * x + y * y))
      | _, _ => None
      end
  | divide a n => option_map (fun x => (x / IZR n)%R) (sample1d a p)
  | rename a _ => sample1d a p
  | paint i fc v =>
      if existsb (fun f => covers1d f p) (features1d fc) then Some (IZR v)
      else sample1d i p
  | gt a n => option_map (fun x => if Rlt_dec (IZR n) x then 1%R else 0%R) (sample1d a p)
  | updateMask a m =>
      match sample1d m p with
      | Some v => if Req_dec_T v 0 then None else sample1d a p
      | None => None
      end
  | select (displacement _ _ _ _) band =>
      if String.eqb band "dx" then Some (IZR (3 * p))
      else if String.eqb band "dy" then Some (IZR (4 * p))
      else None
  | _ => None
  end.

(** The pixels of a stretch, one per kilometre. *)
Definition region1d (g : ee) (scale : Z) : list Z :=
  List.map (fun k => fst (stretch g) + Z.of_nat k)
           (seq 0 (Z.to_nat (snd (stretch g) - fst (stretch g) + 1))).

(** A reducer that reports how many values it was given. *)
Definition reduce1d (r : ee) (vals : list R) : pyval :=
  PDict [("velocity_count", PInt (Z.of_nat (List.length vals)))].

Definition raster : raster_semantics :=
  {| pixel := Z;
     feature := Z * Z;
     sample := sample1d;
     features := features1d;
     covers := covers1d;
     intersects := fun f g => overlaps f (stretch g);
     region := region1d;
     reduce := reduce1d |}.

(** The backend of the valley: every window holds four images, a feature
    collection has the size the raster gives it, and a region reduction is
    the raster's. *)
Definition valley_server (e : ee) : result pyval :=
  match e with
  | size (filterBounds fc g) =>
      Ok (PInt (Z.of_nat (List.length (features1d (filterBounds fc g)))))
  | size (map_ (filter (filterDate _ _ _) _) _) => Ok (PInt 4)
  | reduceRegion i r g scale _ => Ok (reduce1d r (unmasked (sample1d i) (region1d g scale)))
  | _ => Raise (Exn "EEException" "Invalid request")
  end.

Definition valley : runtime :=
  {| py_repr := fun _ => "<object>";
     ee_client := fun _ => None;
     ee_server := valley_server;
     generate_content := fun _ => Ok "It depends on the melt season.";
     GOOGLE_API_KEY := Some "key" |}.

Definition session0 : session_state :=
  {| velocity_engine := Some GlacierVelocityEngine;
     velocity_result := None;
     qa_system := None;
     qa_latest_question := None;
     qa_latest_answer := None |}.

Definition world0 : world :=
  {| backend_log := []; prompts := []; session := session0; screen := [] |}.

End Demo.

Module Spec.
Import Py Datetime World.

(** The [±window_days] window around [dt] stays within the dates Python
    can represent. *)
Definition window_in_range (self : engine) (dt : date) : Prop :=
  0 < toordinal dt - window_days self <= MAXORDINAL /\
  0 < toordinal dt + window_days self <= MAXORDINAL.

(** The world after further elements were drawn. *)
Definition drawn (w : world) (ws : list widget) : world :=
  {| backend_log := backend_log w; prompts := prompts w;
     session := session w; screen := screen w ++ ws |}.

(** The world after a velocity result was stored. *)
Definition stored (w : world) (r : dict) : world :=
  {| backend_log := backend_log w; prompts := prompts w;
     session := {| velocity_engine := velocity_engine (session w);
                   velocity_result := Some r;
                   qa_system := qa_system (session w);
                   qa_latest_question := qa_latest_question (session w);
                   qa_latest_answer := qa_latest_answer (session w) |};
     screen := screen w |}.

(** A computation changes the world only along [R]. *)
Definition within {A} (R : world -> world -> Prop) (m : M A) : Prop :=
  forall w, R w (snd (m w)).

Definition log_grows (w w' : world) : Prop := exists evs, w' = Trace.logged w evs.
Definition screen_grows (w w' : world) : Prop := exists ws, w' = drawn w ws.

(** The world after a prompt was sent to the text model. *)
Definition asked (w : world) (p : string) : world :=
  {| backend_log := backend_log w; prompts := prompts w ++ [p];
     session := session w; screen := screen w |}.

(** The world after a question and its answer were stored. *)
Definition answered (w : world) (q a : string) : world :=
  {| backend_log := backend_log w; prompts := prompts w;
     session := {| velocity_engine := velocity_engine (session w);
                   velocity_result := velocity_result (session w);
                   qa_system := qa_system (session w);
                   qa_latest_question := Some q;
                   qa_latest_answer := Some a |};
     screen := screen w |}.

(** What [answer_question] returns for a prompt: the model's text, or the
    error it raised turned into text. *)
Definition answer_of (rt : runtime) (prompt : string) : string :=
  match generate_content rt prompt with
  | Ok text => text
  | Raise e => "Error generating response: " ++ exn_msg e
  end.

(** How [create_context] shows a velocity value: by its type. An [int] or
    [float] is formatted with [.4f] (an [int] through its float value), any
    other object reads "Not Calculated". *)
Inductive renders : pyval -> string -> Prop :=
| renders_float x : renders (PFloat x) (format_f 4 x)
| renders_int z x : float_of_int z = Ok x -> renders (PInt z) (format_f 4 x)
| renders_bool b : renders (PBool b) (format_f 4 (b64_of_Z (if b then 1 else 0)))
| renders_other v : is_int_or_float v = false -> renders v "Not Calculated".

(** Decidable substring test. *)
Fixpoint contains_b (s sub : string) : bool :=
  String.prefix sub s
  || match s with
     | EmptyString => false
     | String _ s' => contains_b s' sub
     end.

(** A finite number, in the words of the specification: an integer (a
    [bool] is one in Python) or a float that is neither NaN nor infinite. *)
Definition finite_number (v : pyval) : bool :=
  match v with
  | PInt _ | PBool _ => true
  | PFloat x => is_finite x
  | _ => false
  end.

(** The product of two finite binary64 numbers as a real number, not
    rounded: the mantissas multiplied, the exponents added. *)
Definition exact_product (x y : spec_float) : spec_float :=
  match x, y with
  | S754_finite sx mx ex, S754_finite sy my ey =>
      S754_finite (xorb sx sy) (mx * my) (ex + ey)
  | _, _ => b64_mul x y
  end.

(** [stats.get(key, 0) or 0], read as the double the tab formats and
    multiplies: a statistic that is missing, null, zero or otherwise falsy
    counts as 0; a float is itself and an [int] its float value; any other
    object is no number. *)
Definition statistic (stats : dict) (key : string) : option spec_float :=
  match dict_lookup stats key with
  | None => Some (b64_of_Z 0)
  | Some v =>
      if truthy v then
        match v with
        | PFloat x => Some x
        | PInt z => if is_finite (b64_of_Z z) then Some (b64_of_Z z) else None
        | PBool _ => Some (b64_of_Z 1)
        | _ => None
        end
      else Some (b64_of_Z 0)
  end.

(** The two questions suggested in every run, and the two suggested when
    velocity data is present. *)
Definition climate_questions (variable glacier : string) : list string :=
  ["How might current " ++ variable ++ " conditions affect " ++ glacier ++ "?";
   "What does this " ++ variable ++ " data tell us about the glacier's health?"].

Definition velocity_questions : list string :=
  ["How does the measured velocity relate to the climate conditions?";
   "Is this velocity typical for a glacier in this region?"].

(** What one run of the assistant tab draws when a question is asked and
    answered, with the given suggestions. *)
Definition asked_screen (question answer : string) (suggestions : list string)
  : list widget :=
  [st_subheader "Ask the AI Glacier Expert";
   st_spinner "AI is analyzing your data...";
   st_write "**Suggested Questions:**"]
  ++ map st_button suggestions
  ++ [st_markdown "---";
      st_info ("**Your Question:** " ++ question);
      st_markdown answer;
      st_download_button "Download Answer"
        ("Question: " ++ question ++ LF ++ LF ++ "Answer:" ++ LF ++ answer)
        "glacier_analysis.txt"].

Definition is_button (x : widget) : bool :=
  match x with
  | st_button _ => true
  | _ => false
  end.

(** All characters are decimal digits. *)
Fixpoint all_digits (s : string) : bool :=
  match s with
  | EmptyString => true
  | String c s' =>
      match digit c with
      | Some _ => all_digits s'
      | None => false
      end
  end.

(** A date that exists in the calendar. *)
Definition valid_date (d : date) : Prop :=
  1 <= month d <= 12 /\ 1 <= day d <= days_in_month (year d) (month d).

(** [k], padded to four places, is four decimal digits. *)
Definition four_digits (k : nat) : bool :=
  (String.length (zero_pad 4 (Z.of_nat k)) =? 4)%nat
  && all_digits (zero_pad 4 (Z.of_nat k)).

End Spec.

(** Concrete runs: Pindari Glacier over the summer of 2023. *)
Module Example.
Import Py Datetime World.

(** No image in the first window, four in the second, three polygons. *)
Definition sparse : runtime :=
  Demo.rt (fun start => if String.eqb start "2023-05-02" then 0 else 4) 3 Demo.stats.

(** Images in both windows, no glacier polygon. *)
Definition bare : runtime := Demo.rt (fun _ => 4) 0 Demo.stats.

(** Images in both windows and three glacier polygons. *)
Definition covered : runtime := Demo.rt (fun _ => 4) 3 Demo.stats.

Definition pindari_lat : pyval := PFloat (b64_literal 3032 2).
Definition pindari_lon : pyval := PFloat (b64_literal 7996 2).

Definition summer_aoi : ee := aoi_of pindari_lat pindari_lon (PInt 5000).

Definition summer_disp : ee :=
  displacement_of GlacierVelocityEngine
    (collection_of summer_aoi (window_of GlacierVelocityEngine (Date 2023 6 1)))
    (collection_of summer_aoi (window_of GlacierVelocityEngine (Date 2023 8 31))).

Definition summer_result : dict :=
  success_dict (speed_final_of summer_disp 91 (glaciers_of summer_aoi))
               (glaciers_of summer_aoi) 91 Demo.stats
               (PStr "2023-06-01") (PStr "2023-08-31").

Definition failed_result : dict :=
  [("success", PBool false);
   ("error", PStr "No GLIMS glacier polygons found in the analysis area.")].

Definition summer : velocity_inputs :=
  {| start_date := Date 2023 6 1; end_date := Date 2023 8 31; calculate_pressed := true |}.

Definition backwards : velocity_inputs :=
  {| start_date := Date 2023 8 31; end_date := Date 2023 6 1; calculate_pressed := true |}.

Definition pindari : dict :=
  [("lat", pindari_lat); ("lon", pindari_lon); ("zoom", PInt 12)].

Definition glacier_info : dict :=
  [("name", PStr "Pindari Glacier"); ("lat", pindari_lat); ("lon", pindari_lon);
   ("buffer_size", PInt 10); ("glacier_count", PInt 3)].

Definition climate_data : dict :=
  [("variable", PStr "Tair_f_tavg"); ("description", PStr "Air Temperature");
   ("image_count", PInt 4)].

Definition date_info : dict := [("date", PStr "2023-08-15")].

Definition climate_stats : pyval :=
  PDict [("Tair_f_tavg_mean", PFloat (b64_literal 26315 2))].

(** The context built when no velocity result is stored. *)
Definition plain_context : string :=
  match create_context covered glacier_info climate_data date_info climate_stats PNone with
  | Ok c => c
  | Raise _ => ""
  end.

(** Velocity data with a measured average and no maximum. *)
Definition velocity_data : dict :=
  [("date1", PStr "2023-06-01"); ("date2", PStr "2023-08-31");
   ("time_gap_days", PInt 91);
   ("avg_velocity", PFloat (b64_literal 12345 5)); ("max_velocity", PNone)].

(** Velocity data whose values are floats but not finite. *)
Definition not_finite : dict :=
  [("avg_velocity", PFloat S754_nan); ("max_velocity", PFloat (S754_infinity false))].

(** The context the assistant tab builds with no climate statistics and no
    velocity result. *)
Definition assistant_context : string :=
  match create_context bare glacier_info
          [("variable", PStr "Tair_f_tavg"); ("description", PStr "Air Temperature");
           ("image_count", PInt 1)]
          date_info PNone PNone with
  | Ok c => c
  | Raise _ => ""
  end.

Definition asking : qa_inputs :=
  {| question := "Is the glacier speeding up?"; ask_pressed := true |}.

(** The page with the radius slider at 10 km. *)
Definition wide : app_inputs :=
  {| search_mode := "Pre-defined Glaciers";
     number_input_lat := b64_literal 3032 2;
     number_input_lon := b64_literal 7996 2;
     selectbox_glacier := "Pindari Glacier";
     analysis_date := Date 2023 8 15;
     buffer_size := 10;
     zoom_level := 12;
     velocity_tab := summer;
     ai_tab := asking;
     selected_climate_name := "Air Temperature";
     climate_var := "Tair_f_tavg";
     fldas := ImageCollection "NASA/FLDAS/NOAH01/C/GL/M/V001";
     climate_img := None |}.

(** A session in which the last calculation failed. *)
Definition after_failure : world :=
  {| backend_log := []; prompts := [];
     session := {| velocity_engine := Some GlacierVelocityEngine;
                   velocity_result := Some failed_result;
                   qa_system := Some {| model := "gemini-1.5-flash" |};
                   qa_latest_question := None;
                   qa_latest_answer := None |};
     screen := [] |}.

(** The run in the valley: the point at kilometre 5, radius 5 km. *)
Definition valley_aoi : ee := aoi_of (PInt 30) (PInt 5) (PInt 5000).

Definition valley_disp : ee :=
  displacement_of GlacierVelocityEngine
    (collection_of valley_aoi (window_of GlacierVelocityEngine (Date 2023 6 1)))
    (collection_of valley_aoi (window_of GlacierVelocityEngine (Date 2023 8 31))).

Definition valley_result : dict :=
  success_dict (speed_final_of valley_disp 91 (glaciers_of valley_aoi))
               (glaciers_of valley_aoi) 91
               (PDict [("velocity_count", PInt 6)])
               (PStr "2023-06-01") (PStr "2023-08-31").

(** A session in which no velocity was calculated yet. *)
Definition no_result : world :=
  {| backend_log := []; prompts := [];
     session := {| velocity_engine := Some GlacierVelocityEngine;
                   velocity_result := None;
                   qa_system := Some {| model := "gemini-1.5-flash" |};
                   qa_latest_question := None;
                   qa_latest_answer := None |};
     screen := [] |}.

(** A session holding an empty dict as its velocity result. *)
Definition empty_stored : world :=
  {| backend_log := []; prompts := [];
     session := {| velocity_engine := Some GlacierVelocityEngine;
                   velocity_result := Some [];
                   qa_system := Some {| model := "gemini-1.5-flash" |};
                   qa_latest_question := None;
                   qa_latest_answer := None |};
     screen := [] |}.

End Example.

(* ================================================================== *)
(** * llm_core.py: the map layer and the two-tab interface *)
(* ================================================================== *)

Section Interface.
Import Py Datetime World.

Variable rt : runtime.

(** [speed_vis]: the visualisation parameters of a layer. *)
Record vis := { vis_min : pyval; vis_max : pyval; palette : list string }.

Definition speed_vis : vis :=
  {| vis_min := PInt 0; vis_max := PFloat (b64_literal 20 1);
     palette := ["blue"; "cyan"; "yellow"; "red"] |}.

(** The [geemap.Map] and its [addLayer] method are not the program's: the
    map is any type, and [addLayer] gives the map with the layer added, or
    raises. *)
Variable Map : Type.
Variable addLayer : Map -> pyval -> vis -> string -> result Map.

Definition add_velocity_to_map (m : Map) (velocity_result : pyval) : result Map :=
  if negb (truthy velocity_result) then Ok m
  else
    d <~ as_dict velocity_result ;;
    if negb (truthy (dict_get d "success" PNone)) then Ok m
    else
      image <~ dict_index d "velocity_m_day" ;;
      addLayer m image speed_vis "Glacier Velocity (m/day)".

(** [v[i]] for an index literal [i]. *)
Definition py_index (v : pyval) (i : nat) : result pyval :=
  match v with
  | PTuple l =>
      match nth_error l i with
      | Some x => Ok x
      | None => Raise (Exn "IndexError" "tuple index out of range")
      end
  | PStr s =>
      match String.get i s with
      | Some c => Ok (PStr (String c EmptyString))
      | None => Raise (Exn "IndexError" "string index out of range")
      end
  | PDict _ => Raise (Exn "KeyError" (string_of_Z (Z.of_nat i)))
  | _ => Raise (Exn "TypeError" ("'" ++ type_name v ++ "' object is not subscriptable"))
  end.

(** Lines 254-264: what [render_complete_glacier_interface] hands to the
    assistant tab as velocity data. *)
Definition complete_velocity_data (s : session_state) : result pyval :=
  match velocity_result s with
  | None => Ok PNone
  | Some result =>
      if truthy (dict_get result "success" PNone) then
        let stats := dict_get result "stats" (PDict []) in
        date1 <~ py_index (dict_get result "analysis_dates" (PTuple [PStr "N/A"])) 0 ;;
        date2 <~ py_index (dict_get result "analysis_dates"
                                    (PTuple [PStr "N/A"; PStr "N/A"])) 1 ;;
        let time_gap_days := dict_get result "time_gap_days" (PInt 0) in
        stats <~ as_dict stats ;;
        Ok (PDict [("date1", date1);
                   ("date2", date2);
                   ("time_gap_days", time_gap_days);
                   ("avg_velocity", py_or (dict_get stats "velocity_mean" (PInt 0)) (PInt 0));
                   ("max_velocity", py_or (dict_get stats "velocity_max" (PInt 0)) (PInt 0))])
      else Ok PNone
  end.

Definition render_complete_glacier_interface (location : dict) (selected_glacier : string)
    (glacier_info climate_data date_info : dict) (stats_data : pyval)
    (vinp : velocity_inputs) (qinp : qa_inputs) : M run_status :=
  s <- get_session ;;
  velocity_data <- lift (complete_velocity_data s) ;;
  status <- render_manual_velocity_interface rt location selected_glacier vinp ;;
  match status with
  | Completed =>
      render_ai_assistant_tab rt glacier_info climate_data date_info stats_data
                              velocity_data qinp ;;;
      ret Completed
  | _ => ret status
  end.

End Interface.

(* ================================================================== *)
(** * Further specifications *)
(* ================================================================== *)

Module Frame.
Import Py Datetime World.

Definition is_call (ev : event) : bool :=
  match ev with
  | Call _ => true
  | GetInfo _ => false
  end.

(** The world after client-library calls only: nothing was asked of the
    server. *)
Definition calls_only (w w' : world) : Prop :=
  exists evs, w' = Trace.logged w evs /\ forallb is_call evs = true.

(** The value a computation returns does not depend on the world it runs
    in. *)
Definition same_value {A} (m : M A) : Prop :=
  forall w1 w2, fst (m w1) = fst (m w2).

(** The session keeps its velocity engine. *)
Definition keeps_engine (w w' : world) : Prop :=
  velocity_engine (session w') = velocity_engine (session w).

(** The session keeps everything the velocity tab owns, and nothing is
    asked of the geo backend. *)
Definition keeps_velocity (w w' : world) : Prop :=
  velocity_engine (session w') = velocity_engine (session w)
  /\ velocity_result (session w') = velocity_result (session w)
  /\ backend_log w' = backend_log w.

(** The session keeps everything the assistant tab owns, and nothing is
    sent to the text model. *)
Definition keeps_assistant (w w' : world) : Prop :=
  qa_system (session w') = qa_system (session w)
  /\ qa_latest_question (session w') = qa_latest_question (session w)
  /\ qa_latest_answer (session w') = qa_latest_answer (session w)
  /\ prompts w' = prompts w.

(** Bits 10 and 11 of the QA60 band: opaque clouds and cirrus. *)
Definition cloud_free (qa : Z) : bool :=
  negb (Z.testbit qa 10) && negb (Z.testbit qa 11).

(** The documented meaning of the operations [mask_s2_clouds] composes, on
    bands holding integers. *)
Record lawful_bits (sem : raster_semantics) : Prop := {
  bits_bitwiseAnd : forall a n p z,
    sample sem a p = Some (IZR z) ->
    sample sem (bitwiseAnd a n) p = Some (IZR (Z.land z n));
  bits_eq : forall a n p,
    sample sem (eq_ a n) p
    = option_map (fun x => if Req_dec_T x (IZR n) then 1%R else 0%R) (sample sem a p);
  bits_And : forall a b p,
    sample sem (And a b) p
    = match sample sem a p, sample sem b p with
      | Some x, Some y =>
          Some (if Req_dec_T x 0 then 0%R else if Req_dec_T y 0 then 0%R else 1%R)
      | _, _ => None
      end;
  bits_updateMask : forall a m p,
    sample sem (updateMask a m) p
    = match sample sem m p with
      | Some v => if Req_dec_T v 0 then None else sample sem a p
      | None => None
      end
}.

(** The year [k], written with four digits, reads back as [k]. *)
Definition year_reads_back (k : nat) : bool :=
  match zero_pad 4 (Z.of_nat k) with
  | String a (String b (String c (String d EmptyString))) =>
      match digit a, digit b, digit c, digit d with
      | Some x, Some y, Some z, Some t => 1000 * x + 100 * y + 10 * z + t =? Z.of_nat k
      | _, _, _, _ => false
      end
  | _ => false
  end.

(** Month [m] and day [d], written with two digits each, read back. *)
Definition month_day_read_back (m d : nat) : bool :=
  match parse_month (zero_pad 2 (Z.of_nat m) ++ "-" ++ zero_pad 2 (Z.of_nat d)) with
  | Some (m', r) =>
      (m' =? Z.of_nat m)
      && match parse_day r with
         | Some (d', EmptyString) => d' =? Z.of_nat d
         | _ => false
         end
  | None => false
  end.

End Frame.

(** Further sample data: a raster of integer bands, a backend that is out
    of reach, and widget states. *)
Module Cases.
Import Py Datetime World.

(** The QA60 band of pixel [p] holds the number [p]; every other band
    holds 7. *)
Fixpoint band_value (e : ee) (p : Z) : option Z :=
  match e with
  | map_arg => Some 7
  | select _ band => if String.eqb band "QA60" then Some p else Some 7
  | bitwiseAnd a n => option_map (fun z => Z.land z n) (band_value a p)
  | eq_ a n => option_map (fun z => if z =? n then 1 else 0) (band_value a p)
  | And a b =>
      match band_value a p, band_value b p with
      | Some x, Some y => Some (if x =? 0 then 0 else if y =? 0 then 0 else 1)
      | _, _ => None
      end
  | updateMask a m =>
      match band_value m p with
      | Some v => if v =? 0 then None else band_value a p
      | None => None
      end
  | _ => None
  end.

Definition bands : raster_semantics :=
  {| pixel := Z;
     feature := unit;
     sample := fun e p => option_map IZR (band_value e p);
     features := fun _ => [];
     covers := fun _ _ => false;
     intersects := fun _ _ => false;
     region := fun _ _ => [];
     reduce := fun _ _ => PNone |}.

(** The client library accepts every call; the server and the text model
    cannot be reached, and no API key is set. *)
Definition offline : runtime :=
  {| py_repr := fun _ => "<object>";
     ee_client := fun _ => None;
     ee_server := fun _ => Raise (Exn "EEException" "Connection timed out");
     generate_content := fun _ => Raise (Exn "ResourceExhausted" "429 Quota exceeded");
     GOOGLE_API_KEY := None |}.

(** The region reduction of an image without data in the area. *)
Definition nulls : dict :=
  [("Tair_f_tavg_mean", PNone); ("Tair_f_tavg_min", PNone); ("Tair_f_tavg_max", PNone)].

(** The bytes of a string. *)
Definition of_bytes (l : list nat) : string :=
  fold_right (fun n s => String (ascii_of_nat n) s) EmptyString l.

(** The button pressed over a text area holding white space only: a space,
    a line feed, an ideographic space (U+3000), a no-break space (U+00A0),
    a next-line control (U+0085), an en quad (U+2000) and a space. *)
Definition blank : qa_inputs :=
  {| question := of_bytes [32; 10; 227; 128; 128; 194; 160; 194; 133; 226; 128; 128; 32]%nat;
     ask_pressed := true |}.

(** The velocity tab with its button not pressed. *)
Definition idle : velocity_inputs :=
  {| start_date := Date 2023 6 1; end_date := Date 2023 8 31; calculate_pressed := false |}.

(** The assistant tab with its button not pressed. *)
Definition silent : qa_inputs := {| question := EmptyString; ask_pressed := false |}.

(** A session holding the result of the summer run. *)
Definition after_success : world :=
  {| backend_log := []; prompts := [];
     session := {| velocity_engine := Some GlacierVelocityEngine;
                   velocity_result := Some Example.summer_result;
                   qa_system := Some {| model := "gemini-1.5-flash" |};
                   qa_latest_question := None;
                   qa_latest_answer := None |};
     screen := [] |}.

(** A successful result whose region held no unmasked pixel. *)
Definition empty_result : dict :=
  success_dict (speed_final_of Example.summer_disp 91 (glaciers_of Example.summer_aoi))
               (glaciers_of Example.summer_aoi) 91
               (PDict [("velocity_mean", PNone); ("velocity_min", PNone);
                       ("velocity_max", PNone)])
               (PStr "2023-06-01") (PStr "2023-08-31").

(** A successful result whose mean is null and whose maximum is 2.5. *)
Definition no_mean_result : dict :=
  success_dict (speed_final_of Example.summer_disp 91 (glaciers_of Example.summer_aoi))
               (glaciers_of Example.summer_aoi) 91
               (PDict [("velocity_mean", PNone); ("velocity_max", PFloat (b64_literal 25 1))])
               (PStr "2023-06-01") (PStr "2023-08-31").

(** The session of a first visit: nothing is stored yet. *)
Definition first_visit : world :=
  {| backend_log := []; prompts := [];
     session := {| velocity_engine := None;
                   velocity_result := None;
                   qa_system := None;
                   qa_latest_question := None;
                   qa_latest_answer := None |};
     screen := [] |}.

(** A climate-map tab that draws its heading and then fails at the
    backend. *)
Definition broken_map : M unit :=
  draw (st_subheader "Map Layers") ;;;
  raise (Exn "EEException" "Connection timed out").

(** The client library cannot be initialised. *)
Definition no_credentials : result unit :=
  Raise (Exn "EEException" "Please authorize access to your Earth Engine account.").

(** A map that is the list of the layers added to it. *)
Definition layers : Type := list (pyval * vis * string).

Definition append_layer (m : layers) (o : pyval) (v : vis) (name : string) : result layers :=
  Ok (m ++ [(o, v, name)])%list.

(** A location record without coordinates. *)
Definition nameless : dict := [("name", PStr "Pindari Glacier")].

(** The page with custom coordinates at the foot of Gangotri. *)
Definition custom : app_inputs :=
  {| search_mode := "Custom Coordinates";
     number_input_lat := b64_literal 3093 2;
     number_input_lon := b64_literal 7908 2;
     selectbox_glacier := "Pindari Glacier";
     analysis_date := Date 2023 8 15;
     buffer_size := 5;
     zoom_level := 9;
     velocity_tab := idle;
     ai_tab := silent;
     selected_climate_name := "Air Temperature";
     climate_var := "Tair_f_tavg";
     fldas := ImageCollection "NASA/FLDAS/NOAH01/C/GL/M/V001";
     climate_img := None |}.

End Cases.

(* ================================================================== *)
(** * Strings *)
(* ================================================================== *)

Section StringFacts.
Import Py Spec.

Lemma append_assoc_s (a b c : string) : (a ++ b) ++ c = a ++ (b ++ c).
Proof. induction a as [| x a IH]; simpl; [reflexivity | now rewrite IH]. Qed.

Lemma append_nil_r_s (a : string) : a ++ "" = a.
Proof. induction a as [| x a IH]; simpl; [reflexivity | now rewrite IH]. Qed.

Lemma contains_here (pre sub post : string) : contains (pre ++ sub ++ post) sub.
Proof. exists pre, post. reflexivity. Qed.

Lemma contains_refl (s : string) : contains s s.
Proof. exists "", "". simpl. now rewrite append_nil_r_s. Qed.

Lemma contains_app_r (a b sub : string) : contains b sub -> contains (a ++ b) sub.
Proof.
  intros (pre & post & ->). exists (a ++ pre), post. now rewrite append_assoc_s.
Qed.

Lemma contains_app_l (a b sub : string) : contains a sub -> contains (a ++ b) sub.
Proof.
  intros (pre & post & ->). exists pre, (post ++ b).
  now rewrite !append_assoc_s.
Qed.

Lemma contains_trans (s t u : string) : contains s t -> contains t u -> contains s u.
Proof.
  intros (p1 & q1 & ->) (p2 & q2 & ->).
  apply contains_app_r, contains_app_l, contains_app_r, contains_app_l, contains_refl.
Qed.

Lemma prefix_split (sub s : string) :
  String.prefix sub s = true <-> exists post, s = sub ++ post.
Proof.
  revert s. induction sub as [| c sub IH]; intros s; simpl.
  - split; [intros _; now exists s | intros _; now destruct s].
  - destruct s as [| d s]; simpl;
      [split; [discriminate | intros [p H]; discriminate] |].
    destruct (ascii_dec c d) as [-> | N].
    + rewrite IH. split; intros [p H]; exists p; [now rewrite H | now injection H].
    + split; [discriminate | intros [p H]; injection H; congruence].
Qed.

Lemma contains_b_spec (s sub : string) : contains_b s sub = true <-> contains s sub.
Proof.
  induction s as [| c s IH]; cbn [contains_b].
  - rewrite orb_false_r, prefix_split. split.
    + intros [post H]. exists "", post. exact H.
    + intros (pre & post & H). destruct pre; [now exists post |discriminate].
  - rewrite orb_true_iff, IH, prefix_split. split.
    + intros [[post H] | (pre & post & H)].
      * exists "", post. exact H.
      * exists (String c pre), post. simpl. now rewrite H.
    + intros (pre & post & H). destruct pre as [| d pre].
      * left. now exists post.
      * right. exists pre, post. simpl in H. now injection H.
Qed.

End StringFacts.

(* ================================================================== *)
(** * Reasoning about computations in [M] *)
(* ================================================================== *)

Section MonadFacts.
Import Py Datetime World Trace Spec.

Lemma logged_nil w : logged w [] = w.
Proof. destruct w; unfold logged; simpl. now rewrite app_nil_r. Qed.

Lemma logged_logged w a b : logged (logged w a) b = logged w (a ++ b).
Proof. unfold logged; simpl. now rewrite app_assoc. Qed.

Lemma drawn_nil w : drawn w [] = w.
Proof. destruct w; unfold drawn; simpl. now rewrite app_nil_r. Qed.

Lemma drawn_drawn w a b : drawn (drawn w a) b = drawn w (a ++ b).
Proof. unfold drawn; simpl. now rewrite app_assoc. Qed.

Lemma bind_ret {A B} (a : A) (k : A -> M B) w : bind (ret a) k w = k a w.
Proof. reflexivity. Qed.

Lemma bind_lift_ok {A B} (r : result A) a (k : A -> M B) w :
  r = Ok a -> bind (lift r) k w = k a w.
Proof. intros ->. reflexivity. Qed.

Lemma bind_assoc {A B C} (m : M A) (f : A -> M B) (g : B -> M C) w :
  bind (bind m f) g w = bind m (fun a => bind (f a) g) w.
Proof. unfold bind. destruct (m w) as [[a | x] w']; reflexivity. Qed.

Lemma bind_run {A B} (m : M A) (k : A -> M B) w a w' :
  m w = (Ok a, w') -> bind m k w = k a w'.
Proof. unfold bind. intros ->. reflexivity. Qed.

Lemma bind_draw {B} x (k : unit -> M B) w :
  bind (draw x) k w = k tt (drawn w [x]).
Proof. reflexivity. Qed.

Lemma bind_get_session {B} (k : session_state -> M B) w :
  bind get_session k w = k (session w) w.
Proof. reflexivity. Qed.

(** ** Partial correctness *)

Lemma returns_ret {A} (a : A) (P : A -> Prop) : P a -> returns (ret a) P.
Proof. intros H w. exact H. Qed.

Lemma returns_bind {A B} (m : M A) (k : A -> M B) (P : B -> Prop) :
  returns m (fun a => returns (k a) P) -> returns (bind m k) P.
Proof.
  intros H w. unfold bind. specialize (H w).
  destruct (m w) as [[a | x] w']; simpl in *; [apply H | exact I].
Qed.

Lemma returns_lift {A} (r : result A) (P : A -> Prop) :
  (forall a, r = Ok a -> P a) -> returns (lift r) P.
Proof. intros H w. unfold lift; simpl. destruct r; auto. Qed.

(** ** Computations that only extend the log, or only draw *)

Lemma log_grows_refl w : log_grows w w.
Proof. exists []. now rewrite logged_nil. Qed.

Lemma log_grows_trans w1 w2 w3 : log_grows w1 w2 -> log_grows w2 w3 -> log_grows w1 w3.
Proof. intros [a ->] [b ->]. exists (a ++ b)%list. apply logged_logged. Qed.

Lemma screen_grows_refl w : screen_grows w w.
Proof. exists []. now rewrite drawn_nil. Qed.

Lemma screen_grows_trans w1 w2 w3 :
  screen_grows w1 w2 -> screen_grows w2 w3 -> screen_grows w1 w3.
Proof. intros [a ->] [b ->]. exists (a ++ b)%list. apply drawn_drawn. Qed.

Section Within.
Variable R : world -> world -> Prop.
Hypothesis R_refl : forall w, R w w.
Hypothesis R_trans : forall w1 w2 w3, R w1 w2 -> R w2 w3 -> R w1 w3.

Lemma within_ret {A} (a : A) : within R (ret a).
Proof. intros w. apply R_refl. Qed.

Lemma within_lift {A} (r : result A) : within R (lift r).
Proof. intros w. apply R_refl. Qed.

Lemma within_raise {A} (x : exn) : within R (@raise A x).
Proof. intros w. apply R_refl. Qed.

Lemma within_get_session : within R get_session.
Proof. intros w. apply R_refl. Qed.

Lemma within_bind {A B} (m : M A) (k : A -> M B) :
  within R m -> (forall a, within R (k a)) -> within R (bind m k).
Proof.
  intros Hm Hk w. unfold bind. specialize (Hm w).
  destruct (m w) as [[a | x] w']; simpl in *; [| exact Hm].
  eapply R_trans; [exact Hm | apply Hk].
Qed.

Lemma within_try_except {A} (m : M A) (h : exn -> M A) :
  within R m -> (forall x, within R (h x)) -> within R (try_except m h).
Proof.
  intros Hm Hh w. unfold try_except. specialize (Hm w).
  destruct (m w) as [[a | x] w']; simpl in *; [exact Hm |].
  eapply R_trans; [exact Hm | apply Hh].
Qed.

End Within.

Lemma within_draw x : within screen_grows (draw x).
Proof. intros w. now exists [x]. Qed.

Lemma within_log_event ev : within log_grows (log_event ev).
Proof. intros w. now exists [ev]. Qed.

End MonadFacts.


(* ================================================================== *)
(** * The velocity engine *)
(* ================================================================== *)

Section EngineFacts.
Import Py Datetime World Trace Spec.

Variable rt : runtime.

Lemma returns_call e (P : ee -> Prop) : P e -> returns (call rt e) P.
Proof.
  intros H w. unfold call, bind, log_event, raise, ret; simpl.
  destruct (ee_client rt e); simpl; auto.
Qed.

Lemma returns_getInfo e (P : pyval -> Prop) :
  (forall v, ee_server rt e = Ok v -> P v) -> returns (getInfo rt e) P.
Proof.
  intros H w. unfold getInfo, bind, log_event, lift; simpl.
  destruct (ee_server rt e); simpl; auto.
Qed.

Lemma returns_size_info col (P : pyval -> Prop) :
  (forall v, ee_server rt (size col) = Ok v -> P v) -> returns (size_info rt col) P.
Proof.
  intros H. unfold size_info. apply returns_bind, returns_call, returns_getInfo, H.
Qed.

Lemma returns_mask_s2_clouds image (P : ee -> Prop) :
  P (cloud_mask_of image) -> returns (mask_s2_clouds rt image) P.
Proof.
  intros H. unfold mask_s2_clouds.
  repeat (apply returns_bind, returns_call). apply returns_call. exact H.
Qed.

Lemma returns_collection aoi p (P : ee -> Prop) :
  P (collection_of aoi p) -> returns (_get_sentinel2_collection rt aoi (fst p) (snd p)) P.
Proof.
  destruct p as [s e]. intros H. unfold _get_sentinel2_collection.
  repeat (apply returns_bind, returns_call).
  apply returns_bind, returns_mask_s2_clouds, returns_call. exact H.
Qed.

Lemma returns_window self dt (P : string * string -> Prop) :
  P (window_of self dt) -> returns (window self dt) P.
Proof.
  intros H. unfold window.
  apply returns_bind, returns_lift. intros lo Hlo.
  apply returns_bind, returns_lift. intros hi Hhi.
  apply returns_ret.
  unfold add_days in *.
  destruct (_ && _) in Hlo; [| discriminate].
  destruct (_ && _) in Hhi; [| discriminate].
  injection Hlo as <-. injection Hhi as <-.
  replace (toordinal dt + - window_days self) with (toordinal dt - window_days self) by lia.
  exact H.
Qed.

(** Whatever the [try] block returns is one of the outcomes. *)
Lemma calculate_velocity_try_outcome self lat lon date1 date2 buffer_km :
  returns (calculate_velocity_try rt self lat lon date1 date2 buffer_km)
          (velocity_outcome rt self lat lon date1 date2 buffer_km).
Proof.
  unfold calculate_velocity_try.
  apply returns_bind, returns_call.
  apply returns_bind, returns_lift. intros dist Hdist.
  apply returns_bind, returns_call.
  apply returns_bind, returns_lift. intros dt1 Hdt1.
  apply returns_bind, returns_lift. intros dt2 Hdt2.
  apply returns_bind, returns_window.
  apply returns_bind, returns_collection.
  apply returns_bind, returns_window.
  apply returns_bind, returns_collection.
  fold (aoi_of lat lon dist).
  apply returns_bind, returns_size_info. intros n1 Hn1.
  apply returns_bind.
  destruct (eq_zero n1) eqn:Z1.
  - apply returns_ret.
    apply returns_bind, returns_size_info. intros n1' Hn1'.
    apply returns_bind, returns_size_info. intros n2' Hn2'.
    apply returns_ret.
    assert (n1' = n1) by congruence. subst n1'.
    eapply outcome_insufficient; eauto. now rewrite Z1.
  - apply returns_bind, returns_size_info. intros n2 Hn2.
    apply returns_ret.
    destruct (eq_zero n2) eqn:Z2.
    + apply returns_bind, returns_size_info. intros n1' Hn1'.
      apply returns_bind, returns_size_info. intros n2' Hn2'.
      apply returns_ret.
      assert (n1' = n1) by congruence. assert (n2' = n2) by congruence. subst.
      eapply outcome_insufficient; eauto. rewrite Z1, Z2. reflexivity.
    + repeat (apply returns_bind, returns_call).
      apply returns_bind, returns_size_info. intros g Hg.
      destruct (eq_zero g) eqn:Zg.
      * apply returns_ret.
        eapply outcome_no_glaciers; eauto. now rewrite Z1, Z2.
      * repeat (apply returns_bind, returns_call).
        apply returns_bind, returns_getInfo. intros stats Hstats.
        apply returns_ret.
        eapply outcome_success; eauto. now rewrite Z1, Z2.
Qed.

(** [calculate_velocity] always returns, and what it returns is one of the
    outcomes. *)
Lemma calculate_velocity_outcome self lat lon date1 date2 buffer_km w :
  exists d w',
    calculate_velocity rt self lat lon date1 date2 buffer_km w = (Ok d, w')
    /\ velocity_outcome rt self lat lon date1 date2 buffer_km d.
Proof.
  unfold calculate_velocity, try_except.
  pose proof (calculate_velocity_try_outcome self lat lon date1 date2 buffer_km w) as H.
  destruct (calculate_velocity_try rt self lat lon date1 date2 buffer_km w)
    as [[d | x] w']; simpl in H.
  - exists d, w'. split; [reflexivity | exact H].
  - exists (calculation_failed x), w'. split; [reflexivity | constructor].
Qed.

(** A result that reports failure is [{success: False, error: <str>}] and
    nothing else. *)
Lemma failure_shape self lat lon date1 date2 buffer_km d :
  velocity_outcome rt self lat lon date1 date2 buffer_km d ->
  truthy (dict_get d "success" PNone) = false ->
  exists msg, d = [("success", PBool false); ("error", PStr msg)].
Proof.
  intros O H. destruct O; try (eexists; reflexivity).
  discriminate H.
Qed.

(** ** The engine only talks to the backend *)

Lemma within_call e : within log_grows (call rt e).
Proof.
  intros w. unfold call, bind, log_event; simpl.
  destruct (ee_client rt e); simpl; now exists [Call e].
Qed.

Lemma within_getInfo e : within log_grows (getInfo rt e).
Proof.
  intros w. unfold getInfo, bind, log_event, lift; simpl. now exists [GetInfo e].
Qed.

End EngineFacts.

Ltac log_only :=
  repeat first
    [ apply within_call
    | apply within_getInfo
    | apply (within_ret _ log_grows_refl)
    | apply (within_lift _ log_grows_refl)
    | apply (within_raise _ log_grows_refl)
    | apply (within_bind _ log_grows_trans); [| intros ?]
    | apply (within_try_except _ log_grows_trans); [| intros ?]
    | match goal with
      | |- Spec.within _ (if ?b then _ else _) => destruct b
      | |- Spec.within _ (match ?x with _ => _ end) => destruct x
      end ].

Section EngineLog.
Import Py Datetime World Trace Spec.

Variable rt : runtime.

Lemma within_size_info col : within log_grows (size_info rt col).
Proof. unfold size_info. log_only. Qed.

Lemma within_collection aoi s e : within log_grows (_get_sentinel2_collection rt aoi s e).
Proof. unfold _get_sentinel2_collection, mask_s2_clouds. log_only. Qed.

Lemma within_window self dt : within log_grows (window self dt).
Proof. unfold window. log_only. Qed.

Lemma within_calculate_velocity self lat lon date1 date2 buffer_km :
  within log_grows (calculate_velocity rt self lat lon date1 date2 buffer_km).
Proof.
  unfold calculate_velocity, calculate_velocity_try.
  repeat first
    [ apply within_size_info | apply within_collection | apply within_window
    | progress log_only ].
Qed.

End EngineLog.

(** ** Runs against a client library that accepts every call *)

Section Forward.
Import Py Datetime World Trace Spec.

Variable rt : runtime.
Hypothesis accepts : forall e, ee_client rt e = None.

Lemma bind_call {B} e (k : ee -> M B) w :
  bind (call rt e) k w = k e (logged w [Call e]).
Proof. unfold call, bind, log_event, ret; simpl. rewrite accepts. reflexivity. Qed.

Lemma bind_getInfo {B} e v (k : pyval -> M B) w :
  ee_server rt e = Ok v -> bind (getInfo rt e) k w = k v (logged w [GetInfo e]).
Proof. intros H. unfold getInfo, bind, log_event, lift; simpl. rewrite H. reflexivity. Qed.

Lemma bind_size_info {B} col v (k : pyval -> M B) w :
  ee_server rt (size col) = Ok v ->
  bind (size_info rt col) k w = k v (logged w (count col)).
Proof.
  intros H. unfold size_info. rewrite bind_assoc, bind_call.
  rewrite (bind_getInfo _ v) by exact H. rewrite logged_logged. reflexivity.
Qed.

Lemma bind_collection {B} aoi p (k : ee -> M B) w :
  bind (_get_sentinel2_collection rt aoi (fst p) (snd p)) k w
  = k (collection_of aoi p) (logged w (collection aoi p)).
Proof.
  destruct p as [s e]. unfold _get_sentinel2_collection, mask_s2_clouds.
  repeat (rewrite ?bind_assoc; rewrite bind_call).
  repeat rewrite logged_logged. reflexivity.
Qed.

Lemma bind_window {B} self dt (k : string * string -> M B) w :
  window_in_range self dt ->
  bind (window self dt) k w = k (window_of self dt) w.
Proof.
  intros [H1 H2]. unfold window, add_days.
  replace (toordinal dt + - window_days self) with (toordinal dt - window_days self) by lia.
  assert (E1 : (0 <? toordinal dt - window_days self)
               && (toordinal dt - window_days self <=? MAXORDINAL) = true)
    by (apply andb_true_intro; split; [apply Z.ltb_lt | apply Z.leb_le]; lia).
  assert (E2 : (0 <? toordinal dt + window_days self)
               && (toordinal dt + window_days self <=? MAXORDINAL) = true)
    by (apply andb_true_intro; split; [apply Z.ltb_lt | apply Z.leb_le]; lia).
  rewrite E1, E2. reflexivity.
Qed.

(** The first thing the estimator does is build the analysis area; whatever
    happens afterwards only adds to the log. *)
Lemma calculate_velocity_area self lat lon date1 date2 buffer_km dist w :
  py_mul_int buffer_km 1000 = Ok dist ->
  exists d evs,
    calculate_velocity rt self lat lon date1 date2 buffer_km w
    = (Ok d, logged w (setup lat lon dist ++ evs)).
Proof.
  intros Hd.
  destruct (calculate_velocity_outcome rt self lat lon date1 date2 buffer_km w)
    as (d & w' & E & _).
  exists d. rewrite E.
  assert (L : exists evs, w' = logged w (setup lat lon dist ++ evs)).
  { replace w' with (snd (calculate_velocity rt self lat lon date1 date2 buffer_km w))
      by now rewrite E.
    unfold calculate_velocity, try_except, calculate_velocity_try.
    rewrite bind_call, (bind_lift_ok _ dist), bind_call by exact Hd.
    rewrite logged_logged.
    match goal with
    | |- context [bind ?m ?k (logged w ?l)] =>
        assert (G : within log_grows (bind m k))
    end.
    { repeat first
        [ apply within_size_info | apply within_collection | apply within_window
        | progress log_only ]. }
    specialize (G (logged w ([Call (Geometry_Point lon lat)]
                             ++ [Call (buffer (Geometry_Point lon lat) dist)]))).
    match type of G with
    | log_grows _ (snd ?r) => destruct r as [[a | x] w1]
    end; simpl in G |- *; destruct G as [evs ->]; exists evs;
      now rewrite logged_logged. }
  destruct L as [evs ->]. now exists evs.
Qed.

Lemma run_insufficient self lat lon date1 date2 buffer_km dist dt1 dt2 n1 n2 w :
  py_mul_int buffer_km 1000 = Ok dist ->
  strptime date1 = Ok dt1 ->
  strptime date2 = Ok dt2 ->
  window_in_range self dt1 ->
  window_in_range self dt2 ->
  ee_server rt (size (collection_of (aoi_of lat lon dist) (window_of self dt1))) = Ok n1 ->
  ee_server rt (size (collection_of (aoi_of lat lon dist) (window_of self dt2))) = Ok n2 ->
  eq_zero n1 || eq_zero n2 = true ->
  calculate_velocity rt self lat lon date1 date2 buffer_km w
  = (Ok (insufficient_imagery rt n1 n2),
     logged w (imagery self lat lon dist dt1 dt2 n1
               ++ count (collection_of (aoi_of lat lon dist) (window_of self dt1))
               ++ count (collection_of (aoi_of lat lon dist) (window_of self dt2)))).
Proof.
  intros Hd H1 H2 R1 R2 S1 S2 Z.
  unfold calculate_velocity, try_except, calculate_velocity_try.
  rewrite bind_call, (bind_lift_ok _ dist) by exact Hd.
  rewrite bind_call, (bind_lift_ok _ dt1), (bind_lift_ok _ dt2) by assumption.
  rewrite bind_window, bind_collection by exact R1.
  rewrite bind_window, bind_collection by exact R2.
  fold (aoi_of lat lon dist).
  rewrite (bind_size_info _ n1) by exact S1.
  unfold imagery, emptiness_test.
  destruct (eq_zero n1) eqn:Z1.
  - rewrite bind_ret.
    rewrite (bind_size_info _ n1) by exact S1.
    rewrite (bind_size_info _ n2) by exact S2.
    unfold ret. repeat rewrite logged_logged.
    repeat rewrite <- app_assoc. rewrite app_nil_l. reflexivity.
  - simpl in Z. rewrite bind_assoc.
    rewrite (bind_size_info _ n2) by exact S2. rewrite bind_ret, Z.
    rewrite (bind_size_info _ n1) by exact S1.
    rewrite (bind_size_info _ n2) by exact S2.
    unfold ret. repeat rewrite logged_logged.
    repeat rewrite <- app_assoc. reflexivity.
Qed.

(** The run up to the polygon count, when both windows hold images. *)
Lemma run_to_glacier_count self lat lon date1 date2 buffer_km dist dt1 dt2 n1 n2 w :
  py_mul_int buffer_km 1000 = Ok dist ->
  strptime date1 = Ok dt1 ->
  strptime date2 = Ok dt2 ->
  window_in_range self dt1 ->
  window_in_range self dt2 ->
  ee_server rt (size (collection_of (aoi_of lat lon dist) (window_of self dt1))) = Ok n1 ->
  ee_server rt (size (collection_of (aoi_of lat lon dist) (window_of self dt2))) = Ok n2 ->
  eq_zero n1 || eq_zero n2 = false ->
  forall g stats,
  ee_server rt (size (glaciers_of (aoi_of lat lon dist))) = Ok g ->
  (eq_zero g = false ->
   ee_server rt
     (stats_query
        (speed_final_of
           (displacement_of self (collection_of (aoi_of lat lon dist) (window_of self dt1))
                                 (collection_of (aoi_of lat lon dist) (window_of self dt2)))
           (time_gap dt1 dt2) (glaciers_of (aoi_of lat lon dist)))
        (aoi_of lat lon dist)) = Ok stats) ->
  let aoi := aoi_of lat lon dist in
  let col1 := collection_of aoi (window_of self dt1) in
  let col2 := collection_of aoi (window_of self dt2) in
  let disp := displacement_of self col1 col2 in
  let days := time_gap dt1 dt2 in
  let sf := speed_final_of disp days (glaciers_of aoi) in
  calculate_velocity_try rt self lat lon date1 date2 buffer_km w
  = if eq_zero g then
      (Ok no_glaciers,
       logged w (imagery self lat lon dist dt1 dt2 n1
                 ++ tracking self lat lon dist dt1 dt2))
    else
      (Ok (success_dict sf (glaciers_of aoi) days stats date1 date2),
       logged w (imagery self lat lon dist dt1 dt2 n1
                 ++ tracking self lat lon dist dt1 dt2
                 ++ masking disp days (glaciers_of aoi)
                 ++ statistics sf aoi)).
Proof.
  intros Hd H1 H2 R1 R2 S1 S2 Z g stats Sg Ss aoi col1 col2 disp days sf.
  apply orb_false_elim in Z. destruct Z as [Z1 Z2].
  unfold calculate_velocity_try.
  rewrite bind_call, (bind_lift_ok _ dist) by exact Hd.
  rewrite bind_call, (bind_lift_ok _ dt1), (bind_lift_ok _ dt2) by assumption.
  rewrite bind_window, bind_collection by exact R1.
  rewrite bind_window, bind_collection by exact R2.
  fold (aoi_of lat lon dist). fold aoi. fold col1. fold col2.
  rewrite (bind_size_info _ n1) by exact S1.
  rewrite Z1, bind_assoc.
  rewrite (bind_size_info _ n2) by exact S2.
  rewrite bind_ret, Z2.
  repeat rewrite bind_call.
  rewrite (bind_size_info _ g) by exact Sg.
  unfold imagery, emptiness_test, tracking. rewrite Z1.
  destruct (eq_zero g) eqn:Zg.
  - unfold ret. repeat rewrite logged_logged.
    repeat rewrite <- app_assoc. reflexivity.
  - repeat rewrite bind_call.
    rewrite (bind_getInfo _ stats) by exact (Ss eq_refl).
    unfold ret. repeat rewrite logged_logged.
    unfold masking, statistics.
    repeat rewrite <- app_assoc. reflexivity.
Qed.

End Forward.

(* ================================================================== *)
(** * Dates *)
(* ================================================================== *)

Section Dates.
Import Py Datetime World Spec.

Lemma days_before_year_succ y :
  days_before_year (y + 1) = days_before_year y + (if is_leap y then 366 else 365).
Proof.
  unfold days_before_year, is_leap.
  replace (y + 1 - 1) with y by lia.
  destruct (Z.eqb_spec (y mod 4) 0), (Z.eqb_spec (y mod 100) 0), (Z.eqb_spec (y mod 400) 0);
    simpl; Z.div_mod_to_equations; lia.
Qed.

Lemma days_before_year_mono y1 y2 : y1 <= y2 -> days_before_year y1 <= days_before_year y2.
Proof.
  intros H. unfold days_before_year. Z.div_mod_to_equations. lia.
Qed.

Lemma day_of_year_bounds d :
  valid_date d ->
  1 <= days_before_month (year d) (month d) + day d
    <= (if is_leap (year d) then 366 else 365).
Proof.
  intros [[M1 M2] D]. unfold days_before_month, days_in_month in *.
  assert (C : month d = 1 \/ month d = 2 \/ month d = 3 \/ month d = 4 \/ month d = 5
              \/ month d = 6 \/ month d = 7 \/ month d = 8 \/ month d = 9
              \/ month d = 10 \/ month d = 11 \/ month d = 12) by lia.
  destruct (is_leap (year d));
    repeat (destruct C as [C | C]); rewrite C in *;
    cbv [DAYS_BEFORE_MONTH DAYS_IN_MONTH Z.ltb Z.eqb Z.compare Pos.compare Pos.compare_cont Pos.eqb andb] in *; lia.
Qed.

Lemma day_of_year_mono y m1 d1 m2 d2 :
  1 <= m1 <= 12 -> 1 <= m2 <= 12 ->
  1 <= d1 <= days_in_month y m1 -> 1 <= d2 <= days_in_month y m2 ->
  m1 < m2 ->
  days_before_month y m1 + d1 < days_before_month y m2 + d2.
Proof.
  intros M1 M2 D1 D2 L. unfold days_before_month, days_in_month in *.
  assert (C1 : m1 = 1 \/ m1 = 2 \/ m1 = 3 \/ m1 = 4 \/ m1 = 5 \/ m1 = 6 \/ m1 = 7
               \/ m1 = 8 \/ m1 = 9 \/ m1 = 10 \/ m1 = 11) by lia.
  assert (C2 : m2 = 2 \/ m2 = 3 \/ m2 = 4 \/ m2 = 5 \/ m2 = 6 \/ m2 = 7
               \/ m2 = 8 \/ m2 = 9 \/ m2 = 10 \/ m2 = 11 \/ m2 = 12) by lia.
  destruct (is_leap y);
    repeat (destruct C1 as [C1 | C1]); subst m1;
    repeat (destruct C2 as [C2 | C2]); subst m2;
    cbv [DAYS_BEFORE_MONTH DAYS_IN_MONTH Z.ltb Z.eqb Z.compare Pos.compare Pos.compare_cont Pos.eqb andb] in *; lia.
Qed.

(** On valid dates, [d1 >= d2] compares the days counted from year 1. *)
Lemma date_geb_ordinal d1 d2 :
  valid_date d1 -> valid_date d2 ->
  date_geb d1 d2 = (toordinal d2 <=? toordinal d1).
Proof.
  intros V1 V2.
  pose proof (day_of_year_bounds d1 V1) as B1.
  pose proof (day_of_year_bounds d2 V2) as B2.
  destruct V1 as [M1 D1], V2 as [M2 D2].
  unfold date_geb, toordinal, ymd2ord.
  destruct (Z.compare_spec (year d1) (year d2)) as [Y | Y | Y].
  - rewrite Y in *.
    destruct (Z.compare_spec (month d1) (month d2)) as [M | M | M].
    + rewrite M in *. destruct (Z.leb_spec (day d2) (day d1));
        symmetry; [apply Z.leb_le | apply Z.leb_gt]; lia.
    + pose proof (day_of_year_mono (year d2) _ _ _ _ M1 M2 D1 D2 M).
      symmetry. apply Z.leb_gt. lia.
    + pose proof (day_of_year_mono (year d2) _ _ _ _ M2 M1 D2 D1 M).
      symmetry. apply Z.leb_le. lia.
  - pose proof (days_before_year_succ (year d1)) as S.
    pose proof (days_before_year_mono (year d1 + 1) (year d2) ltac:(lia)).
    symmetry. apply Z.leb_gt. destruct (is_leap (year d1)); lia.
  - pose proof (days_before_year_succ (year d2)) as S.
    pose proof (days_before_year_mono (year d2 + 1) (year d1) ltac:(lia)).
    symmetry. apply Z.leb_le. destruct (is_leap (year d2)); lia.
Qed.

End Dates.

(* ================================================================== *)
(** * The estimator's contract *)
(* ================================================================== *)

Section Estimator.
Import Py Datetime World Trace Spec Example.

(** The estimator builds its analysis area from its [buffer_km] argument:
    a disk of [r] kilometers around the location. *)
Lemma estimator_area_follows_argument rt self lat lon date1 date2 r w :
  (forall e, ee_client rt e = None) ->
  exists d evs,
    calculate_velocity rt self lat lon date1 date2 (PInt r) w
    = (Ok d, logged w ([Call (Geometry_Point lon lat);
                        Call (buffer (Geometry_Point lon lat) (PInt (r * 1000)))]
                       ++ evs)).
Proof.
  intros A.
  exact (calculate_velocity_area rt A self lat lon date1 date2 (PInt r)
           (PInt (r * 1000)) w eq_refl).
Qed.

(** C2. When either search window holds no image (and the backend answers
    the count queries), [calculate_velocity] returns
    [{success: False, error: msg}] where [msg] carries the counts of both
    windows; the dict has no other key, so no speed field, and the backend
    was only asked to count. *)
Theorem insufficient_imagery_reported rt self lat lon date1 date2 buffer_km
    dist dt1 dt2 n1 n2 w :
  (forall e, ee_client rt e = None) ->
  py_mul_int buffer_km 1000 = Ok dist ->
  strptime date1 = Ok dt1 ->
  strptime date2 = Ok dt2 ->
  window_in_range self dt1 ->
  window_in_range self dt2 ->
  ee_server rt (size (collection_of (aoi_of lat lon dist) (window_of self dt1)))
    = Ok (PInt n1) ->
  ee_server rt (size (collection_of (aoi_of lat lon dist) (window_of self dt2)))
    = Ok (PInt n2) ->
  n1 = 0 \/ n2 = 0 ->
  exists msg w',
    calculate_velocity rt self lat lon date1 date2 buffer_km w
    = (Ok [("success", PBool false); ("error", PStr msg)], w')
    /\ contains msg ("Period 1 had " ++ string_of_Z n1 ++ " images")
    /\ contains msg ("Period 2 had " ++ string_of_Z n2 ++ ".")
    /\ dict_lookup [("success", PBool false); ("error", PStr msg)] "velocity_m_day" = None
    /\ w' = logged w (imagery self lat lon dist dt1 dt2 (PInt n1)
                      ++ count (collection_of (aoi_of lat lon dist) (window_of self dt1))
                      ++ count (collection_of (aoi_of lat lon dist) (window_of self dt2))).
Proof.
  intros Ha Hd H1 H2 R1 R2 S1 S2 Z.
  eexists. eexists. split.
  - eapply run_insufficient; eauto.
    simpl. destruct Z as [-> | ->]; [reflexivity | apply orb_true_r].
  - cbn [py_str]. split; [| split; [| split; reflexivity]].
    + exists "Insufficient cloud-free images found. ",
        (", Period 2 had " ++ string_of_Z n2 ++ ". Try different dates.").
      cbn [append]. now rewrite !append_assoc_s.
    + exists ("Insufficient cloud-free images found. Period 1 had "
              ++ string_of_Z n1 ++ " images, "), " Try different dates.".
      cbn [append]. now rewrite !append_assoc_s.
Qed.

Lemma summer_windows_in_range :
  window_in_range GlacierVelocityEngine (Date 2023 6 1)
  /\ window_in_range GlacierVelocityEngine (Date 2023 8 31).
Proof. unfold window_in_range; vm_compute; intuition discriminate. Qed.

Lemma insufficient_imagery_reported_witness :
  (forall e, ee_client sparse e = None)
  /\ py_mul_int (PInt 5) 1000 = Ok (PInt 5000)
  /\ strptime (PStr "2023-06-01") = Ok (Date 2023 6 1)
  /\ strptime (PStr "2023-08-31") = Ok (Date 2023 8 31)
  /\ window_in_range GlacierVelocityEngine (Date 2023 6 1)
  /\ window_in_range GlacierVelocityEngine (Date 2023 8 31)
  /\ ee_server sparse
       (size (collection_of summer_aoi (window_of GlacierVelocityEngine (Date 2023 6 1))))
     = Ok (PInt 0)
  /\ ee_server sparse
       (size (collection_of summer_aoi (window_of GlacierVelocityEngine (Date 2023 8 31))))
     = Ok (PInt 4)
  /\ (0 = 0 \/ 4 = 0)
  /\ exists msg w',
       calculate_velocity sparse GlacierVelocityEngine pindari_lat pindari_lon
         (PStr "2023-06-01") (PStr "2023-08-31") (PInt 5) Demo.world0
       = (Ok [("success", PBool false); ("error", PStr msg)], w')
       /\ contains msg ("Period 1 had " ++ string_of_Z 0 ++ " images")
       /\ contains msg ("Period 2 had " ++ string_of_Z 4 ++ ".")
       /\ dict_lookup [("success", PBool false); ("error", PStr msg)] "velocity_m_day"
          = None
       /\ w' = logged Demo.world0
                 (imagery GlacierVelocityEngine pindari_lat pindari_lon (PInt 5000)
                          (Date 2023 6 1) (Date 2023 8 31) (PInt 0)
                  ++ count (collection_of summer_aoi
                              (window_of GlacierVelocityEngine (Date 2023 6 1)))
                  ++ count (collection_of summer_aoi
                              (window_of GlacierVelocityEngine (Date 2023 8 31)))).
Proof.
  assert (A : forall e, ee_client sparse e = None) by reflexivity.
  destruct summer_windows_in_range as [R1 R2].
  repeat (split; [first [exact A | exact R1 | exact R2 | reflexivity | now left] |]).
  apply (insufficient_imagery_reported sparse GlacierVelocityEngine pindari_lat pindari_lon
           (PStr "2023-06-01") (PStr "2023-08-31") (PInt 5) (PInt 5000)
           (Date 2023 6 1) (Date 2023 8 31) 0 4 Demo.world0);
    first [exact A | exact R1 | exact R2 | reflexivity | now left].
Defined.

(** C5. When no glacier polygon intersects the analysis area, the result
    reports failure whatever the imagery; when both windows hold images it
    is the "No GLIMS glacier polygons" message, the polygons were counted
    after the images were selected and tracked, and nothing was asked of
    the statistics reducers. *)
Theorem no_glacier_coverage_reported rt self lat lon date1 date2 buffer_km
    dist dt1 dt2 n1 n2 w :
  (forall e, ee_client rt e = None) ->
  py_mul_int buffer_km 1000 = Ok dist ->
  strptime date1 = Ok dt1 ->
  strptime date2 = Ok dt2 ->
  window_in_range self dt1 ->
  window_in_range self dt2 ->
  ee_server rt (size (collection_of (aoi_of lat lon dist) (window_of self dt1)))
    = Ok (PInt n1) ->
  ee_server rt (size (collection_of (aoi_of lat lon dist) (window_of self dt2)))
    = Ok (PInt n2) ->
  ee_server rt (size (glaciers_of (aoi_of lat lon dist))) = Ok (PInt 0) ->
  exists d w',
    calculate_velocity rt self lat lon date1 date2 buffer_km w = (Ok d, w')
    /\ dict_lookup d "success" = Some (PBool false)
    /\ (n1 <> 0 -> n2 <> 0 ->
        let aoi := aoi_of lat lon dist in
        let col1 := collection_of aoi (window_of self dt1) in
        let col2 := collection_of aoi (window_of self dt2) in
        d = [("success", PBool false);
             ("error", PStr "No GLIMS glacier polygons found in the analysis area.")]
        /\ w' = logged w (imagery self lat lon dist dt1 dt2 (PInt n1)
                          ++ selection self col1 col2
                          ++ speed (displacement_of self col1 col2) (time_gap dt1 dt2)
                          ++ glacier_lookup aoi)
        /\ forallb (fun ev => negb (is_statistics ev))
                   (imagery self lat lon dist dt1 dt2 (PInt n1)
                    ++ tracking self lat lon dist dt1 dt2) = true).
Proof.
  intros Ha Hd H1 H2 R1 R2 S1 S2 Sg.
  destruct (eq_zero (PInt n1) || eq_zero (PInt n2)) eqn:Z.
  - eexists. eexists. split; [eapply run_insufficient; eauto |].
    split; [reflexivity |].
    intros N1 N2. exfalso. simpl in Z. apply orb_true_iff in Z.
    destruct Z as [Z | Z]; apply Z.eqb_eq in Z; contradiction.
  - assert (E := run_to_glacier_count rt Ha self lat lon date1 date2 buffer_km
                   dist dt1 dt2 (PInt n1) (PInt n2) w
                   Hd H1 H2 R1 R2 S1 S2 Z (PInt 0) PNone Sg).
    cbv zeta in E. cbn [eq_zero Z.eqb] in E.
    exists no_glaciers. eexists. split.
    + unfold calculate_velocity, try_except. rewrite E; [reflexivity | discriminate].
    + split; [reflexivity |]. intros N1 N2. cbv zeta.
      split; [reflexivity |]. split; [reflexivity |].
      apply orb_false_elim in Z. destruct Z as [Z1 _].
      unfold imagery, emptiness_test, tracking. rewrite Z1.
      reflexivity.
Qed.

Lemma no_glacier_coverage_reported_witness :
  (forall e, ee_client bare e = None)
  /\ py_mul_int (PInt 5) 1000 = Ok (PInt 5000)
  /\ strptime (PStr "2023-06-01") = Ok (Date 2023 6 1)
  /\ strptime (PStr "2023-08-31") = Ok (Date 2023 8 31)
  /\ window_in_range GlacierVelocityEngine (Date 2023 6 1)
  /\ window_in_range GlacierVelocityEngine (Date 2023 8 31)
  /\ ee_server bare
       (size (collection_of summer_aoi (window_of GlacierVelocityEngine (Date 2023 6 1))))
     = Ok (PInt 4)
  /\ ee_server bare
       (size (collection_of summer_aoi (window_of GlacierVelocityEngine (Date 2023 8 31))))
     = Ok (PInt 4)
  /\ ee_server bare (size (glaciers_of summer_aoi)) = Ok (PInt 0)
  /\ exists d w',
       calculate_velocity bare GlacierVelocityEngine pindari_lat pindari_lon
         (PStr "2023-06-01") (PStr "2023-08-31") (PInt 5) Demo.world0 = (Ok d, w')
       /\ dict_lookup d "success" = Some (PBool false)
       /\ d = failed_result.
Proof.
  assert (A : forall e, ee_client bare e = None) by reflexivity.
  destruct summer_windows_in_range as [R1 R2].
  repeat (split; [first [exact A | exact R1 | exact R2 | reflexivity] |]).
  destruct (no_glacier_coverage_reported bare GlacierVelocityEngine pindari_lat pindari_lon
              (PStr "2023-06-01") (PStr "2023-08-31") (PInt 5) (PInt 5000)
              (Date 2023 6 1) (Date 2023 8 31) 4 4 Demo.world0
              A eq_refl eq_refl eq_refl R1 R2 eq_refl eq_refl eq_refl)
    as (d & w' & E & S & H).
  exists d, w'. split; [exact E |]. split; [exact S |].
  apply H; discriminate.
Defined.

(** A run in which the backend answers, both windows hold images and the
    area holds glaciers: the result is the success dict, and the backend
    saw image selection, tracking, the polygon count, masking and then the
    statistics. *)
Lemma successful_run rt self lat lon date1 date2 buffer_km dist dt1 dt2 n1 n2 g stats w :
  (forall e, ee_client rt e = None) ->
  py_mul_int buffer_km 1000 = Ok dist ->
  strptime date1 = Ok dt1 ->
  strptime date2 = Ok dt2 ->
  window_in_range self dt1 ->
  window_in_range self dt2 ->
  ee_server rt (size (collection_of (aoi_of lat lon dist) (window_of self dt1))) = Ok n1 ->
  ee_server rt (size (collection_of (aoi_of lat lon dist) (window_of self dt2))) = Ok n2 ->
  eq_zero n1 || eq_zero n2 = false ->
  ee_server rt (size (glaciers_of (aoi_of lat lon dist))) = Ok g ->
  eq_zero g = false ->
  ee_server rt
    (stats_query
       (speed_final_of
          (displacement_of self (collection_of (aoi_of lat lon dist) (window_of self dt1))
                                (collection_of (aoi_of lat lon dist) (window_of self dt2)))
          (time_gap dt1 dt2) (glaciers_of (aoi_of lat lon dist)))
       (aoi_of lat lon dist)) = Ok stats ->
  let aoi := aoi_of lat lon dist in
  let disp := displacement_of self (collection_of aoi (window_of self dt1))
                              (collection_of aoi (window_of self dt2)) in
  let days := time_gap dt1 dt2 in
  let sf := speed_final_of disp days (glaciers_of aoi) in
  calculate_velocity rt self lat lon date1 date2 buffer_km w
  = (Ok (success_dict sf (glaciers_of aoi) days stats date1 date2),
     logged w (imagery self lat lon dist dt1 dt2 n1
               ++ tracking self lat lon dist dt1 dt2
               ++ masking disp days (glaciers_of aoi)
               ++ statistics sf aoi)).
Proof.
  intros Ha Hd H1 H2 R1 R2 S1 S2 Z Sg Zg Ss.
  assert (E := run_to_glacier_count rt Ha self lat lon date1 date2 buffer_km
                 dist dt1 dt2 n1 n2 w
                 Hd H1 H2 R1 R2 S1 S2 Z g stats Sg (fun _ => Ss)).
  cbv zeta in E. rewrite Zg in E. cbv zeta.
  unfold calculate_velocity, try_except. rewrite E. reflexivity.
Qed.

(** The summer run against a backend with images and glaciers succeeds. *)
Lemma summer_run :
  fst (calculate_velocity covered GlacierVelocityEngine pindari_lat pindari_lon
         (PStr "2023-06-01") (PStr "2023-08-31") (PInt 5) Demo.world0)
  = Ok summer_result.
Proof. vm_compute. reflexivity. Qed.

(** C4. In a successful result the elapsed days returned, and used as the
    divisor of the displacement magnitude, are [|date2 - date1|] in
    calendar days with [0] replaced by [1]: never zero, and 91 from
    2023-06-01 to 2023-08-31. *)
Theorem elapsed_days_clamped rt self lat lon date1 date2 buffer_km w d :
  fst (calculate_velocity rt self lat lon date1 date2 buffer_km w) = Ok d ->
  truthy (dict_get d "success" PNone) = true ->
  exists dt1 dt2 disp glaciers,
    strptime date1 = Ok dt1
    /\ strptime date2 = Ok dt2
    /\ dict_lookup d "time_gap_days" = Some (PInt (time_gap dt1 dt2))
    /\ dict_lookup d "velocity_m_day"
       = Some (PObj (updateMask
                       (rename (divide (hypot (select disp "dx") (select disp "dy"))
                                       (time_gap dt1 dt2)) "velocity")
                       (glacier_mask_of glaciers)))
    /\ time_gap dt1 dt2 = Z.max 1 (Z.abs (toordinal dt2 - toordinal dt1))
    /\ (toordinal dt2 = toordinal dt1 -> time_gap dt1 dt2 = 1)
    /\ time_gap dt1 dt2 <> 0
    /\ (date1 = PStr "2023-06-01" -> date2 = PStr "2023-08-31" -> time_gap dt1 dt2 = 91).
Proof.
  intros E S.
  destruct (calculate_velocity_outcome rt self lat lon date1 date2 buffer_km w)
    as (d' & w' & E' & O).
  rewrite E' in E. simpl in E. injection E as ->.
  destruct O as [e | dist dt1 dt2 n1 n2 | dist dt1 dt2 n1 n2 g
                 | dist dt1 dt2 n1 n2 g stats Hd H1 H2 S1 S2 Z Sg Zg Ss];
    try discriminate S.
  exists dt1, dt2, (displacement_of self
                      (collection_of (aoi_of lat lon dist) (window_of self dt1))
                      (collection_of (aoi_of lat lon dist) (window_of self dt2))),
         (glaciers_of (aoi_of lat lon dist)).
  assert (T : time_gap dt1 dt2 = Z.max 1 (Z.abs (toordinal dt2 - toordinal dt1))).
  { unfold time_gap, days_between.
    destruct (Z.eqb_spec (Z.abs (toordinal dt2 - toordinal dt1)) 0); lia. }
  repeat split; try reflexivity; try assumption.
  - intros Q. rewrite T, Q. replace (toordinal dt1 - toordinal dt1) with 0 by lia.
    reflexivity.
  - lia.
  - intros -> ->. cbn in H1, H2. injection H1 as <-. injection H2 as <-. reflexivity.
Qed.

Lemma elapsed_days_clamped_witness :
  fst (calculate_velocity covered GlacierVelocityEngine pindari_lat pindari_lon
         (PStr "2023-06-01") (PStr "2023-08-31") (PInt 5) Demo.world0)
  = Ok summer_result
  /\ truthy (dict_get summer_result "success" PNone) = true
  /\ exists dt1 dt2 disp glaciers,
       strptime (PStr "2023-06-01") = Ok dt1
       /\ strptime (PStr "2023-08-31") = Ok dt2
       /\ dict_lookup summer_result "time_gap_days" = Some (PInt (time_gap dt1 dt2))
       /\ dict_lookup summer_result "velocity_m_day"
          = Some (PObj (updateMask
                          (rename (divide (hypot (select disp "dx") (select disp "dy"))
                                          (time_gap dt1 dt2)) "velocity")
                          (glacier_mask_of glaciers)))
       /\ time_gap dt1 dt2 = Z.max 1 (Z.abs (toordinal dt2 - toordinal dt1))
       /\ (toordinal dt2 = toordinal dt1 -> time_gap dt1 dt2 = 1)
       /\ time_gap dt1 dt2 <> 0
       /\ (PStr "2023-06-01" = PStr "2023-06-01" -> PStr "2023-08-31" = PStr "2023-08-31" ->
           time_gap dt1 dt2 = 91).
Proof.
  split; [vm_compute; reflexivity |]. split; [reflexivity |].
  apply (elapsed_days_clamped covered GlacierVelocityEngine pindari_lat pindari_lon
           (PStr "2023-06-01") (PStr "2023-08-31") (PInt 5) Demo.world0 summer_result);
    [vm_compute; reflexivity | reflexivity].
Defined.

(** C9. [calculate_velocity] returns for every input, whatever the backend
    does: the result is a dict with a boolean ['success'], a failure
    carries an ['error'] string, and an exception raised anywhere in the
    [try] block, by the backend or by date parsing, becomes
    [{success: False, error: "Velocity calculation failed: <message>"}]. *)
Theorem calculate_velocity_total rt self lat lon date1 date2 buffer_km w :
  exists d w',
    calculate_velocity rt self lat lon date1 date2 buffer_km w = (Ok d, w')
    /\ (exists b, dict_lookup d "success" = Some (PBool b)
                  /\ (b = false -> exists msg, dict_lookup d "error" = Some (PStr msg)))
    /\ (forall e w1,
          calculate_velocity_try rt self lat lon date1 date2 buffer_km w = (Raise e, w1) ->
          d = [("success", PBool false);
               ("error", PStr ("Velocity calculation failed: " ++ exn_msg e))]
          /\ w' = w1)
    /\ (forall dist e,
          ee_client rt (Geometry_Point lon lat) = None ->
          py_mul_int buffer_km 1000 = Ok dist ->
          ee_client rt (aoi_of lat lon dist) = None ->
          strptime date1 = Raise e ->
          d = [("success", PBool false);
               ("error", PStr ("Velocity calculation failed: " ++ exn_msg e))]).
Proof.
  destruct (calculate_velocity_outcome rt self lat lon date1 date2 buffer_km w)
    as (d & w' & E & O).
  exists d, w'. split; [exact E |]. split; [| split].
  - destruct O; [exists false | exists false | exists false | exists true];
      (split; [reflexivity |]); intros B; try discriminate B; eexists; reflexivity.
  - intros e w1 T. unfold calculate_velocity, try_except in E. rewrite T in E.
    unfold ret in E. injection E as <- <-. split; reflexivity.
  - intros dist e P Hd A H1.
    unfold calculate_velocity, try_except, calculate_velocity_try in E.
    unfold bind at 1 in E. unfold call at 1 in E. unfold bind at 1 in E.
    cbn [log_event] in E. rewrite P in E. cbn [ret] in E.
    rewrite (bind_lift_ok _ dist) in E by exact Hd.
    unfold bind at 1 in E. unfold call at 1 in E. unfold bind at 1 in E.
    cbn [log_event] in E. unfold aoi_of in A. rewrite A in E. cbn [ret] in E.
    unfold bind at 1 in E. unfold lift at 1 in E. rewrite H1 in E.
    unfold ret in E. injection E as <- _. reflexivity.
Qed.

(** A date that does not parse is reported, not raised. *)
Lemma calculate_velocity_total_witness :
  exists d w',
    calculate_velocity covered GlacierVelocityEngine pindari_lat pindari_lon
      (PStr "next summer") (PStr "2023-08-31") (PInt 5) Demo.world0 = (Ok d, w')
    /\ d = [("success", PBool false);
            ("error", PStr "Velocity calculation failed: time data 'next summer' does not match format '%Y-%m-%d'")].
Proof.
  destruct (calculate_velocity_total covered GlacierVelocityEngine pindari_lat pindari_lon
              (PStr "next summer") (PStr "2023-08-31") (PInt 5) Demo.world0)
    as (d & w' & E & _ & _ & D).
  exists d, w'. split; [exact E |].
  exact (D (PInt 5000) _ eq_refl eq_refl eq_refl eq_refl).
Defined.

End Estimator.

(* ================================================================== *)
(** * The speed field *)
(* ================================================================== *)

Section Masking.
Import Py Datetime World Trace Spec Example.

Lemma unmasked_ext {A} (f g : A -> option R) ps :
  (forall p, f p = g p) -> unmasked f ps = unmasked g ps.
Proof.
  intros H. induction ps as [| p ps IH]; simpl; [reflexivity |].
  rewrite H, IH. reflexivity.
Qed.

(** Pixels without data do not contribute: dropping them beforehand
    changes nothing. *)
Lemma unmasked_filter {A} (f : A -> option R) (keep : A -> bool) ps :
  (forall p, keep p = false -> f p = None) ->
  unmasked f ps = unmasked f (List.filter keep ps).
Proof.
  intros H. induction ps as [| p ps IH]; simpl; [reflexivity |].
  destruct (keep p) eqn:K; simpl.
  - now rewrite IH.
  - now rewrite (H p K).
Qed.

Lemma existsb_filter {A} (f g : A -> bool) l :
  existsb f (List.filter g l) = true -> existsb f l = true.
Proof.
  induction l as [| a l IH]; simpl; [trivial |].
  destruct (g a); simpl; intros H.
  - apply orb_true_iff in H. apply orb_true_iff. destruct H; auto.
  - apply orb_true_iff. auto.
Qed.

Lemma sample_glacier_mask rt sem glaciers p :
  lawful rt sem ->
  sample sem (glacier_mask_of glaciers) p
  = Some (if inside sem glaciers p then 1%R else 0%R).
Proof.
  intros laws. unfold glacier_mask_of.
  rewrite (sample_gt _ _ laws), (sample_paint _ _ laws), (sample_const _ _ laws).
  destruct (inside sem glaciers p); simpl; f_equal.
  - destruct (Rlt_dec (IZR 0) (IZR 1)) as [_ | N]; [reflexivity | exfalso; apply N; lra].
  - destruct (Rlt_dec (IZR 0) (IZR 0)) as [L | _]; [exfalso; lra | reflexivity].
Qed.

Lemma sample_speed_final rt sem disp days glaciers p :
  lawful rt sem ->
  sample sem (speed_final_of disp days glaciers) p = speed_at sem disp days glaciers p.
Proof.
  intros laws. unfold speed_final_of, speed_m_day_of, speed_at.
  rewrite (sample_updateMask _ _ laws), (sample_glacier_mask rt sem _ _ laws).
  destruct (inside sem glaciers p).
  - destruct (Req_dec_T 1 0) as [E | _]; [exfalso; lra |].
    rewrite (sample_rename _ _ laws), (sample_divide _ _ laws), (sample_hypot _ _ laws).
    destruct (sample sem (select disp "dx") p), (sample sem (select disp "dy") p);
      reflexivity.
  - destruct (Req_dec_T 0 0) as [_ | N]; [reflexivity | exfalso; now apply N].
Qed.

(** C3. Under the documented meaning of the Earth Engine operations, a
    successful result is about the disk of [buffer_km * 1000] metres around
    the point [(lon, lat)] and the displacement between the least cloudy
    images of the two windows: its glacier polygons are those of the GLIMS
    inventory that intersect the disk, and its speed field is
    [sqrt(dx^2 + dy^2) / elapsed days] at the pixels covered by one of
    these polygons and has no data at every other pixel; the statistics
    returned are the reduction, over the disk at a scale of 100 m, of the
    covered pixels only. *)
Theorem speed_field_masked_to_glaciers rt sem self lat lon date1 date2 buffer_km w d :
  lawful rt sem ->
  fst (calculate_velocity rt self lat lon date1 date2 buffer_km w) = Ok d ->
  truthy (dict_get d "success" PNone) = true ->
  exists dist dt1 dt2 speed_field stats,
    py_mul_int buffer_km 1000 = Ok dist
    /\ strptime date1 = Ok dt1
    /\ strptime date2 = Ok dt2
    /\ let aoi := buffer (Geometry_Point lon lat) dist in
       let glims := FeatureCollection "GLIMS/20230607" in
       let glaciers := filterBounds glims aoi in
       let img1 := first (sort (collection_of aoi (window_of self dt1))
                               "CLOUDY_PIXEL_PERCENTAGE") in
       let img2 := first (sort (collection_of aoi (window_of self dt2))
                               "CLOUDY_PIXEL_PERCENTAGE") in
       let disp := displacement (select img2 "B8") (select img1 "B8")
                                (max_offset_m self) 256 in
       let days := time_gap dt1 dt2 in
       dict_lookup d "velocity_m_day" = Some (PObj speed_field)
       /\ dict_lookup d "glacier_polygons" = Some (PObj glaciers)
       /\ dict_lookup d "time_gap_days" = Some (PInt days)
       /\ dict_lookup d "stats" = Some stats
       /\ features sem glaciers
          = List.filter (fun f => intersects sem f aoi) (features sem glims)
       /\ (forall p dx dy,
             inside sem glaciers p = true ->
             sample sem (select disp "dx") p = Some dx ->
             sample sem (select disp "dy") p = Some dy ->
             sample sem speed_field p = Some (sqrt (dx * dx + dy * dy) / IZR days)%R)
       /\ (forall p, inside sem glaciers p = false -> sample sem speed_field p = None)
       /\ (forall p, inside sem glims p = false -> sample sem speed_field p = None)
       /\ (forall p, sample sem speed_field p = speed_at sem disp days glaciers p)
       /\ stats = reduce sem mean_min_max
                    (unmasked (speed_at sem disp days glaciers)
                              (List.filter (inside sem glaciers) (region sem aoi 100))).
Proof.
  intros L E S.
  destruct (calculate_velocity_outcome rt self lat lon date1 date2 buffer_km w)
    as (d' & w' & E' & O).
  rewrite E' in E. simpl in E. injection E as ->.
  destruct O as [e | dist dt1 dt2 n1 n2 | dist dt1 dt2 n1 n2 g
                 | dist dt1 dt2 n1 n2 g stats Hd H1 H2 S1 S2 Z Sg Zg Ss];
    try discriminate S.
  unfold glaciers_of, displacement_of, best_image_of, aoi_of in *.
  set (aoi := buffer (Geometry_Point lon lat) dist) in *.
  set (glaciers := filterBounds (FeatureCollection "GLIMS/20230607") aoi) in *.
  set (disp := displacement _ _ _ _) in *.
  exists dist, dt1, dt2, (speed_final_of disp (time_gap dt1 dt2) glaciers), stats.
  do 3 (split; [assumption |]).
  cbv zeta. fold aoi. fold glaciers. fold disp.
  do 4 (split; [reflexivity |]).
  split; [apply (features_filterBounds _ _ L) |].
  assert (Out : forall p, inside sem glaciers p = false ->
                          sample sem (speed_final_of disp (time_gap dt1 dt2) glaciers) p
                          = None).
  { intros p I. rewrite (sample_speed_final rt sem _ _ _ _ L). unfold speed_at.
    now rewrite I. }
  split; [| split; [exact Out | split; [| split]]].
  - intros p dx dy I X Y. rewrite (sample_speed_final rt sem _ _ _ _ L).
    unfold speed_at. now rewrite I, X, Y.
  - intros p I. apply Out. unfold inside, glaciers in *.
    rewrite (features_filterBounds _ _ L).
    destruct (existsb _ (List.filter _ _)) eqn:X; [| reflexivity].
    rewrite (existsb_filter _ _ _ X) in I. discriminate I.
  - intros p. apply (sample_speed_final rt sem _ _ _ _ L).
  - apply (server_reduceRegion _ _ L) in Ss. rewrite Ss. f_equal.
    rewrite (unmasked_ext _ _ _ (fun p => sample_speed_final rt sem _ _ _ p L)).
    apply unmasked_filter. intros p I. unfold speed_at. now rewrite I.
Qed.

(** The valley's raster and backend have the documented meaning. *)
Lemma valley_lawful : lawful Demo.valley Demo.raster.
Proof.
  split; try reflexivity.
  intros i r g scale maxPixels v H. simpl in H. now injection H as <-.
Qed.

(** What the valley's backend says about the speed field of the run: six
    of the eleven pixels of the disk are reduced. *)
Lemma valley_statistics :
  ee_server Demo.valley
    (stats_query (speed_final_of valley_disp 91 (glaciers_of valley_aoi)) valley_aoi)
  = Ok (PDict [("velocity_count", PInt 6)]).
Proof.
  unfold stats_query. cbn [ee_server Demo.valley Demo.valley_server].
  change Demo.sample1d with (sample Demo.raster).
  rewrite (unmasked_ext _ _ _
             (fun p => sample_speed_final Demo.valley Demo.raster _ _ _ p valley_lawful)).
  reflexivity.
Qed.

(** The run in the valley succeeds. *)
Lemma valley_run :
  fst (calculate_velocity Demo.valley GlacierVelocityEngine (PInt 30) (PInt 5)
         (PStr "2023-06-01") (PStr "2023-08-31") (PInt 5) Demo.world0)
  = Ok valley_result.
Proof.
  destruct summer_windows_in_range as [R1 R2].
  rewrite (successful_run Demo.valley GlacierVelocityEngine (PInt 30) (PInt 5)
             (PStr "2023-06-01") (PStr "2023-08-31") (PInt 5) (PInt 5000)
             (Date 2023 6 1) (Date 2023 8 31) (PInt 4) (PInt 4) (PInt 2)
             (PDict [("velocity_count", PInt 6)]) Demo.world0
             (fun _ => eq_refl) eq_refl eq_refl eq_refl R1 R2 eq_refl eq_refl eq_refl
             eq_refl eq_refl valley_statistics).
  reflexivity.
Qed.

Lemma speed_field_masked_to_glaciers_witness :
  lawful Demo.valley Demo.raster
  /\ fst (calculate_velocity Demo.valley GlacierVelocityEngine (PInt 30) (PInt 5)
            (PStr "2023-06-01") (PStr "2023-08-31") (PInt 5) Demo.world0)
     = Ok valley_result
  /\ truthy (dict_get valley_result "success" PNone) = true
  /\ exists dist dt1 dt2 speed_field stats,
       py_mul_int (PInt 5) 1000 = Ok dist
       /\ strptime (PStr "2023-06-01") = Ok dt1
       /\ strptime (PStr "2023-08-31") = Ok dt2
       /\ let aoi := buffer (Geometry_Point (PInt 5) (PInt 30)) dist in
          let glims := FeatureCollection "GLIMS/20230607" in
          let glaciers := filterBounds glims aoi in
          let img1 := first (sort (collection_of aoi (window_of GlacierVelocityEngine dt1))
                                  "CLOUDY_PIXEL_PERCENTAGE") in
          let img2 := first (sort (collection_of aoi (window_of GlacierVelocityEngine dt2))
                                  "CLOUDY_PIXEL_PERCENTAGE") in
          let disp := displacement (select img2 "B8") (select img1 "B8")
                                   (max_offset_m GlacierVelocityEngine) 256 in
          let days := time_gap dt1 dt2 in
          dict_lookup valley_result "velocity_m_day" = Some (PObj speed_field)
          /\ dict_lookup valley_result "glacier_polygons" = Some (PObj glaciers)
          /\ dict_lookup valley_result "time_gap_days" = Some (PInt days)
          /\ dict_lookup valley_result "stats" = Some stats
          /\ features Demo.raster glaciers
             = List.filter (fun f => intersects Demo.raster f aoi)
                           (features Demo.raster glims)
          /\ (forall p dx dy,
                inside Demo.raster glaciers p = true ->
                sample Demo.raster (select disp "dx") p = Some dx ->
                sample Demo.raster (select disp "dy") p = Some dy ->
                sample Demo.raster speed_field p
                = Some (sqrt (dx * dx + dy * dy) / IZR days)%R)
          /\ (forall p, inside Demo.raster glaciers p = false ->
                        sample Demo.raster speed_field p = None)
          /\ (forall p, inside Demo.raster glims p = false ->
                        sample Demo.raster speed_field p = None)
          /\ (forall p, sample Demo.raster speed_field p
                        = speed_at Demo.raster disp days glaciers p)
          /\ stats = reduce Demo.raster mean_min_max
                       (unmasked (speed_at Demo.raster disp days glaciers)
                                 (List.filter (inside Demo.raster glaciers)
                                              (region Demo.raster aoi 100))).
Proof.
  split; [exact valley_lawful |].
  split; [exact valley_run |]. split; [reflexivity |].
  exact (speed_field_masked_to_glaciers Demo.valley Demo.raster GlacierVelocityEngine
           (PInt 30) (PInt 5) (PStr "2023-06-01") (PStr "2023-08-31") (PInt 5)
           Demo.world0 valley_result valley_lawful valley_run eq_refl).
Defined.

(** The run in the valley, read off the raster.  The disk is the stretch
    from kilometre 0 to 10, eleven pixels; of the three glaciers of the
    inventory the two that reach into it are kept and the one at kilometres
    100 to 110 is not; the speed at kilometre 3, on the first glacier, is
    [sqrt(9^2 + 12^2) / 91], and there is no data at kilometre 5, between
    the glaciers, nor at kilometre 105, on the glacier outside the disk;
    the statistics are those of the six covered pixels. *)
Lemma valley_masking :
  features Demo.raster (FeatureCollection "GLIMS/20230607") = [(2, 4); (8, 12); (100, 110)]
  /\ features Demo.raster (glaciers_of valley_aoi) = [(2, 4); (8, 12)]
  /\ region Demo.raster valley_aoi 100 = [0; 1; 2; 3; 4; 5; 6; 7; 8; 9; 10]
  /\ List.filter (inside Demo.raster (glaciers_of valley_aoi))
                 (region Demo.raster valley_aoi 100)
     = [2; 3; 4; 8; 9; 10]
  /\ sample Demo.raster (speed_final_of valley_disp 91 (glaciers_of valley_aoi)) 3
     = Some (sqrt (IZR 9 * IZR 9 + IZR 12 * IZR 12) / IZR 91)%R
  /\ sample Demo.raster (speed_final_of valley_disp 91 (glaciers_of valley_aoi)) 5 = None
  /\ sample Demo.raster (speed_final_of valley_disp 91 (glaciers_of valley_aoi)) 105 = None
  /\ dict_lookup valley_result "stats" = Some (PDict [("velocity_count", PInt 6)]).
Proof.
  do 4 (split; [reflexivity |]).
  rewrite !(sample_speed_final Demo.valley Demo.raster _ _ _ _ valley_lawful).
  repeat split.
Qed.

End Masking.

(* ================================================================== *)
(** * The velocity tab *)
(* ================================================================== *)

Ltac screen_only :=
  repeat first
    [ apply within_draw
    | apply (within_ret _ screen_grows_refl)
    | apply (within_lift _ screen_grows_refl)
    | apply (within_raise _ screen_grows_refl)
    | apply (within_get_session _ screen_grows_refl)
    | apply (within_bind _ screen_grows_trans); [| intros ?]
    | progress cbv zeta
    | match goal with
      | |- Spec.within _ (if ?b then _ else _) => destruct b
      | |- Spec.within _ (match ?x with _ => _ end) => destruct x
      end ].

Section VelocityTab.
Import Py Datetime World Trace Spec Example.

Variable rt : runtime.

(** Showing the stored result only draws. *)
Lemma within_show_velocity_result : within screen_grows (show_velocity_result rt).
Proof. unfold show_velocity_result. screen_only. Qed.

Lemma set_velocity_result_run r w : set_velocity_result r w = (Ok tt, stored w r).
Proof. reflexivity. Qed.

(** C6. When the start date is not before the end date, pressing the button
    draws the validation error and nothing else happens: the log of backend
    interactions and the session state, with the stored velocity result,
    are those of before. *)
Theorem invalid_dates_rejected location selected_glacier inp w :
  calculate_pressed inp = true ->
  date_geb (start_date inp) (end_date inp) = true ->
  exists r later,
    render_manual_velocity_interface rt location selected_glacier inp w
    = (r, drawn w ([st_subheader "Glacier Velocity Analysis";
                    st_info "Measure glacier speed between two dates using Sentinel-2 satellite imagery.";
                    st_error "End date must be after start date."] ++ later))
    /\ backend_log (snd (render_manual_velocity_interface rt location selected_glacier inp w))
       = backend_log w
    /\ session (snd (render_manual_velocity_interface rt location selected_glacier inp w))
       = session w.
Proof.
  intros P G.
  assert (E : exists r later,
    render_manual_velocity_interface rt location selected_glacier inp w
    = (r, drawn w ([st_subheader "Glacier Velocity Analysis";
                    st_info "Measure glacier speed between two dates using Sentinel-2 satellite imagery.";
                    st_error "End date must be after start date."] ++ later))).
  { unfold render_manual_velocity_interface.
    rewrite bind_draw, bind_draw, P, G, bind_assoc, bind_draw, bind_ret.
    repeat rewrite drawn_drawn.
    pose proof (within_show_velocity_result
                  (drawn w ([st_subheader "Glacier Velocity Analysis"] ++
                            [st_info "Measure glacier speed between two dates using Sentinel-2 satellite imagery."] ++
                            [st_error "End date must be after start date."]))) as [later L].
    unfold bind at 1.
    destruct (show_velocity_result rt _) as [[[] | x] w1]; simpl in L; subst w1;
      rewrite drawn_drawn; eexists; exists later; reflexivity. }
  destruct E as (r & later & E). exists r, later. rewrite E. repeat split.
Qed.

Hypothesis accepts : forall e, ee_client rt e = None.

(** The accepted branch of the velocity action: the estimator is called
    with the literal radius 5. *)
Lemma velocity_action_run location selected_glacier inp w e lat lon :
  calculate_pressed inp = true ->
  date_geb (start_date inp) (end_date inp) = false ->
  velocity_engine (session w) = Some e ->
  dict_lookup location "lat" = Some lat ->
  dict_lookup location "lon" = Some lon ->
  exists d evs,
    render_manual_velocity_interface rt location selected_glacier inp w
    = (Ok Rerun,
       stored (logged (drawn w [st_subheader "Glacier Velocity Analysis";
                                st_info "Measure glacier speed between two dates using Sentinel-2 satellite imagery.";
                                st_spinner "Calculating velocity... This can take up to a minute."])
                      (setup lat lon (PInt 5000) ++ evs)) d)
    /\ velocity_outcome rt e lat lon (PStr (strftime_Ymd (start_date inp)))
                        (PStr (strftime_Ymd (end_date inp))) (PInt 5) d.
Proof.
  intros P G E La Lo.
  unfold render_manual_velocity_interface.
  rewrite bind_draw, bind_draw, P, G, bind_assoc, bind_get_session.
  cbn [session drawn]. rewrite E, bind_assoc, bind_ret, bind_assoc, bind_draw.
  unfold dict_index. rewrite La, Lo.
  rewrite bind_assoc, (bind_lift_ok _ lat), bind_assoc, (bind_lift_ok _ lon) by reflexivity.
  repeat rewrite drawn_drawn. cbn [List.app].
  set (w0 := drawn w _).
  destruct (calculate_velocity_area rt accepts e lat lon
              (PStr (strftime_Ymd (start_date inp))) (PStr (strftime_Ymd (end_date inp)))
              (PInt 5) (PInt 5000) w0 eq_refl) as (d & evs & R).
  destruct (calculate_velocity_outcome rt e lat lon
              (PStr (strftime_Ymd (start_date inp))) (PStr (strftime_Ymd (end_date inp)))
              (PInt 5) w0) as (d' & w' & R' & O).
  rewrite R in R'. injection R' as <- <-.
  exists d, evs. split; [| exact O].
  rewrite bind_assoc, (bind_run _ _ _ _ _ R), bind_assoc.
  rewrite (bind_run _ _ _ _ _ (set_velocity_result_run d _)).
  reflexivity.
Qed.

(** C1, as the code has it. Whatever radius [buffer_size] the slider gives,
    a run of the page in which the velocity button is pressed builds the
    page's analysis area with that radius and then the estimator's with
    5000 metres: the estimator is called with [buffer_km = 5]. *)
Theorem velocity_radius_is_fixed inp w e location selected_glacier lat lon glacier_count :
  velocity_engine (session w) = Some e ->
  choose_location inp = Ok (location, selected_glacier) ->
  dict_lookup location "lat" = Some lat ->
  dict_lookup location "lon" = Some lon ->
  ee_server rt (size (glaciers_of (aoi_of lat lon (PInt (buffer_size inp * 1000)))))
    = Ok glacier_count ->
  calculate_pressed (velocity_tab inp) = true ->
  date_geb (start_date (velocity_tab inp)) (end_date (velocity_tab inp)) = false ->
  exists d evs,
    fst (app_py rt inp w) = Ok Rerun
    /\ backend_log (snd (app_py rt inp w))
       = (backend_log w ++ fetch lat lon (buffer_size inp)
          ++ [Call (Geometry_Point lon lat);
              Call (buffer (Geometry_Point lon lat) (PInt 5000))] ++ evs)%list
    /\ velocity_result (session (snd (app_py rt inp w))) = Some d
    /\ velocity_outcome rt e lat lon
         (PStr (strftime_Ymd (start_date (velocity_tab inp))))
         (PStr (strftime_Ymd (end_date (velocity_tab inp)))) (PInt 5) d.
Proof.
  intros E C La Lo Sg P G.
  assert (F : fetch_data rt location selected_glacier inp w
              = (Ok (aoi_of lat lon (PInt (buffer_size inp * 1000)),
                     [("name", PStr selected_glacier); ("lat", lat); ("lon", lon);
                      ("buffer_size", PInt (buffer_size inp));
                      ("glacier_count", glacier_count)],
                     [("date", PStr (strftime_Ymd (analysis_date inp)))]),
                 logged w (fetch lat lon (buffer_size inp)))).
  { unfold fetch_data, dict_index. rewrite La, Lo.
    rewrite !(bind_lift_ok _ _ _ _ eq_refl).
    rewrite !(bind_call rt accepts).
    rewrite (bind_size_info rt accepts _ glacier_count) by exact Sg.
    rewrite !(bind_lift_ok _ _ _ _ eq_refl).
    unfold ret. repeat rewrite logged_logged. reflexivity. }
  set (w1 := logged w (fetch lat lon (buffer_size inp))) in *.
  destruct (velocity_action_run location selected_glacier (velocity_tab inp) w1 e lat lon
              P G E La Lo) as (d & evs & R & O).
  exists d, evs.
  assert (A : app_py rt inp w
              = (Ok Rerun,
                 stored (logged (drawn w1 [st_subheader "Glacier Velocity Analysis";
                                           st_info "Measure glacier speed between two dates using Sentinel-2 satellite imagery.";
                                           st_spinner "Calculating velocity... This can take up to a minute."])
                                (setup lat lon (PInt 5000) ++ evs)) d)).
  { unfold app_py.
    rewrite bind_get_session, E. cbv beta iota.
    rewrite bind_ret, (bind_lift_ok _ _ _ _ C).
    cbn [fst snd].
    unfold try_except at 1. unfold bind at 1. unfold bind at 1. rewrite F. cbn [ret].
    rewrite (bind_run _ _ _ _ _ R). reflexivity. }
  rewrite A. cbn [fst snd stored session velocity_result backend_log logged drawn].
  repeat split; [| exact O].
  unfold w1, logged, setup, aoi_of. cbn [backend_log].
  repeat rewrite <- app_assoc. reflexivity.
Qed.

(** The statistic the tab shows, as [statistic] reads it. *)
Lemma statistic_shown stats key x :
  statistic stats key = Some x ->
  py_format_f 2 (py_or (dict_get stats key (PInt 0)) (PInt 0)) = Ok (format_f 2 x)
  /\ py_float_op "*" b64_mul (py_or (dict_get stats key (PInt 0)) (PInt 0))
                  (b64_literal 36525 2)
     = Ok (b64_mul x (b64_literal 36525 2)).
Proof.
  unfold statistic, dict_get, py_or.
  destruct (dict_lookup stats key) as [v |].
  - destruct (truthy v) eqn:T.
    + destruct v as [| b | z | y | | | |]; try discriminate.
      * simpl in T. subst b. intros H. injection H as <-. split; reflexivity.
      * unfold py_format_f, py_float_op, float_of_int.
        destruct (is_finite (b64_of_Z z)); [| discriminate].
        intros H. injection H as <-. split; reflexivity.
      * intros H. injection H as <-. split; reflexivity.
    + intros H. injection H as <-. split; reflexivity.
  - intros H. injection H as <-. split; reflexivity.
Qed.

(** C8, as the code has it. For a successful result the annual figure drawn
    is the binary64 product of the mean and 365.25, which is the double
    [1461 * 2^-2], formatted with one decimal; the product is rounded to a
    double before it is formatted.  The mean and the maximum are read by
    [stats.get(key, 0) or 0]: a statistic that is missing, null or zero
    counts as 0, also when the result has no statistics at all. *)
Theorem annual_projection_is_binary64_product w result stats days mean mx :
  velocity_result (session w) = Some result ->
  truthy (dict_get result "success" PNone) = true ->
  dict_get result "stats" (PDict []) = PDict stats ->
  dict_lookup result "time_gap_days" = Some days ->
  statistic stats "velocity_mean" = Some mean ->
  statistic stats "velocity_max" = Some mx ->
  show_velocity_result rt w
  = (Ok tt,
     drawn w [st_success ("Analysis Complete for **" ++ py_str rt days ++ " days**.");
              st_metric "Avg. Velocity" (format_f 2 mean ++ " m/day");
              st_metric "Max. Velocity" (format_f 2 mx ++ " m/day");
              st_metric "Est. Annual Speed"
                (format_f 1 (b64_mul mean (b64_literal 36525 2)) ++ " m/year")])
  /\ b64_literal 36525 2 = S754_finite false (1461 * 2 ^ 42) (-44).
Proof.
  intros V S St D Mx My.
  destruct (statistic_shown _ _ _ Mx) as [Fa Pa].
  destruct (statistic_shown _ _ _ My) as [Fb _].
  split; [| vm_compute; reflexivity].
  unfold show_velocity_result.
  rewrite bind_get_session, V, S, St.
  rewrite (bind_lift_ok _ stats) by reflexivity.
  cbv zeta. unfold dict_index. rewrite D. rewrite (bind_lift_ok _ days) by reflexivity.
  rewrite bind_draw, (bind_lift_ok _ _ _ _ Fa), bind_draw, (bind_lift_ok _ _ _ _ Fb),
    bind_draw, (bind_lift_ok _ _ _ _ Pa).
  change (draw ?x ?w0) with (Ok tt, drawn w0 [x]).
  repeat rewrite drawn_drawn. reflexivity.
Qed.

End VelocityTab.

Section VelocityTabRuns.
Import Py Datetime World Trace Spec Example Cases.

Lemma invalid_dates_rejected_witness :
  calculate_pressed backwards = true
  /\ date_geb (start_date backwards) (end_date backwards) = true
  /\ exists r later,
       render_manual_velocity_interface covered pindari "Pindari Glacier" backwards
         after_failure
       = (r, drawn after_failure
               ([st_subheader "Glacier Velocity Analysis";
                 st_info "Measure glacier speed between two dates using Sentinel-2 satellite imagery.";
                 st_error "End date must be after start date."] ++ later))
       /\ backend_log (snd (render_manual_velocity_interface covered pindari
                              "Pindari Glacier" backwards after_failure))
          = backend_log after_failure
       /\ session (snd (render_manual_velocity_interface covered pindari
                          "Pindari Glacier" backwards after_failure))
          = session after_failure.
Proof.
  split; [reflexivity |]. split; [reflexivity |].
  apply (invalid_dates_rejected covered pindari "Pindari Glacier" backwards after_failure);
    reflexivity.
Defined.

Lemma velocity_radius_is_fixed_witness :
  (forall e, ee_client covered e = None)
  /\ velocity_engine (session Demo.world0) = Some GlacierVelocityEngine
  /\ choose_location wide = Ok (pindari, "Pindari Glacier")
  /\ dict_lookup pindari "lat" = Some pindari_lat
  /\ dict_lookup pindari "lon" = Some pindari_lon
  /\ ee_server covered
       (size (glaciers_of (aoi_of pindari_lat pindari_lon (PInt (buffer_size wide * 1000)))))
     = Ok (PInt 3)
  /\ calculate_pressed (velocity_tab wide) = true
  /\ date_geb (start_date (velocity_tab wide)) (end_date (velocity_tab wide)) = false
  /\ buffer_size wide = 10
  /\ exists d evs,
       fst (app_py covered wide Demo.world0) = Ok Rerun
       /\ backend_log (snd (app_py covered wide Demo.world0))
          = (backend_log Demo.world0 ++ fetch pindari_lat pindari_lon 10
             ++ [Call (Geometry_Point pindari_lon pindari_lat);
                 Call (buffer (Geometry_Point pindari_lon pindari_lat) (PInt 5000))]
             ++ evs)%list
       /\ velocity_result (session (snd (app_py covered wide Demo.world0))) = Some d
       /\ velocity_outcome covered GlacierVelocityEngine pindari_lat pindari_lon
            (PStr (strftime_Ymd (start_date (velocity_tab wide))))
            (PStr (strftime_Ymd (end_date (velocity_tab wide)))) (PInt 5) d.
Proof.
  assert (A : forall e, ee_client covered e = None) by reflexivity.
  split; [exact A |].
  repeat (split; [reflexivity |]).
  apply (velocity_radius_is_fixed covered A wide Demo.world0 GlacierVelocityEngine
           pindari "Pindari Glacier" pindari_lat pindari_lon (PInt 3));
    reflexivity.
Defined.

(** The run with the slider at 10 km, evaluated: the page's area has a
    radius of 10000 metres, the estimator's 5000, and the stored result is
    the one computed for 5 km. *)
Lemma radius_ten_is_ignored :
  nth_error (backend_log (snd (app_py covered wide Demo.world0))) 1
  = Some (Call (buffer (Geometry_Point pindari_lon pindari_lat) (PInt 10000)))
  /\ nth_error (backend_log (snd (app_py covered wide Demo.world0))) 7
     = Some (Call (buffer (Geometry_Point pindari_lon pindari_lat) (PInt 5000)))
  /\ velocity_result (session (snd (app_py covered wide Demo.world0)))
     = Some summer_result.
Proof. vm_compute. repeat split. Qed.

Lemma annual_projection_is_binary64_product_witness :
  (velocity_result (session (stored Demo.world0 summer_result)) = Some summer_result
   /\ truthy (dict_get summer_result "success" PNone) = true
   /\ dict_get summer_result "stats" (PDict [])
      = PDict [("velocity_mean", PFloat Demo.slow);
               ("velocity_min", PFloat (b64_literal 1 1));
               ("velocity_max", PFloat (b64_literal 25 1))]
   /\ dict_lookup summer_result "time_gap_days" = Some (PInt 91)
   /\ statistic [("velocity_mean", PFloat Demo.slow);
                 ("velocity_min", PFloat (b64_literal 1 1));
                 ("velocity_max", PFloat (b64_literal 25 1))] "velocity_mean"
      = Some Demo.slow
   /\ statistic [("velocity_mean", PFloat Demo.slow);
                 ("velocity_min", PFloat (b64_literal 1 1));
                 ("velocity_max", PFloat (b64_literal 25 1))] "velocity_max"
      = Some (b64_literal 25 1)
   /\ show_velocity_result covered (stored Demo.world0 summer_result)
      = (Ok tt,
         drawn (stored Demo.world0 summer_result)
           [st_success ("Analysis Complete for **" ++ py_str covered (PInt 91)
                        ++ " days**.");
            st_metric "Avg. Velocity" (format_f 2 Demo.slow ++ " m/day");
            st_metric "Max. Velocity" (format_f 2 (b64_literal 25 1) ++ " m/day");
            st_metric "Est. Annual Speed"
              (format_f 1 (b64_mul Demo.slow (b64_literal 36525 2)) ++ " m/year")])
   /\ b64_literal 36525 2 = S754_finite false (1461 * 2 ^ 42) (-44))
  /\ (velocity_result (session (stored Demo.world0 no_mean_result)) = Some no_mean_result
      /\ truthy (dict_get no_mean_result "success" PNone) = true
      /\ dict_get no_mean_result "stats" (PDict [])
         = PDict [("velocity_mean", PNone); ("velocity_max", PFloat (b64_literal 25 1))]
      /\ dict_lookup no_mean_result "time_gap_days" = Some (PInt 91)
      /\ statistic [("velocity_mean", PNone); ("velocity_max", PFloat (b64_literal 25 1))]
                   "velocity_mean"
         = Some (b64_of_Z 0)
      /\ statistic [("velocity_mean", PNone); ("velocity_max", PFloat (b64_literal 25 1))]
                   "velocity_max"
         = Some (b64_literal 25 1)
      /\ show_velocity_result covered (stored Demo.world0 no_mean_result)
         = (Ok tt,
            drawn (stored Demo.world0 no_mean_result)
              [st_success ("Analysis Complete for **" ++ py_str covered (PInt 91)
                           ++ " days**.");
               st_metric "Avg. Velocity" (format_f 2 (b64_of_Z 0) ++ " m/day");
               st_metric "Max. Velocity" (format_f 2 (b64_literal 25 1) ++ " m/day");
               st_metric "Est. Annual Speed"
                 (format_f 1 (b64_mul (b64_of_Z 0) (b64_literal 36525 2)) ++ " m/year")])
      /\ b64_literal 36525 2 = S754_finite false (1461 * 2 ^ 42) (-44)).
Proof.
  split.
  - do 6 (split; [reflexivity |]).
    apply (annual_projection_is_binary64_product covered (stored Demo.world0 summer_result)
             summer_result
             [("velocity_mean", PFloat Demo.slow);
              ("velocity_min", PFloat (b64_literal 1 1));
              ("velocity_max", PFloat (b64_literal 25 1))]
             (PInt 91) Demo.slow (b64_literal 25 1));
      reflexivity.
  - do 6 (split; [reflexivity |]).
    apply (annual_projection_is_binary64_product covered (stored Demo.world0 no_mean_result)
             no_mean_result
             [("velocity_mean", PNone); ("velocity_max", PFloat (b64_literal 25 1))]
             (PInt 91) (b64_of_Z 0) (b64_literal 25 1));
      reflexivity.
Defined.

(** The run without a mean, evaluated: the tab shows 0.00 m/day and
    0.0 m/year next to the maximum. *)
Lemma null_mean_reads_zero :
  screen (snd (show_velocity_result covered (stored Demo.world0 no_mean_result)))
  = [st_success "Analysis Complete for **91 days**.";
     st_metric "Avg. Velocity" "0.00 m/day";
     st_metric "Max. Velocity" "2.50 m/day";
     st_metric "Est. Annual Speed" "0.0 m/year"].
Proof. vm_compute. reflexivity. Qed.

(** C8, as stated, fails: the product is rounded before it is formatted.
    The mean [Demo.slow] times 365.25, as the product of the two numbers
    without rounding, is a little above 1.25 and reads "1.3" with one
    decimal; the binary64 product is exactly 1.25 and the screen shows
    "1.2". *)
Lemma annual_projection_not_exact :
  velocity_result (session (stored Demo.world0 summer_result)) = Some summer_result
  /\ dict_lookup summer_result "stats" = Some Demo.stats
  /\ Demo.stats = PDict [("velocity_mean", PFloat Demo.slow);
                         ("velocity_min", PFloat (b64_literal 1 1));
                         ("velocity_max", PFloat (b64_literal 25 1))]
  /\ format_f 1 (exact_product Demo.slow (b64_literal 36525 2)) = "1.3"
  /\ screen (snd (show_velocity_result covered (stored Demo.world0 summer_result)))
     = [st_success "Analysis Complete for **91 days**.";
        st_metric "Avg. Velocity" "0.00 m/day";
        st_metric "Max. Velocity" "2.50 m/day";
        st_metric "Est. Annual Speed" "1.2 m/year"]
  /\ ~ In (st_metric "Est. Annual Speed"
             (format_f 1 (exact_product Demo.slow (b64_literal 36525 2)) ++ " m/year"))
          (screen (snd (show_velocity_result covered (stored Demo.world0 summer_result)))).
Proof.
  repeat (split; [vm_compute; reflexivity |]).
  vm_compute. intros H.
  repeat (destruct H as [H | H]; [discriminate H |]). exact H.
Qed.

End VelocityTabRuns.

(* ================================================================== *)
(** * Fixed-point formatting *)
(* ================================================================== *)

Section Formatting.
Import Py Datetime World Spec.

(** [round_half_even n d] is an integer nearest to [n / d]. *)
Lemma round_half_even_nearest n d :
  0 < d -> 2 * Z.abs (round_half_even n d * d - n) <= d.
Proof.
  intros Hd. unfold round_half_even.
  pose proof (Z.div_mod n d ltac:(lia)) as E.
  pose proof (Z.mod_pos_bound n d Hd) as B.
  destruct (Z.compare_spec (2 * (n mod d)) d) as [C | C | C].
  - destruct (Z.even (n / d)); nia.
  - nia.
  - nia.
Qed.

(** The digits printed for [m * 2^e] with [prec] decimals are the integer
    nearest to [m * 2^e * 10^prec]. *)
Lemma scaled_digits_nearest prec m e :
  (0 <= e -> scaled_digits prec m e = Zpos m * 10 ^ Z.of_nat prec * 2 ^ e)
  /\ (e < 0 ->
      2 * Z.abs (scaled_digits prec m e * 2 ^ (- e) - Zpos m * 10 ^ Z.of_nat prec)
      <= 2 ^ (- e)).
Proof.
  unfold scaled_digits. split; intros H.
  - destruct (Z.leb_spec 0 e); [reflexivity | lia].
  - destruct (Z.leb_spec 0 e); [lia |].
    apply round_half_even_nearest. apply Z.pow_pos_nonneg; lia.
Qed.

Lemma scaled_digits_nonneg prec m e : 0 <= scaled_digits prec m e.
Proof.
  unfold scaled_digits, round_half_even.
  assert (0 <= Z.pos m * 10 ^ Z.of_nat prec)
    by (apply Z.mul_nonneg_nonneg; [lia | apply Z.pow_nonneg; lia]).
  destruct (0 <=? e).
  - apply Z.mul_nonneg_nonneg; [assumption | apply Z.pow_nonneg; lia].
  - assert (0 < 2 ^ (- e) \/ 2 ^ (- e) = 0) as [P | P].
    { pose proof (Z.pow_nonneg 2 (- e)). lia. }
    + assert (0 <= Z.pos m * 10 ^ Z.of_nat prec / 2 ^ (- e)) by (apply Z.div_pos; lia).
      destruct (_ ?= _); [destruct (Z.even _) | |]; lia.
    + rewrite P. rewrite Z.div_0_r, Z.mod_0_r.
      destruct (_ ?= _); [destruct (Z.even _) | |]; lia.
Qed.

Lemma zero_pad_4 k :
  0 <= k < 10000 ->
  String.length (zero_pad 4 k) = 4%nat /\ all_digits (zero_pad 4 k) = true.
Proof.
  intros H.
  assert (A : forallb four_digits (seq 0 (Z.to_nat 10000)) = true)
    by (vm_compute; reflexivity).
  rewrite forallb_forall in A.
  specialize (A (Z.to_nat k)).
  assert (I : In (Z.to_nat k) (seq 0 (Z.to_nat 10000))) by (apply in_seq; lia).
  specialize (A I). unfold four_digits in A. rewrite Z2Nat.id in A by lia.
  apply andb_true_iff in A. destruct A as [A1 A2].
  split; [now apply Nat.eqb_eq | exact A2].
Qed.

(** A finite float formatted with [.4f] is a sign, an integer part, a
    point and four digits. *)
Lemma format_f_four_decimals x :
  is_finite x = true ->
  exists sg i f,
    format_f 4 x = sg ++ string_of_Z i ++ "." ++ f
    /\ 0 <= i /\ String.length f = 4%nat /\ all_digits f = true.
Proof.
  destruct x as [s | s | | s m e]; try discriminate; intros _.
  - exists (sign_string s), 0, "0000". repeat split; reflexivity || lia.
  - exists (sign_string s), (scaled_digits 4 m e / 10 ^ Z.of_nat 4),
           (zero_pad 4 (scaled_digits 4 m e mod 10 ^ Z.of_nat 4)).
    pose proof (scaled_digits_nonneg 4 m e) as N.
    split; [reflexivity |]. split; [apply Z.div_pos; [exact N | reflexivity] |].
    apply zero_pad_4. apply Z.mod_pos_bound. reflexivity.
Qed.

End Formatting.

(* ================================================================== *)
(** * The context builder and the assistant tab *)
(* ================================================================== *)

Section Context.
Import Py Datetime World Trace Spec Example.

Variable rt : runtime.

Lemma vel_str_renders v s : renders v s -> vel_str v = Ok s.
Proof.
  intros [x | z x H | b | v' H]; unfold vel_str; simpl.
  - reflexivity.
  - now rewrite H.
  - reflexivity.
  - now rewrite H.
Qed.

(** The context with velocity data is the text built without it, with the
    velocity section put in front of the closing background paragraph. *)
Lemma create_context_velocity gi cd di sd vd c0 sa sm :
  vd <> [] ->
  create_context rt gi cd di sd PNone = Ok c0 ->
  vel_str (dict_get vd "avg_velocity" PNone) = Ok sa ->
  vel_str (dict_get vd "max_velocity" PNone) = Ok sm ->
  exists head,
    c0 = head ++ scientific_background
    /\ create_context rt gi cd di sd (PDict vd)
       = Ok (head
             ++ velocity_section (py_str rt (dict_get vd "date1" (PStr "N/A")))
                                 (py_str rt (dict_get vd "date2" (PStr "N/A"))) sa sm
             ++ scientific_background).
Proof.
  intros N C A X. unfold create_context in *.
  destruct (py_format_f 4 (dict_get gi "lat" (PStr "N/A"))) as [lat | e]; [| discriminate C].
  destruct (py_format_f 4 (dict_get gi "lon" (PStr "N/A"))) as [lon | e]; [| discriminate C].
  destruct (stats_lines rt cd sd) as [s | e]; [| discriminate C].
  cbv beta iota zeta delta [and_then velocity_lines truthy] in C.
  cbv beta iota zeta delta [and_then].
  exists (location_section (py_str rt (dict_get gi "name" (PStr "Unknown"))) lat lon
            (py_str rt (dict_get di "date" (PStr "N/A")))
            (py_str rt (dict_get cd "description" (PStr "N/A"))) ++ s).
  split.
  - rewrite append_nil_r_s in C. congruence.
  - destruct vd as [| kv vd]; [contradiction |].
    unfold velocity_lines.
    cbv beta iota zeta delta [and_then truthy as_dict].
    rewrite A, X. cbv beta iota. now rewrite append_assoc_s.
Qed.

(** C7, as the code has it. With a non-empty velocity dict, and the rest
    of the context building without error, the context is built without
    error and shows each of the average and the max velocity by its type:
    an [int] or [float] formatted with [.4f], which for a finite float is
    four decimals, and "Not Calculated" for any other object. *)
Theorem velocity_lines_by_type gi cd di sd vd c0 sa sm :
  vd <> [] ->
  create_context rt gi cd di sd PNone = Ok c0 ->
  renders (dict_get vd "avg_velocity" PNone) sa ->
  renders (dict_get vd "max_velocity" PNone) sm ->
  exists head,
    c0 = head ++ scientific_background
    /\ create_context rt gi cd di sd (PDict vd)
       = Ok (head
             ++ velocity_section (py_str rt (dict_get vd "date1" (PStr "N/A")))
                                 (py_str rt (dict_get vd "date2" (PStr "N/A"))) sa sm
             ++ scientific_background)
    /\ (forall x, dict_get vd "avg_velocity" PNone = PFloat x -> is_finite x = true ->
        exists sg i f, sa = sg ++ string_of_Z i ++ "." ++ f
                       /\ 0 <= i /\ String.length f = 4%nat /\ all_digits f = true)
    /\ (forall x, dict_get vd "max_velocity" PNone = PFloat x -> is_finite x = true ->
        exists sg i f, sm = sg ++ string_of_Z i ++ "." ++ f
                       /\ 0 <= i /\ String.length f = 4%nat /\ all_digits f = true)
    /\ (is_int_or_float (dict_get vd "avg_velocity" PNone) = false -> sa = "Not Calculated")
    /\ (is_int_or_float (dict_get vd "max_velocity" PNone) = false -> sm = "Not Calculated").
Proof.
  intros N C A X.
  destruct (create_context_velocity gi cd di sd vd c0 sa sm N C
              (vel_str_renders _ _ A) (vel_str_renders _ _ X)) as (head & H1 & H2).
  exists head. split; [exact H1 |]. split; [exact H2 |].
  assert (F : forall v s x, renders v s -> v = PFloat x -> is_finite x = true ->
              exists sg i f, s = sg ++ string_of_Z i ++ "." ++ f
                             /\ 0 <= i /\ String.length f = 4%nat /\ all_digits f = true).
  { intros v s x R E Fx. destruct R as [y | z y H | b | v' H]; try discriminate E.
    - injection E as ->. now apply format_f_four_decimals.
    - subst v'. discriminate H. }
  assert (G : forall v s, renders v s -> is_int_or_float v = false -> s = "Not Calculated").
  { intros v s R E. destruct R as [y | z y H | b | v' H]; try discriminate E. reflexivity. }
  repeat split; eauto.
Qed.

Lemma answer_question_run q ctx w :
  answer_question rt q ctx w
  = (Ok (answer_of rt (full_prompt q ctx)), asked w (full_prompt q ctx)).
Proof.
  unfold answer_question, try_except, answer_of, bind, log_prompt, lift, ret, asked.
  destruct (generate_content rt (full_prompt q ctx)); reflexivity.
Qed.

Lemma draw_suggestions_run l w : draw_suggestions l w = (Ok tt, drawn w (map st_button l)).
Proof.
  revert w. induction l as [| x l IH]; intros w; simpl.
  - unfold ret. now rewrite drawn_nil.
  - rewrite bind_draw, IH, drawn_drawn. reflexivity.
Qed.

(** One run of the assistant tab in which a question is asked. *)
Lemma render_ai_assistant_tab_run gi cd di sd vd inp w q ctx :
  qa_system (session w) = Some q ->
  ask_pressed inp = true ->
  strip_nonempty (question inp) = true ->
  create_context rt gi cd di sd vd = Ok ctx ->
  let prompt := full_prompt (question inp) ctx in
  let answer := answer_of rt prompt in
  let suggestions :=
    suggest_questions rt (dict_get gi "name" (PStr "this glacier"))
                      (dict_get cd "description" (PStr "climate data"))
                      (is_not_None vd) in
  render_ai_assistant_tab rt gi cd di sd vd inp w
  = (Ok tt,
     drawn
       (answered
          (asked (drawn w [st_subheader "Ask the AI Glacier Expert";
                           st_spinner "AI is analyzing your data..."]) prompt)
          (question inp) answer)
       ([st_write "**Suggested Questions:**"] ++ map st_button suggestions
        ++ [st_markdown "---";
            st_info ("**Your Question:** " ++ question inp);
            st_markdown answer;
            st_download_button "Download Answer"
              ("Question: " ++ question inp ++ LF ++ LF ++ "Answer:" ++ LF ++ answer)
              "glacier_analysis.txt"])).
Proof.
  intros Q P S C prompt answer suggestions.
  unfold render_ai_assistant_tab.
  rewrite bind_draw, bind_get_session. cbn [session drawn]. rewrite Q, bind_ret, P, S.
  rewrite !bind_assoc, bind_draw, bind_assoc, (bind_lift_ok _ _ _ _ C), bind_assoc.
  rewrite (bind_run _ _ _ _ _ (answer_question_run _ _ _)).
  fold prompt. fold answer.
  unfold set_qa_latest. rewrite !bind_assoc, bind_get_session.
  unfold put_session at 1. unfold bind at 1.
  rewrite bind_draw. cbv zeta. fold suggestions.
  rewrite (bind_run _ _ _ _ _ (draw_suggestions_run _ _)).
  rewrite bind_get_session.
  cbn [session qa_latest_answer qa_latest_question drawn asked].
  rewrite bind_ret, !bind_draw.
  change (draw ?x ?w0) with (Ok tt, drawn w0 [x]).
  repeat rewrite drawn_drawn. reflexivity.
Qed.

Hypothesis accepts : forall e, ee_client rt e = None.

(** Lines 224-233 of [app.py], when the backend answers: the tab is drawn
    with the stored velocity result as its velocity data. *)
Lemma tab_ai_run area gi di inp w n sd :
  ee_server rt (size (fldas inp)) = Ok n ->
  match climate_img inp with
  | Some img => ee_server rt (reduceRegion img mean_min_max area 1000 1000000000) = Ok sd
  | None => sd = PNone
  end ->
  exists evs,
    tab_ai rt area gi di inp w
    = render_ai_assistant_tab rt gi
        [("variable", PStr (climate_var inp));
         ("description", PStr (selected_climate_name inp));
         ("image_count", n)]
        di sd (session_get_velocity_result (session w)) (ai_tab inp) (logged w evs).
Proof.
  intros Sn Ss. unfold tab_ai.
  rewrite (bind_size_info rt accepts _ n) by exact Sn. cbv zeta.
  destruct (climate_img inp) as [img |].
  - repeat (rewrite ?bind_assoc; rewrite (bind_call rt accepts)).
    rewrite ?bind_assoc. rewrite (bind_getInfo rt _ sd) by exact Ss.
    rewrite bind_get_session. repeat rewrite logged_logged.
    eexists. reflexivity.
  - subst sd. rewrite bind_ret, bind_get_session. eexists. reflexivity.
Qed.

(** One run of the page's assistant tab in which a question is asked, by
    what the session holds as velocity result. *)
Lemma tab_ai_asked area gi di inp w q n sd vd ctx :
  session_get_velocity_result (session w) = vd ->
  qa_system (session w) = Some q ->
  ask_pressed (ai_tab inp) = true ->
  strip_nonempty (question (ai_tab inp)) = true ->
  ee_server rt (size (fldas inp)) = Ok n ->
  match climate_img inp with
  | Some img => ee_server rt (reduceRegion img mean_min_max area 1000 1000000000) = Ok sd
  | None => sd = PNone
  end ->
  create_context rt gi [("variable", PStr (climate_var inp));
                        ("description", PStr (selected_climate_name inp));
                        ("image_count", n)] di sd vd = Ok ctx ->
  fst (tab_ai rt area gi di inp w) = Ok tt
  /\ prompts (snd (tab_ai rt area gi di inp w))
     = (prompts w ++ [full_prompt (question (ai_tab inp)) ctx])%list
  /\ screen (snd (tab_ai rt area gi di inp w))
     = (screen w
        ++ asked_screen (question (ai_tab inp))
             (answer_of rt (full_prompt (question (ai_tab inp)) ctx))
             (climate_questions (selected_climate_name inp)
                                (py_str rt (dict_get gi "name" (PStr "this glacier")))
              ++ if is_not_None vd then velocity_questions else []))%list.
Proof.
  intros V Q P B Sn Ss C.
  destruct (tab_ai_run area gi di inp w n sd Sn Ss) as [evs R].
  rewrite R, V.
  rewrite (render_ai_assistant_tab_run gi _ di sd _ (ai_tab inp) (logged w evs) q _
             Q P B C).
  cbn [fst snd prompts screen drawn answered asked logged].
  split; [reflexivity |]. split; [reflexivity |].
  unfold asked_screen, suggest_questions, climate_questions, velocity_questions, dict_get.
  cbn [dict_lookup String.eqb Ascii.eqb Bool.eqb py_str].
  destruct (is_not_None vd).
  - rewrite <- !app_assoc. reflexivity.
  - rewrite app_nil_r, <- !app_assoc. reflexivity.
Qed.

(** C10. The assistant tab takes the stored velocity result itself as its
    velocity data, whatever its success flag.  When the stored result is a
    failure of [calculate_velocity], the prompt sent to the model holds
    the "Glacier Velocity Analysis" section with dates N/A and velocities
    "Not Calculated", and the two velocity questions are among the
    suggestions drawn: the tab draws the four suggestions.  It is the
    presence of a result that decides: from a session that holds no
    result, the same question is sent with the context without the
    velocity section and only the two climate questions are drawn; from a
    session that holds an empty dict, which is not None and not truthy,
    the context has no velocity section and the four questions are
    drawn. *)
Theorem failed_result_counts_as_velocity_data self lat lon date1 date2 buffer_km w0 r
    area gi di inp w q n sd c0 :
  fst (calculate_velocity rt self lat lon date1 date2 buffer_km w0) = Ok r ->
  truthy (dict_get r "success" PNone) = false ->
  velocity_result (session w) = Some r ->
  qa_system (session w) = Some q ->
  ask_pressed (ai_tab inp) = true ->
  strip_nonempty (question (ai_tab inp)) = true ->
  ee_server rt (size (fldas inp)) = Ok n ->
  match climate_img inp with
  | Some img => ee_server rt (reduceRegion img mean_min_max area 1000 1000000000) = Ok sd
  | None => sd = PNone
  end ->
  create_context rt gi [("variable", PStr (climate_var inp));
                        ("description", PStr (selected_climate_name inp));
                        ("image_count", n)] di sd PNone = Ok c0 ->
  exists head ctx,
    c0 = head ++ scientific_background
    /\ ctx = head
             ++ velocity_section "N/A" "N/A" "Not Calculated" "Not Calculated"
             ++ scientific_background
    /\ contains ctx "**Glacier Velocity Analysis (Source: Sentinel-2):**"
    /\ fst (tab_ai rt area gi di inp w) = Ok tt
    /\ prompts (snd (tab_ai rt area gi di inp w))
       = (prompts w ++ [full_prompt (question (ai_tab inp)) ctx])%list
    /\ In (st_button "How does the measured velocity relate to the climate conditions?")
          (screen (snd (tab_ai rt area gi di inp w)))
    /\ In (st_button "Is this velocity typical for a glacier in this region?")
          (screen (snd (tab_ai rt area gi di inp w)))
    /\ screen (snd (tab_ai rt area gi di inp w))
       = (screen w
          ++ asked_screen (question (ai_tab inp))
               (answer_of rt (full_prompt (question (ai_tab inp)) ctx))
               (climate_questions (selected_climate_name inp)
                                  (py_str rt (dict_get gi "name" (PStr "this glacier")))
                ++ velocity_questions))%list
    /\ (forall w1,
          velocity_result (session w1) = None ->
          qa_system (session w1) = Some q ->
          fst (tab_ai rt area gi di inp w1) = Ok tt
          /\ prompts (snd (tab_ai rt area gi di inp w1))
             = (prompts w1 ++ [full_prompt (question (ai_tab inp)) c0])%list
          /\ screen (snd (tab_ai rt area gi di inp w1))
             = (screen w1
                ++ asked_screen (question (ai_tab inp))
                     (answer_of rt (full_prompt (question (ai_tab inp)) c0))
                     (climate_questions (selected_climate_name inp)
                        (py_str rt (dict_get gi "name" (PStr "this glacier")))))%list)
    /\ (forall w1,
          velocity_result (session w1) = Some [] ->
          qa_system (session w1) = Some q ->
          fst (tab_ai rt area gi di inp w1) = Ok tt
          /\ prompts (snd (tab_ai rt area gi di inp w1))
             = (prompts w1 ++ [full_prompt (question (ai_tab inp)) c0])%list
          /\ screen (snd (tab_ai rt area gi di inp w1))
             = (screen w1
                ++ asked_screen (question (ai_tab inp))
                     (answer_of rt (full_prompt (question (ai_tab inp)) c0))
                     (climate_questions (selected_climate_name inp)
                        (py_str rt (dict_get gi "name" (PStr "this glacier")))
                      ++ velocity_questions))%list).
Proof.
  intros E S V Q P B Sn Ss C.
  destruct (calculate_velocity_outcome rt self lat lon date1 date2 buffer_km w0)
    as (r' & w' & E' & O).
  rewrite E' in E. simpl in E. injection E as ->.
  destruct (failure_shape rt self lat lon date1 date2 buffer_km r O S) as [msg ->].
  destruct (create_context_velocity gi _ di sd
              [("success", PBool false); ("error", PStr msg)] c0
              "Not Calculated" "Not Calculated" ltac:(discriminate) C eq_refl eq_refl)
    as (head & H0 & H1).
  change (py_str rt (dict_get [("success", PBool false); ("error", PStr msg)] "date1"
                              (PStr "N/A"))) with "N/A" in H1.
  change (py_str rt (dict_get [("success", PBool false); ("error", PStr msg)] "date2"
                              (PStr "N/A"))) with "N/A" in H1.
  exists head. eexists. split; [exact H0 |]. split; [reflexivity |].
  split.
  { apply contains_app_r, contains_app_l.
    exists (LF ++ ind), (LF ++ ind ++ "- Time Period: N/A to N/A" ++ LF
                         ++ ind ++ "- Average Velocity: Not Calculated m/day" ++ LF
                         ++ ind ++ "- Max Velocity: Not Calculated m/day" ++ LF ++ ind).
    reflexivity. }
  assert (V' : session_get_velocity_result (session w)
               = PDict [("success", PBool false); ("error", PStr msg)]).
  { unfold session_get_velocity_result. now rewrite V. }
  destruct (tab_ai_asked area gi di inp w q n sd _ _ V' Q P B Sn Ss H1) as (T1 & T2 & T3).
  cbn [is_not_None] in T3.
  split; [exact T1 |]. split; [exact T2 |].
  split.
  { rewrite T3. apply in_or_app. right. unfold asked_screen, velocity_questions.
    apply in_or_app. right. apply in_or_app. left. apply in_map, in_or_app. right.
    left. reflexivity. }
  split.
  { rewrite T3. apply in_or_app. right. unfold asked_screen, velocity_questions.
    apply in_or_app. right. apply in_or_app. left. apply in_map, in_or_app. right.
    right. left. reflexivity. }
  split; [exact T3 |].
  split.
  - intros w1 V1 Q1.
    assert (V1' : session_get_velocity_result (session w1) = PNone).
    { unfold session_get_velocity_result. now rewrite V1. }
    destruct (tab_ai_asked area gi di inp w1 q n sd _ _ V1' Q1 P B Sn Ss C)
      as (U1 & U2 & U3).
    cbn [is_not_None] in U3. rewrite app_nil_r in U3.
    split; [exact U1 |]. split; [exact U2 | exact U3].
  - intros w1 V1 Q1.
    assert (V1' : session_get_velocity_result (session w1) = PDict []).
    { unfold session_get_velocity_result. now rewrite V1. }
    assert (C' : create_context rt gi [("variable", PStr (climate_var inp));
                                       ("description", PStr (selected_climate_name inp));
                                       ("image_count", n)] di sd (PDict []) = Ok c0).
    { rewrite <- C. reflexivity. }
    destruct (tab_ai_asked area gi di inp w1 q n sd _ _ V1' Q1 P B Sn Ss C')
      as (U1 & U2 & U3).
    cbn [is_not_None] in U3.
    split; [exact U1 |]. split; [exact U2 | exact U3].
Qed.

End Context.

Section ContextRuns.
Import Py Datetime World Trace Spec Example.

(** The context reports a mean air temperature of 263.15 K in both units. *)
Lemma plain_context_temperature :
  create_context covered glacier_info climate_data date_info climate_stats PNone
  = Ok plain_context
  /\ contains plain_context "- Mean Temperature: 263.15 K (-10.00 °C)".
Proof.
  split; [vm_compute; reflexivity |].
  apply contains_b_spec. vm_compute. reflexivity.
Qed.

Lemma velocity_lines_by_type_witness :
  velocity_data <> []
  /\ create_context covered glacier_info climate_data date_info climate_stats PNone
     = Ok plain_context
  /\ renders (dict_get velocity_data "avg_velocity" PNone) "0.1235"
  /\ renders (dict_get velocity_data "max_velocity" PNone) "Not Calculated"
  /\ exists head,
       plain_context = head ++ scientific_background
       /\ create_context covered glacier_info climate_data date_info climate_stats
            (PDict velocity_data)
          = Ok (head
                ++ velocity_section
                     (py_str covered (dict_get velocity_data "date1" (PStr "N/A")))
                     (py_str covered (dict_get velocity_data "date2" (PStr "N/A")))
                     "0.1235" "Not Calculated"
                ++ scientific_background).
Proof.
  assert (N : velocity_data <> []) by discriminate.
  assert (C : create_context covered glacier_info climate_data date_info climate_stats PNone
              = Ok plain_context) by (vm_compute; reflexivity).
  assert (A : renders (dict_get velocity_data "avg_velocity" PNone) "0.1235")
    by exact (renders_float (b64_literal 12345 5)).
  assert (X : renders (dict_get velocity_data "max_velocity" PNone) "Not Calculated")
    by exact (renders_other PNone eq_refl).
  repeat (split; [assumption |]).
  destruct (velocity_lines_by_type covered glacier_info climate_data date_info climate_stats
              velocity_data plain_context "0.1235" "Not Calculated" N C A X)
    as (head & H0 & H1 & _).
  exists head. split; [exact H0 | exact H1].
Defined.

(** C7, as stated, fails. A NaN average and an infinite maximum are not
    finite numbers, yet the context reads "nan" and "inf" for them, and
    "Not Calculated" nowhere. *)
Lemma not_finite_is_not_not_calculated :
  finite_number (dict_get not_finite "avg_velocity" PNone) = false
  /\ finite_number (dict_get not_finite "max_velocity" PNone) = false
  /\ exists ctx,
       create_context covered glacier_info climate_data date_info climate_stats
         (PDict not_finite) = Ok ctx
       /\ contains ctx "- Average Velocity: nan m/day"
       /\ contains ctx "- Max Velocity: inf m/day"
       /\ ~ contains ctx "Not Calculated".
Proof.
  split; [reflexivity |]. split; [reflexivity |].
  eexists. split; [vm_compute; reflexivity |].
  split; [apply contains_b_spec; vm_compute; reflexivity |].
  split; [apply contains_b_spec; vm_compute; reflexivity |].
  intros H. apply contains_b_spec in H. vm_compute in H. discriminate H.
Qed.

Lemma failed_result_counts_as_velocity_data_witness :
  (forall e, ee_client bare e = None)
  /\ fst (calculate_velocity bare GlacierVelocityEngine pindari_lat pindari_lon
            (PStr "2023-06-01") (PStr "2023-08-31") (PInt 5) Demo.world0)
     = Ok failed_result
  /\ truthy (dict_get failed_result "success" PNone) = false
  /\ velocity_result (session after_failure) = Some failed_result
  /\ qa_system (session after_failure) = Some {| model := "gemini-1.5-flash" |}
  /\ ask_pressed (ai_tab wide) = true
  /\ strip_nonempty (question (ai_tab wide)) = true
  /\ ee_server bare (size (fldas wide)) = Ok (PInt 1)
  /\ climate_img wide = None
  /\ create_context bare glacier_info
       [("variable", PStr (climate_var wide));
        ("description", PStr (selected_climate_name wide));
        ("image_count", PInt 1)] date_info PNone PNone
     = Ok assistant_context
  /\ velocity_result (session no_result) = None
  /\ qa_system (session no_result) = Some {| model := "gemini-1.5-flash" |}
  /\ velocity_result (session empty_stored) = Some []
  /\ qa_system (session empty_stored) = Some {| model := "gemini-1.5-flash" |}
  /\ exists head ctx,
       assistant_context = head ++ scientific_background
       /\ ctx = head
                ++ velocity_section "N/A" "N/A" "Not Calculated" "Not Calculated"
                ++ scientific_background
       /\ contains ctx "**Glacier Velocity Analysis (Source: Sentinel-2):**"
       /\ fst (tab_ai bare summer_aoi glacier_info date_info wide after_failure) = Ok tt
       /\ prompts (snd (tab_ai bare summer_aoi glacier_info date_info wide after_failure))
          = (prompts after_failure ++ [full_prompt (question (ai_tab wide)) ctx])%list
       /\ In (st_button "How does the measured velocity relate to the climate conditions?")
             (screen (snd (tab_ai bare summer_aoi glacier_info date_info wide
                             after_failure)))
       /\ In (st_button "Is this velocity typical for a glacier in this region?")
             (screen (snd (tab_ai bare summer_aoi glacier_info date_info wide
                             after_failure)))
       /\ screen (snd (tab_ai bare summer_aoi glacier_info date_info wide after_failure))
          = (screen after_failure
             ++ asked_screen (question (ai_tab wide))
                  (answer_of bare (full_prompt (question (ai_tab wide)) ctx))
                  (climate_questions (selected_climate_name wide)
                     (py_str bare (dict_get glacier_info "name" (PStr "this glacier")))
                   ++ velocity_questions))%list
       /\ (fst (tab_ai bare summer_aoi glacier_info date_info wide no_result) = Ok tt
           /\ prompts (snd (tab_ai bare summer_aoi glacier_info date_info wide no_result))
              = (prompts no_result
                 ++ [full_prompt (question (ai_tab wide)) assistant_context])%list
           /\ screen (snd (tab_ai bare summer_aoi glacier_info date_info wide no_result))
              = (screen no_result
                 ++ asked_screen (question (ai_tab wide))
                      (answer_of bare
                         (full_prompt (question (ai_tab wide)) assistant_context))
                      (climate_questions (selected_climate_name wide)
                         (py_str bare
                            (dict_get glacier_info "name" (PStr "this glacier")))))%list)
       /\ (fst (tab_ai bare summer_aoi glacier_info date_info wide empty_stored) = Ok tt
           /\ prompts (snd (tab_ai bare summer_aoi glacier_info date_info wide
                              empty_stored))
              = (prompts empty_stored
                 ++ [full_prompt (question (ai_tab wide)) assistant_context])%list
           /\ screen (snd (tab_ai bare summer_aoi glacier_info date_info wide
                             empty_stored))
              = (screen empty_stored
                 ++ asked_screen (question (ai_tab wide))
                      (answer_of bare
                         (full_prompt (question (ai_tab wide)) assistant_context))
                      (climate_questions (selected_climate_name wide)
                         (py_str bare
                            (dict_get glacier_info "name" (PStr "this glacier")))
                       ++ velocity_questions))%list).
Proof.
  assert (A : forall e, ee_client bare e = None) by reflexivity.
  assert (E : fst (calculate_velocity bare GlacierVelocityEngine pindari_lat pindari_lon
                     (PStr "2023-06-01") (PStr "2023-08-31") (PInt 5) Demo.world0)
              = Ok failed_result) by (vm_compute; reflexivity).
  assert (C : create_context bare glacier_info
                [("variable", PStr (climate_var wide));
                 ("description", PStr (selected_climate_name wide));
                 ("image_count", PInt 1)] date_info PNone PNone
              = Ok assistant_context) by (vm_compute; reflexivity).
  split; [exact A |]. split; [exact E |].
  do 8 (split; [first [exact C | reflexivity] |]).
  do 4 (split; [reflexivity |]).
  destruct (failed_result_counts_as_velocity_data bare A GlacierVelocityEngine
              pindari_lat pindari_lon (PStr "2023-06-01") (PStr "2023-08-31") (PInt 5)
              Demo.world0 failed_result summer_aoi glacier_info date_info wide after_failure
              {| model := "gemini-1.5-flash" |} (PInt 1) PNone assistant_context
              E eq_refl eq_refl eq_refl eq_refl eq_refl eq_refl eq_refl C)
    as (head & ctx & H1 & H2 & H3 & H4 & H5 & H6 & H7 & H8 & H9 & H10).
  exists head, ctx.
  do 8 (split; [assumption |]).
  split; [exact (H9 no_result eq_refl eq_refl) | exact (H10 empty_stored eq_refl eq_refl)].
Defined.

(** The three runs, evaluated: the suggestions drawn from a session holding
    a failed result, no result, and an empty dict. *)
Lemma suggestions_by_stored_result :
  List.filter is_button (screen (snd (tab_ai bare summer_aoi glacier_info date_info wide
                                   after_failure)))
  = map st_button (climate_questions "Air Temperature" "Pindari Glacier"
                   ++ velocity_questions)
  /\ List.filter is_button (screen (snd (tab_ai bare summer_aoi glacier_info date_info wide
                                      no_result)))
     = map st_button (climate_questions "Air Temperature" "Pindari Glacier")
  /\ List.filter is_button (screen (snd (tab_ai bare summer_aoi glacier_info date_info wide
                                      empty_stored)))
     = map st_button (climate_questions "Air Temperature" "Pindari Glacier"
                      ++ velocity_questions).
Proof. vm_compute. repeat split. Qed.

End ContextRuns.

(* ================================================================== *)
(** * The assistant tab: what is and is not sent to the text model *)
(* ================================================================== *)

Section AssistantTab.
Import Py Datetime World Trace Spec Example Frame Cases.

Variable rt : runtime.

(** The end of the assistant tab, from the suggestions on, only draws. *)
Lemma assistant_tail_draws gi cd vd :
  within screen_grows
    (draw (st_write "**Suggested Questions:**") ;;;
     draw_suggestions
       (suggest_questions rt (dict_get gi "name" (PStr "this glacier"))
                          (dict_get cd "description" (PStr "climate data"))
                          (is_not_None vd)) ;;;
     s <- get_session ;;
     match qa_latest_answer s with
     | None => ret tt
     | Some a =>
         q <- match qa_latest_question s with
              | Some q => ret q
              | None => raise (Exn "AttributeError"
                  "st.session_state has no attribute 'qa_latest_question'")
              end ;;
         draw (st_markdown "---") ;;;
         draw (st_info ("**Your Question:** " ++ q)) ;;;
         draw (st_markdown a) ;;;
         draw (st_download_button "Download Answer"
                 ("Question: " ++ q ++ LF ++ LF ++ "Answer:" ++ LF ++ a)
                 "glacier_analysis.txt")
     end).
Proof.
  apply (within_bind _ screen_grows_trans); [apply within_draw | intros _].
  apply (within_bind _ screen_grows_trans).
  - intros w. rewrite draw_suggestions_run. eexists. reflexivity.
  - intros _. screen_only.
Qed.

(** X1. A question that is empty or white space only (any of the characters
    [str.strip()] removes, of one byte or more: spaces, line ends, the
    no-break and ideographic spaces, ...) is not sent anywhere: the tab
    draws the warning, the suggestions and what was stored before; no
    prompt reaches the text model, no context is built, and the session and
    the backend log are those of before. *)
Theorem blank_question_is_not_sent gi cd di sd vd inp w q :
  qa_system (session w) = Some q ->
  ask_pressed inp = true ->
  strip_nonempty (question inp) = false ->
  exists r later,
    render_ai_assistant_tab rt gi cd di sd vd inp w
    = (r, drawn w ([st_subheader "Ask the AI Glacier Expert";
                    st_warning "Please enter a question."] ++ later))
    /\ prompts (snd (render_ai_assistant_tab rt gi cd di sd vd inp w)) = prompts w
    /\ session (snd (render_ai_assistant_tab rt gi cd di sd vd inp w)) = session w
    /\ backend_log (snd (render_ai_assistant_tab rt gi cd di sd vd inp w)) = backend_log w.
Proof.
  intros Q P S.
  assert (E : exists r later,
    render_ai_assistant_tab rt gi cd di sd vd inp w
    = (r, drawn w ([st_subheader "Ask the AI Glacier Expert";
                    st_warning "Please enter a question."] ++ later))).
  { unfold render_ai_assistant_tab.
    rewrite bind_draw, bind_get_session. cbn [session drawn]. rewrite Q, bind_ret, P, S.
    rewrite bind_draw, drawn_drawn. cbv zeta.
    pose proof (assistant_tail_draws gi cd vd
                  (drawn w ([st_subheader "Ask the AI Glacier Expert"] ++
                            [st_warning "Please enter a question."]))) as [later L].
    match goal with
    | |- exists r l, ?m ?w0 = _ => destruct (m w0) as [r w1]
    end.
    simpl in L. subst w1. rewrite drawn_drawn. exists r, later. reflexivity. }
  destruct E as (r & later & E). exists r, later. rewrite E. repeat split.
Qed.

(** X2. When the text model raises, the question is still answered: the
    prompt was sent once, and the text "Error generating response: " with
    the exception's message is stored as the latest answer and drawn like
    any answer; the tab itself does not raise. *)
Theorem model_fault_is_shown_as_answer gi cd di sd vd inp w q ctx e :
  qa_system (session w) = Some q ->
  ask_pressed inp = true ->
  strip_nonempty (question inp) = true ->
  create_context rt gi cd di sd vd = Ok ctx ->
  generate_content rt (full_prompt (question inp) ctx) = Raise e ->
  fst (render_ai_assistant_tab rt gi cd di sd vd inp w) = Ok tt
  /\ prompts (snd (render_ai_assistant_tab rt gi cd di sd vd inp w))
     = (prompts w ++ [full_prompt (question inp) ctx])%list
  /\ qa_latest_question (session (snd (render_ai_assistant_tab rt gi cd di sd vd inp w)))
     = Some (question inp)
  /\ qa_latest_answer (session (snd (render_ai_assistant_tab rt gi cd di sd vd inp w)))
     = Some ("Error generating response: " ++ exn_msg e)
  /\ In (st_markdown ("Error generating response: " ++ exn_msg e))
        (screen (snd (render_ai_assistant_tab rt gi cd di sd vd inp w))).
Proof.
  intros Q P S C G.
  rewrite (render_ai_assistant_tab_run rt gi cd di sd vd inp w q ctx Q P S C).
  cbv zeta. unfold answer_of. rewrite G.
  cbn [fst snd prompts session screen drawn answered asked
       qa_latest_question qa_latest_answer].
  repeat split.
  repeat (first [left; reflexivity | right | apply in_or_app; right]).
Qed.

End AssistantTab.

Section AssistantTabRuns.
Import Py Datetime World Trace Spec Example Frame Cases.

Lemma blank_question_is_not_sent_witness :
  qa_system (session after_failure) = Some {| model := "gemini-1.5-flash" |}
  /\ ask_pressed blank = true
  /\ strip_nonempty (question blank) = false
  /\ exists r later,
       render_ai_assistant_tab covered glacier_info climate_data date_info climate_stats
         PNone blank after_failure
       = (r, drawn after_failure ([st_subheader "Ask the AI Glacier Expert";
                                   st_warning "Please enter a question."] ++ later))
       /\ prompts (snd (render_ai_assistant_tab covered glacier_info climate_data date_info
                          climate_stats PNone blank after_failure))
          = prompts after_failure
       /\ session (snd (render_ai_assistant_tab covered glacier_info climate_data date_info
                          climate_stats PNone blank after_failure))
          = session after_failure
       /\ backend_log (snd (render_ai_assistant_tab covered glacier_info climate_data
                              date_info climate_stats PNone blank after_failure))
          = backend_log after_failure.
Proof.
  repeat (split; [reflexivity |]).
  apply (blank_question_is_not_sent covered glacier_info climate_data date_info climate_stats PNone
           blank after_failure {| model := "gemini-1.5-flash" |});
    reflexivity.
Defined.

Lemma model_fault_is_shown_as_answer_witness :
  qa_system (session after_failure) = Some {| model := "gemini-1.5-flash" |}
  /\ ask_pressed asking = true
  /\ strip_nonempty (question asking) = true
  /\ create_context offline glacier_info climate_data date_info climate_stats PNone
     = Ok plain_context
  /\ generate_content offline (full_prompt (question asking) plain_context)
     = Raise (Exn "ResourceExhausted" "429 Quota exceeded")
  /\ fst (render_ai_assistant_tab offline glacier_info climate_data date_info climate_stats
            PNone asking after_failure) = Ok tt
  /\ qa_latest_answer
       (session (snd (render_ai_assistant_tab offline glacier_info climate_data date_info
                        climate_stats PNone asking after_failure)))
     = Some "Error generating response: 429 Quota exceeded".
Proof.
  assert (C : create_context offline glacier_info climate_data date_info climate_stats PNone
              = Ok plain_context) by (vm_compute; reflexivity).
  do 5 (split; [first [exact C | reflexivity] |]).
  destruct (model_fault_is_shown_as_answer offline glacier_info climate_data date_info
              climate_stats PNone asking after_failure {| model := "gemini-1.5-flash" |}
              plain_context (Exn "ResourceExhausted" "429 Quota exceeded")
              eq_refl eq_refl eq_refl C eq_refl) as (H1 & _ & _ & H2 & _).
  split; [exact H1 | exact H2].
Defined.

End AssistantTabRuns.

Section AssistantFailures.
Import Py Datetime World Trace Spec Example Frame Cases.

Variable rt : runtime.

(** X3. Without an API key in the environment (unset or empty), the first
    run of the assistant tab raises [ValueError] right after its heading:
    nothing else is drawn, no assistant is stored, no prompt is sent. With
    an assistant already in the session the key is not looked at. *)
Theorem assistant_needs_api_key gi cd di sd vd inp w :
  qa_system (session w) = None ->
  GOOGLE_API_KEY rt = None \/ GOOGLE_API_KEY rt = Some EmptyString ->
  render_ai_assistant_tab rt gi cd di sd vd inp w
  = (Raise (Exn "ValueError" "GOOGLE_API_KEY not found in .env file. Please set it."),
     drawn w [st_subheader "Ask the AI Glacier Expert"]).
Proof.
  intros Q K. unfold render_ai_assistant_tab.
  rewrite bind_draw, bind_get_session. cbn [session drawn]. rewrite Q.
  unfold GlacierQA. destruct K as [-> | ->]; reflexivity.
Qed.

(** X4. The coordinates have no usable default: when the location record
    lacks ['lat'] or ['lon'], the default ["N/A"] meets the format [.4f]
    and [create_context] raises instead of building a context. With
    ['lat'] missing it is the [ValueError] of formatting a [str]. *)
Theorem context_needs_coordinates gi cd di sd vd :
  dict_lookup gi "lat" = None \/ dict_lookup gi "lon" = None ->
  exists e,
    create_context rt gi cd di sd vd = Raise e
    /\ (dict_lookup gi "lat" = None ->
        e = Exn "ValueError" "Unknown format code 'f' for object of type 'str'").
Proof.
  intros H. unfold create_context, dict_get.
  destruct (dict_lookup gi "lat") as [lat |] eqn:La.
  - destruct H as [H | H]; [discriminate H |]. rewrite H.
    destruct (py_format_f 4 lat) as [s | e].
    + eexists. split; [reflexivity | discriminate].
    + exists e. split; [reflexivity | discriminate].
  - eexists. split; reflexivity.
Qed.

Lemma all_none_get (stats : dict) k :
  Forall (fun kv => snd kv = PNone) stats -> dict_get stats k PNone = PNone.
Proof.
  intros F. unfold dict_get.
  induction F as [| [k' v] l H F IH]; [reflexivity |].
  simpl in H. subst v. simpl. destruct (String.eqb k' k); [reflexivity | exact IH].
Qed.

(** The statistics of a region without data: every value is [None]. Then
    no mean is reported and formatting the first value raises. *)
Lemma stats_lines_nulls cd stats :
  stats <> [] ->
  Forall (fun kv => snd kv = PNone) stats ->
  stats_lines rt cd (PDict stats)
  = Raise (Exn "TypeError" "unsupported format string passed to NoneType.__format__").
Proof.
  intros N F. unfold stats_lines.
  destruct stats as [| [k0 v0] rest]; [contradiction |].
  cbv beta iota zeta delta [truthy as_dict and_then].
  rewrite (all_none_get _ _ F). cbn [truthy andb].
  cbv beta iota zeta delta [and_then].
  inversion F as [| ? ? H0 ?]; subst. simpl in H0. subst v0.
  unfold dict_get. cbn [dict_lookup]. rewrite String.eqb_refl. reflexivity.
Qed.

(** X5. When the climate statistics hold only [None] (a region without
    data), asking a question raises [TypeError] while the context is built:
    the spinner is the last thing drawn, no prompt is sent and no answer is
    stored. *)
Theorem null_statistics_break_the_assistant gi cd di stats vd inp w q lat lon :
  qa_system (session w) = Some q ->
  ask_pressed inp = true ->
  strip_nonempty (question inp) = true ->
  py_format_f 4 (dict_get gi "lat" (PStr "N/A")) = Ok lat ->
  py_format_f 4 (dict_get gi "lon" (PStr "N/A")) = Ok lon ->
  stats <> [] ->
  Forall (fun kv => snd kv = PNone) stats ->
  create_context rt gi cd di (PDict stats) vd
  = Raise (Exn "TypeError" "unsupported format string passed to NoneType.__format__")
  /\ render_ai_assistant_tab rt gi cd di (PDict stats) vd inp w
     = (Raise (Exn "TypeError" "unsupported format string passed to NoneType.__format__"),
        drawn w [st_subheader "Ask the AI Glacier Expert";
                 st_spinner "AI is analyzing your data..."]).
Proof.
  intros Q P S La Lo N F.
  assert (C : create_context rt gi cd di (PDict stats) vd
              = Raise (Exn "TypeError"
                         "unsupported format string passed to NoneType.__format__")).
  { unfold create_context. rewrite La, Lo.
    cbv beta iota zeta delta [and_then].
    rewrite (stats_lines_nulls cd stats N F). reflexivity. }
  split; [exact C |].
  unfold render_ai_assistant_tab.
  rewrite bind_draw, bind_get_session. cbn [session drawn]. rewrite Q, bind_ret, P, S.
  rewrite !bind_assoc, bind_draw, drawn_drawn.
  unfold bind at 1. unfold bind at 1. unfold lift at 1. rewrite C. reflexivity.
Qed.

End AssistantFailures.

Section AssistantFailuresRuns.
Import Py Datetime World Trace Spec Example Frame Cases.

Lemma assistant_needs_api_key_witness :
  qa_system (session Demo.world0) = None
  /\ (GOOGLE_API_KEY offline = None \/ GOOGLE_API_KEY offline = Some EmptyString)
  /\ render_ai_assistant_tab offline glacier_info climate_data date_info climate_stats
       PNone asking Demo.world0
     = (Raise (Exn "ValueError" "GOOGLE_API_KEY not found in .env file. Please set it."),
        drawn Demo.world0 [st_subheader "Ask the AI Glacier Expert"]).
Proof.
  split; [reflexivity |]. split; [now left |].
  apply (assistant_needs_api_key offline glacier_info climate_data date_info climate_stats
           PNone asking Demo.world0); [reflexivity | now left].
Defined.

Lemma context_needs_coordinates_witness :
  (dict_lookup nameless "lat" = None \/ dict_lookup nameless "lon" = None)
  /\ exists e,
       create_context covered nameless climate_data date_info climate_stats PNone = Raise e
       /\ (dict_lookup nameless "lat" = None ->
           e = Exn "ValueError" "Unknown format code 'f' for object of type 'str'").
Proof.
  split; [now left |].
  apply (context_needs_coordinates covered nameless climate_data date_info climate_stats
           PNone).
  now left.
Defined.

Lemma null_statistics_break_the_assistant_witness :
  qa_system (session after_failure) = Some {| model := "gemini-1.5-flash" |}
  /\ ask_pressed asking = true
  /\ strip_nonempty (question asking) = true
  /\ py_format_f 4 (dict_get glacier_info "lat" (PStr "N/A")) = Ok "30.3200"
  /\ py_format_f 4 (dict_get glacier_info "lon" (PStr "N/A")) = Ok "79.9600"
  /\ nulls <> []
  /\ Forall (fun kv => snd kv = PNone) nulls
  /\ create_context covered glacier_info climate_data date_info (PDict nulls) PNone
     = Raise (Exn "TypeError" "unsupported format string passed to NoneType.__format__")
  /\ render_ai_assistant_tab covered glacier_info climate_data date_info (PDict nulls)
       PNone asking after_failure
     = (Raise (Exn "TypeError" "unsupported format string passed to NoneType.__format__"),
        drawn after_failure [st_subheader "Ask the AI Glacier Expert";
                             st_spinner "AI is analyzing your data..."]).
Proof.
  assert (La : py_format_f 4 (dict_get glacier_info "lat" (PStr "N/A")) = Ok "30.3200")
    by (vm_compute; reflexivity).
  assert (Lo : py_format_f 4 (dict_get glacier_info "lon" (PStr "N/A")) = Ok "79.9600")
    by (vm_compute; reflexivity).
  assert (N : nulls <> []) by discriminate.
  assert (F : Forall (fun kv => snd kv = PNone) nulls)
    by (repeat constructor).
  do 3 (split; [reflexivity |]).
  split; [exact La |]. split; [exact Lo |]. split; [exact N |]. split; [exact F |].
  apply (null_statistics_break_the_assistant covered glacier_info climate_data date_info
           nulls PNone asking after_failure {| model := "gemini-1.5-flash" |}
           "30.3200" "79.9600"); first [assumption | reflexivity].
Defined.

End AssistantFailuresRuns.

(* ================================================================== *)
(** * Dates as strings *)
(* ================================================================== *)

Section DateStrings.
Import Py Datetime World Trace Spec Example Frame Cases.

Lemma zero_pad_4_reads_back k :
  0 <= k < 10000 ->
  exists a b c d x y z t,
    zero_pad 4 k = String a (String b (String c (String d EmptyString)))
    /\ digit a = Some x /\ digit b = Some y /\ digit c = Some z /\ digit d = Some t
    /\ 1000 * x + 100 * y + 10 * z + t = k.
Proof.
  intros H.
  assert (A : forallb year_reads_back (seq 0 (Z.to_nat 10000)) = true)
    by (vm_compute; reflexivity).
  rewrite forallb_forall in A.
  assert (I : In (Z.to_nat k) (seq 0 (Z.to_nat 10000))) by (apply in_seq; lia).
  specialize (A _ I). unfold year_reads_back in A. rewrite Z2Nat.id in A by lia.
  destruct (zero_pad 4 k) as [| a [| b [| c [| d [| ? ?]]]]]; try discriminate A.
  destruct (digit a) as [x |] eqn:Da; [| discriminate A].
  destruct (digit b) as [y |] eqn:Db; [| discriminate A].
  destruct (digit c) as [z |] eqn:Dc; [| discriminate A].
  destruct (digit d) as [t |] eqn:Dd; [| discriminate A].
  apply Z.eqb_eq in A. exists a, b, c, d, x, y, z, t. repeat split; assumption.
Qed.

Lemma month_day_reads_back m d :
  1 <= m <= 12 -> 1 <= d <= 31 ->
  exists r,
    parse_month (zero_pad 2 m ++ "-" ++ zero_pad 2 d) = Some (m, r)
    /\ parse_day r = Some (d, EmptyString).
Proof.
  intros Hm Hd.
  assert (A : forallb (fun m => forallb (month_day_read_back m) (seq 1 31)) (seq 1 12) = true)
    by (vm_compute; reflexivity).
  rewrite forallb_forall in A.
  assert (Im : In (Z.to_nat m) (seq 1 12)) by (apply in_seq; lia).
  specialize (A _ Im). rewrite forallb_forall in A.
  assert (Id : In (Z.to_nat d) (seq 1 31)) by (apply in_seq; lia).
  specialize (A _ Id). unfold month_day_read_back in A.
  rewrite !Z2Nat.id in A by lia.
  destruct (parse_month _) as [[m' r] |]; [| discriminate A].
  apply andb_true_iff in A. destruct A as [A1 A2].
  apply Z.eqb_eq in A1. subst m'. exists r. split; [reflexivity |].
  destruct (parse_day r) as [[d' [| ? ?]] |]; try discriminate A2.
  apply Z.eqb_eq in A2. now subst d'.
Qed.

Lemma days_in_month_le_31 y m : days_in_month y m <= 31.
Proof.
  unfold days_in_month. destruct ((m =? 2) && is_leap y); [lia |].
  unfold DAYS_IN_MONTH.
  repeat match goal with
         | |- context [match ?x with _ => _ end] => destruct x
         end; lia.
Qed.

(** Writing a calendar date and reading it back. *)
Lemma strptime_strftime d :
  valid_date d -> MINYEAR <= year d <= MAXYEAR ->
  strptime (PStr (strftime_Ymd d)) = Ok d.
Proof.
  intros [Vm Vd] Vy. unfold MINYEAR, MAXYEAR in Vy.
  pose proof (days_in_month_le_31 (year d) (month d)) as L.
  destruct (zero_pad_4_reads_back (year d) ltac:(lia))
    as (a & b & c & e & x & y & z & t & Y & Da & Db & Dc & De & Sum).
  destruct (month_day_reads_back (month d) (day d) Vm ltac:(lia)) as (r & Pm & Pd).
  unfold strptime, strftime_Ymd. rewrite Y.
  cbn [append]. unfold parse_Ymd.
  rewrite Da, Db, Dc, De.
  change (is_char "-" "-") with true. cbv beta iota.
  cbn [append] in Pm. rewrite Pm, Pd, Sum.
  unfold make_date, MINYEAR, MAXYEAR.
  replace ((1 <=? year d) && (year d <=? 9999)) with true
    by (symmetry; apply andb_true_intro; split; apply Z.leb_le; lia).
  replace ((1 <=? month d) && (month d <=? 12)) with true
    by (symmetry; apply andb_true_intro; split; apply Z.leb_le; lia).
  replace ((1 <=? day d) && (day d <=? days_in_month (year d) (month d))) with true
    by (symmetry; apply andb_true_intro; split; apply Z.leb_le; lia).
  cbn [negb]. destruct d; reflexivity.
Qed.

Lemma make_date_valid y m d dt :
  make_date y m d = Ok dt ->
  dt = Date y m d /\ valid_date dt /\ MINYEAR <= year dt <= MAXYEAR.
Proof.
  unfold make_date.
  destruct ((MINYEAR <=? y) && (y <=? MAXYEAR)) eqn:Y; [| discriminate].
  destruct ((1 <=? m) && (m <=? 12)) eqn:M; [| discriminate].
  destruct ((1 <=? d) && (d <=? days_in_month y m)) eqn:D; [| discriminate].
  cbn [negb]. intros E. injection E as <-.
  apply andb_true_iff in Y, M, D.
  destruct Y as [Y1 Y2], M as [M1 M2], D as [D1 D2].
  apply Z.leb_le in Y1, Y2, M1, M2, D1, D2.
  unfold valid_date. cbn [year month day]. repeat split; assumption.
Qed.

Lemma strptime_valid v dt :
  strptime v = Ok dt -> valid_date dt /\ MINYEAR <= year dt <= MAXYEAR.
Proof.
  destruct v; try discriminate. unfold strptime, parse_Ymd.
  repeat match goal with
         | |- match ?x with _ => _ end = _ -> _ =>
             destruct x; try discriminate
         end.
  intros E. apply make_date_valid in E. tauto.
Qed.

(** X6. For a year of four digits, writing a date with
    [strftime("%Y-%m-%d")] and reading the string back with [strptime]
    gives the same date exactly when the date exists in the calendar. The
    strings the velocity tab hands to the estimator therefore always
    parse, to the dates chosen. *)
Theorem date_string_round_trip d :
  1000 <= year d <= MAXYEAR ->
  (strptime (PStr (strftime_Ymd d)) = Ok d <-> valid_date d).
Proof.
  intros Y. split.
  - intros H. exact (proj1 (strptime_valid _ _ H)).
  - intros V. apply strptime_strftime; [exact V |]. unfold MINYEAR. lia.
Qed.

(** The leap day of 2024 reads back; the thirtieth of February 2023 is
    written but not read. *)
Lemma date_string_round_trip_witness :
  1000 <= year (Date 2024 2 29) <= MAXYEAR
  /\ strftime_Ymd (Date 2024 2 29) = "2024-02-29"
  /\ valid_date (Date 2024 2 29)
  /\ strptime (PStr (strftime_Ymd (Date 2024 2 29))) = Ok (Date 2024 2 29)
  /\ strftime_Ymd (Date 2023 2 30) = "2023-02-30"
  /\ strptime (PStr (strftime_Ymd (Date 2023 2 30)))
     = Raise (Exn "ValueError" "day is out of range for month")
  /\ ~ valid_date (Date 2023 2 30).
Proof.
  assert (V : valid_date (Date 2024 2 29))
    by (unfold valid_date; vm_compute; intuition discriminate).
  assert (Y : 1000 <= year (Date 2024 2 29) <= MAXYEAR)
    by (vm_compute; intuition discriminate).
  assert (Y' : 1000 <= year (Date 2023 2 30) <= MAXYEAR)
    by (vm_compute; intuition discriminate).
  split; [exact Y |]. split; [vm_compute; reflexivity |]. split; [exact V |].
  split; [exact (proj2 (date_string_round_trip (Date 2024 2 29) Y) V) |].
  split; [vm_compute; reflexivity |]. split; [vm_compute; reflexivity |].
  intros N.
  pose proof (proj2 (date_string_round_trip (Date 2023 2 30) Y') N) as R.
  vm_compute in R. discriminate R.
Defined.

End DateStrings.

(* ================================================================== *)
(** * The estimator as a function of its arguments *)
(* ================================================================== *)

Section Values.
Import Py Datetime World Trace Spec Example Frame Cases.

Lemma same_value_ret {A} (a : A) : same_value (ret a).
Proof. intros w1 w2. reflexivity. Qed.

Lemma same_value_lift {A} (r : result A) : same_value (lift r).
Proof. intros w1 w2. reflexivity. Qed.

Lemma same_value_raise {A} (x : exn) : same_value (@raise A x).
Proof. intros w1 w2. reflexivity. Qed.

Lemma same_value_bind {A B} (m : M A) (k : A -> M B) :
  same_value m -> (forall a, same_value (k a)) -> same_value (bind m k).
Proof.
  intros Hm Hk w1 w2. unfold bind. specialize (Hm w1 w2).
  destruct (m w1) as [[a | x] w1'], (m w2) as [[b | y] w2']; simpl in Hm;
    try discriminate Hm.
  - injection Hm as ->. apply Hk.
  - injection Hm as ->. reflexivity.
Qed.

Lemma same_value_try_except {A} (m : M A) (h : exn -> M A) :
  same_value m -> (forall x, same_value (h x)) -> same_value (try_except m h).
Proof.
  intros Hm Hh w1 w2. unfold try_except. specialize (Hm w1 w2).
  destruct (m w1) as [[a | x] w1'], (m w2) as [[b | y] w2']; simpl in Hm;
    try discriminate Hm.
  - exact Hm.
  - injection Hm as ->. apply Hh.
Qed.

Lemma same_value_call rt e : same_value (call rt e).
Proof.
  intros w1 w2. unfold call, bind, log_event, raise, ret; simpl.
  destruct (ee_client rt e); reflexivity.
Qed.

Lemma same_value_getInfo rt e : same_value (getInfo rt e).
Proof. intros w1 w2. reflexivity. Qed.

End Values.

Ltac value_only :=
  repeat first
    [ apply same_value_call
    | apply same_value_getInfo
    | apply same_value_ret
    | apply same_value_lift
    | apply same_value_raise
    | apply same_value_bind; [| intros ?]
    | apply same_value_try_except; [| intros ?]
    | match goal with
      | |- Frame.same_value (if ?b then _ else _) => destruct b
      | |- Frame.same_value (match ?x with _ => _ end) => destruct x
      end ].

Section EstimatorFrame.
Import Py Datetime World Trace Spec Example Frame Cases.

Variable rt : runtime.

Lemma same_value_calculate_velocity self lat lon date1 date2 buffer_km :
  same_value (calculate_velocity rt self lat lon date1 date2 buffer_km).
Proof.
  unfold calculate_velocity, calculate_velocity_try, window, size_info,
    _get_sentinel2_collection, mask_s2_clouds.
  value_only.
Qed.

(** X7. The estimator is a function of its arguments and of the backend:
    the dict it returns is the same whatever the session, the screen and
    the logs are when it is called, and the only thing it changes is the
    log of backend interactions, which it extends. *)
Theorem estimator_depends_on_arguments_only self lat lon date1 date2 buffer_km w1 w2 :
  fst (calculate_velocity rt self lat lon date1 date2 buffer_km w1)
  = fst (calculate_velocity rt self lat lon date1 date2 buffer_km w2)
  /\ session (snd (calculate_velocity rt self lat lon date1 date2 buffer_km w1)) = session w1
  /\ screen (snd (calculate_velocity rt self lat lon date1 date2 buffer_km w1)) = screen w1
  /\ prompts (snd (calculate_velocity rt self lat lon date1 date2 buffer_km w1)) = prompts w1
  /\ exists evs,
       backend_log (snd (calculate_velocity rt self lat lon date1 date2 buffer_km w1))
       = (backend_log w1 ++ evs)%list.
Proof.
  split; [apply same_value_calculate_velocity |].
  destruct (within_calculate_velocity rt self lat lon date1 date2 buffer_km w1) as [evs E].
  rewrite E. repeat split. exists evs. reflexivity.
Qed.

(** The accepted branch of the velocity action, whatever the backend does:
    the estimator's result is stored and the script is rerun. *)
Lemma velocity_action_stores location selected_glacier inp w e lat lon :
  calculate_pressed inp = true ->
  date_geb (start_date inp) (end_date inp) = false ->
  velocity_engine (session w) = Some e ->
  dict_lookup location "lat" = Some lat ->
  dict_lookup location "lon" = Some lon ->
  exists d evs,
    fst (calculate_velocity rt e lat lon (PStr (strftime_Ymd (start_date inp)))
           (PStr (strftime_Ymd (end_date inp))) (PInt 5) w) = Ok d
    /\ velocity_outcome rt e lat lon (PStr (strftime_Ymd (start_date inp)))
                        (PStr (strftime_Ymd (end_date inp))) (PInt 5) d
    /\ render_manual_velocity_interface rt location selected_glacier inp w
       = (Ok Rerun,
          stored (logged (drawn w [st_subheader "Glacier Velocity Analysis";
                                   st_info "Measure glacier speed between two dates using Sentinel-2 satellite imagery.";
                                   st_spinner "Calculating velocity... This can take up to a minute."])
                         evs) d).
Proof.
  intros P G E La Lo.
  unfold render_manual_velocity_interface.
  rewrite bind_draw, bind_draw, P, G, bind_assoc, bind_get_session.
  cbn [session drawn]. rewrite E, bind_assoc, bind_ret, bind_assoc, bind_draw.
  unfold dict_index. rewrite La, Lo.
  rewrite bind_assoc, (bind_lift_ok _ lat), bind_assoc, (bind_lift_ok _ lon) by reflexivity.
  repeat rewrite drawn_drawn. cbn [List.app].
  set (w0 := drawn w _).
  destruct (calculate_velocity_outcome rt e lat lon
              (PStr (strftime_Ymd (start_date inp))) (PStr (strftime_Ymd (end_date inp)))
              (PInt 5) w0) as (d & w' & R & O).
  pose proof (within_calculate_velocity rt e lat lon
                (PStr (strftime_Ymd (start_date inp))) (PStr (strftime_Ymd (end_date inp)))
                (PInt 5) w0) as [evs L].
  rewrite R in L. simpl in L. subst w'.
  exists d, evs. split; [| split; [exact O |]].
  - rewrite (same_value_calculate_velocity e lat lon _ _ _ w w0), R. reflexivity.
  - rewrite bind_assoc, (bind_run _ _ _ _ _ R), bind_assoc.
    rewrite (bind_run _ _ _ _ _ (set_velocity_result_run d _)).
    reflexivity.
Qed.

(** X8. An accepted velocity action replaces the stored result by the
    estimator's fresh one: what the session holds afterwards is the dict
    [calculate_velocity] returns for the location's coordinates, the two
    date strings and the radius 5 (the same dict in whatever world it is
    called), whatever was stored before and whatever else the world held;
    the engine and what the assistant tab stored are kept, and the script
    is rerun. *)
Theorem velocity_result_is_replaced location selected_glacier inp w w' e lat lon :
  calculate_pressed inp = true ->
  date_geb (start_date inp) (end_date inp) = false ->
  velocity_engine (session w) = Some e ->
  velocity_engine (session w') = Some e ->
  dict_lookup location "lat" = Some lat ->
  dict_lookup location "lon" = Some lon ->
  exists d,
    (forall w0,
       fst (calculate_velocity rt e lat lon (PStr (strftime_Ymd (start_date inp)))
              (PStr (strftime_Ymd (end_date inp))) (PInt 5) w0) = Ok d)
    /\ fst (render_manual_velocity_interface rt location selected_glacier inp w) = Ok Rerun
    /\ velocity_result
         (session (snd (render_manual_velocity_interface rt location selected_glacier inp w)))
       = Some d
    /\ velocity_result
         (session (snd (render_manual_velocity_interface rt location selected_glacier inp w')))
       = Some d
    /\ velocity_engine
         (session (snd (render_manual_velocity_interface rt location selected_glacier inp w)))
       = Some e
    /\ qa_latest_answer
         (session (snd (render_manual_velocity_interface rt location selected_glacier inp w)))
       = qa_latest_answer (session w)
    /\ prompts (snd (render_manual_velocity_interface rt location selected_glacier inp w))
       = prompts w.
Proof.
  intros P G E E' La Lo.
  destruct (velocity_action_stores location selected_glacier inp w e lat lon P G E La Lo)
    as (d & evs & V & _ & R).
  destruct (velocity_action_stores location selected_glacier inp w' e lat lon P G E' La Lo)
    as (d' & evs' & V' & _ & R').
  rewrite (same_value_calculate_velocity e lat lon _ _ _ w' w), V in V'.
  injection V' as <-.
  exists d. split.
  { intros w0. now rewrite (same_value_calculate_velocity e lat lon _ _ _ w0 w). }
  rewrite R, R'.
  cbn [fst snd session stored logged drawn velocity_result velocity_engine
       qa_latest_answer prompts].
  repeat split. exact E.
Qed.

(** X9. For calendar dates of four-digit years with the start before the
    end, the strings the velocity tab builds parse back to these dates, so
    a successful result stored by the action reports the number of days
    from start to end, which is at least 1, and carries the two date
    strings. *)
Theorem velocity_tab_elapsed_days location selected_glacier inp w e lat lon :
  calculate_pressed inp = true ->
  date_geb (start_date inp) (end_date inp) = false ->
  valid_date (start_date inp) -> 1000 <= year (start_date inp) <= MAXYEAR ->
  valid_date (end_date inp) -> 1000 <= year (end_date inp) <= MAXYEAR ->
  velocity_engine (session w) = Some e ->
  dict_lookup location "lat" = Some lat ->
  dict_lookup location "lon" = Some lon ->
  exists d,
    velocity_result
      (session (snd (render_manual_velocity_interface rt location selected_glacier inp w)))
    = Some d
    /\ (truthy (dict_get d "success" PNone) = true ->
        dict_lookup d "time_gap_days"
        = Some (PInt (toordinal (end_date inp) - toordinal (start_date inp)))
        /\ 1 <= toordinal (end_date inp) - toordinal (start_date inp)
        /\ dict_lookup d "analysis_dates"
           = Some (PTuple [PStr (strftime_Ymd (start_date inp));
                           PStr (strftime_Ymd (end_date inp))])).
Proof.
  intros P G V1 Y1 V2 Y2 E La Lo.
  destruct (velocity_action_stores location selected_glacier inp w e lat lon P G E La Lo)
    as (d & evs & _ & O & R).
  exists d. rewrite R. split; [reflexivity |].
  intros S.
  rewrite (date_geb_ordinal _ _ V1 V2) in G. apply Z.leb_gt in G.
  destruct O as [x | dist dt1 dt2 n1 n2 | dist dt1 dt2 n1 n2 g
                 | dist dt1 dt2 n1 n2 g stats Hd H1 H2 S1 S2 Z Sg Zg Ss];
    try discriminate S.
  rewrite (strptime_strftime _ V1) in H1 by (unfold MINYEAR; lia). injection H1 as <-.
  rewrite (strptime_strftime _ V2) in H2 by (unfold MINYEAR; lia). injection H2 as <-.
  assert (T : time_gap (start_date inp) (end_date inp)
              = toordinal (end_date inp) - toordinal (start_date inp)).
  { unfold time_gap, days_between.
    destruct (Z.eqb_spec (Z.abs (toordinal (end_date inp) - toordinal (start_date inp))) 0);
      lia. }
  unfold success_dict. cbn [dict_lookup String.eqb Ascii.eqb Bool.eqb]. rewrite T.
  repeat split. lia.
Qed.

End EstimatorFrame.

Section EstimatorFrameRuns.
Import Py Datetime World Trace Spec Example Frame Cases.

Lemma summer_dates_valid :
  valid_date (Date 2023 6 1) /\ valid_date (Date 2023 8 31).
Proof. unfold valid_date; vm_compute; intuition discriminate. Qed.

Lemma velocity_result_is_replaced_witness :
  calculate_pressed summer = true
  /\ date_geb (start_date summer) (end_date summer) = false
  /\ velocity_engine (session after_failure) = Some GlacierVelocityEngine
  /\ velocity_engine (session Demo.world0) = Some GlacierVelocityEngine
  /\ dict_lookup pindari "lat" = Some pindari_lat
  /\ dict_lookup pindari "lon" = Some pindari_lon
  /\ velocity_result (session after_failure) = Some failed_result
  /\ velocity_result (session Demo.world0) = None
  /\ exists d,
       (forall w0,
          fst (calculate_velocity covered GlacierVelocityEngine pindari_lat pindari_lon
                 (PStr (strftime_Ymd (start_date summer)))
                 (PStr (strftime_Ymd (end_date summer))) (PInt 5) w0) = Ok d)
       /\ fst (render_manual_velocity_interface covered pindari "Pindari Glacier" summer
                 after_failure) = Ok Rerun
       /\ velocity_result
            (session (snd (render_manual_velocity_interface covered pindari
                             "Pindari Glacier" summer after_failure)))
          = Some d
       /\ velocity_result
            (session (snd (render_manual_velocity_interface covered pindari
                             "Pindari Glacier" summer Demo.world0)))
          = Some d
       /\ velocity_engine
            (session (snd (render_manual_velocity_interface covered pindari
                             "Pindari Glacier" summer after_failure)))
          = Some GlacierVelocityEngine
       /\ qa_latest_answer
            (session (snd (render_manual_velocity_interface covered pindari
                             "Pindari Glacier" summer after_failure)))
          = qa_latest_answer (session after_failure)
       /\ prompts (snd (render_manual_velocity_interface covered pindari
                          "Pindari Glacier" summer after_failure))
          = prompts after_failure.
Proof.
  do 8 (split; [reflexivity |]).
  apply (velocity_result_is_replaced covered pindari "Pindari Glacier" summer
           after_failure Demo.world0 GlacierVelocityEngine pindari_lat pindari_lon);
    reflexivity.
Defined.

Lemma velocity_tab_elapsed_days_witness :
  calculate_pressed summer = true
  /\ date_geb (start_date summer) (end_date summer) = false
  /\ valid_date (start_date summer) /\ 1000 <= year (start_date summer) <= MAXYEAR
  /\ valid_date (end_date summer) /\ 1000 <= year (end_date summer) <= MAXYEAR
  /\ velocity_engine (session Demo.world0) = Some GlacierVelocityEngine
  /\ dict_lookup pindari "lat" = Some pindari_lat
  /\ dict_lookup pindari "lon" = Some pindari_lon
  /\ exists d,
       velocity_result
         (session (snd (render_manual_velocity_interface covered pindari "Pindari Glacier"
                          summer Demo.world0)))
       = Some d
       /\ (truthy (dict_get d "success" PNone) = true ->
           dict_lookup d "time_gap_days"
           = Some (PInt (toordinal (end_date summer) - toordinal (start_date summer)))
           /\ 1 <= toordinal (end_date summer) - toordinal (start_date summer)
           /\ dict_lookup d "analysis_dates"
              = Some (PTuple [PStr (strftime_Ymd (start_date summer));
                              PStr (strftime_Ymd (end_date summer))])).
Proof.
  destruct summer_dates_valid as [V1 V2].
  assert (Y1 : 1000 <= year (start_date summer) <= MAXYEAR)
    by (vm_compute; intuition discriminate).
  assert (Y2 : 1000 <= year (end_date summer) <= MAXYEAR)
    by (vm_compute; intuition discriminate).
  do 2 (split; [reflexivity |]).
  split; [exact V1 |]. split; [exact Y1 |]. split; [exact V2 |]. split; [exact Y2 |].
  do 3 (split; [reflexivity |]).
  apply (velocity_tab_elapsed_days covered pindari "Pindari Glacier" summer Demo.world0
           GlacierVelocityEngine pindari_lat pindari_lon);
    first [exact V1 | exact V2 | exact Y1 | exact Y2 | reflexivity].
Defined.

End EstimatorFrameRuns.

(* ================================================================== *)
(** * What the velocity tab shows *)
(* ================================================================== *)

Section VelocityDisplay.
Import Py Datetime World Trace Spec Example Frame Cases.

Variable rt : runtime.

(** X10. Without a button press the velocity tab computes nothing: it only
    draws, so the session, the backend log and the prompts are those of
    before. *)
Theorem idle_velocity_tab_only_draws location selected_glacier inp w :
  calculate_pressed inp = false ->
  exists r later,
    render_manual_velocity_interface rt location selected_glacier inp w
    = (r, drawn w ([st_subheader "Glacier Velocity Analysis";
                    st_info "Measure glacier speed between two dates using Sentinel-2 satellite imagery."]
                   ++ later))
    /\ session (snd (render_manual_velocity_interface rt location selected_glacier inp w))
       = session w
    /\ backend_log (snd (render_manual_velocity_interface rt location selected_glacier inp w))
       = backend_log w.
Proof.
  intros P.
  assert (E : exists r later,
    render_manual_velocity_interface rt location selected_glacier inp w
    = (r, drawn w ([st_subheader "Glacier Velocity Analysis";
                    st_info "Measure glacier speed between two dates using Sentinel-2 satellite imagery."]
                   ++ later))).
  { unfold render_manual_velocity_interface.
    rewrite bind_draw, bind_draw, P, bind_ret, drawn_drawn.
    pose proof (within_show_velocity_result rt
                  (drawn w ([st_subheader "Glacier Velocity Analysis"] ++
                            [st_info "Measure glacier speed between two dates using Sentinel-2 satellite imagery."])))
      as [later L].
    unfold bind at 1.
    destruct (show_velocity_result rt _) as [[[] | x] w1]; simpl in L; subst w1;
      rewrite drawn_drawn; eexists; exists later; reflexivity. }
  destruct E as (r & later & E). exists r, later. rewrite E. repeat split.
Qed.

(** The tab over a stored failure, with no button pressed. *)
Lemma stored_failure_run location selected_glacier inp w msg :
  velocity_result (session w) = Some [("success", PBool false); ("error", PStr msg)] ->
  calculate_pressed inp = false ->
  render_manual_velocity_interface rt location selected_glacier inp w
  = (Ok Completed,
     drawn w [st_subheader "Glacier Velocity Analysis";
              st_info "Measure glacier speed between two dates using Sentinel-2 satellite imagery.";
              st_error ("Analysis Failed: " ++ msg)]).
Proof.
  intros V P.
  unfold render_manual_velocity_interface.
  rewrite bind_draw, bind_draw, P, bind_ret, drawn_drawn.
  unfold show_velocity_result.
  rewrite bind_assoc, bind_get_session. cbn [session drawn]. rewrite V.
  cbn [dict_get dict_lookup String.eqb Ascii.eqb Bool.eqb truthy py_str].
  rewrite bind_draw, drawn_drawn. reflexivity.
Qed.

(** X11. A stored failure of the estimator is shown with its own message:
    the tab draws "Analysis Failed: " followed by the ['error'] text of the
    result, and none of the metrics. *)
Theorem failure_is_shown_verbatim self lat lon date1 date2 buffer_km w0 r
    location selected_glacier inp w :
  fst (calculate_velocity rt self lat lon date1 date2 buffer_km w0) = Ok r ->
  truthy (dict_get r "success" PNone) = false ->
  velocity_result (session w) = Some r ->
  calculate_pressed inp = false ->
  exists msg,
    dict_lookup r "error" = Some (PStr msg)
    /\ render_manual_velocity_interface rt location selected_glacier inp w
       = (Ok Completed,
          drawn w [st_subheader "Glacier Velocity Analysis";
                   st_info "Measure glacier speed between two dates using Sentinel-2 satellite imagery.";
                   st_error ("Analysis Failed: " ++ msg)]).
Proof.
  intros E S V P.
  destruct (calculate_velocity_outcome rt self lat lon date1 date2 buffer_km w0)
    as (r' & w' & E' & O).
  rewrite E' in E. simpl in E. injection E as ->.
  destruct (failure_shape rt self lat lon date1 date2 buffer_km r O S) as [msg ->].
  exists msg. split; [reflexivity |].
  apply stored_failure_run; assumption.
Qed.

(** X12. A successful result whose mean and maximum are missing, [None] or
    zero (a region in which no pixel was left unmasked) is shown as a
    measurement of zero: "0.00 m/day" twice and "0.0 m/year". *)
Theorem missing_statistics_read_zero w result stats days :
  velocity_result (session w) = Some result ->
  truthy (dict_get result "success" PNone) = true ->
  dict_lookup result "stats" = Some (PDict stats) ->
  dict_lookup result "time_gap_days" = Some days ->
  truthy (dict_get stats "velocity_mean" (PInt 0)) = false ->
  truthy (dict_get stats "velocity_max" (PInt 0)) = false ->
  show_velocity_result rt w
  = (Ok tt,
     drawn w [st_success ("Analysis Complete for **" ++ py_str rt days ++ " days**.");
              st_metric "Avg. Velocity" "0.00 m/day";
              st_metric "Max. Velocity" "0.00 m/day";
              st_metric "Est. Annual Speed" "0.0 m/year"]).
Proof.
  intros V S St D Mx My.
  unfold show_velocity_result.
  rewrite bind_get_session, V, S.
  unfold dict_get at 1. rewrite St. rewrite (bind_lift_ok _ stats) by reflexivity.
  cbv zeta. unfold dict_index. rewrite D. rewrite (bind_lift_ok _ days) by reflexivity.
  unfold py_or. rewrite Mx, My.
  assert (F : py_format_f 2 (PInt 0) = Ok "0.00") by (vm_compute; reflexivity).
  assert (A : py_float_op "*" b64_mul (PInt 0) (b64_literal 36525 2) = Ok (S754_zero false))
    by (vm_compute; reflexivity).
  rewrite bind_draw, (bind_lift_ok _ _ _ _ F), bind_draw, (bind_lift_ok _ _ _ _ F), bind_draw.
  rewrite (bind_lift_ok _ _ _ _ A).
  change (draw ?x ?w0) with (Ok tt, drawn w0 [x]).
  repeat rewrite drawn_drawn. reflexivity.
Qed.

End VelocityDisplay.

Section VelocityDisplayRuns.
Import Py Datetime World Trace Spec Example Frame Cases.

Lemma idle_velocity_tab_only_draws_witness :
  calculate_pressed idle = false
  /\ exists r later,
       render_manual_velocity_interface covered pindari "Pindari Glacier" idle after_success
       = (r, drawn after_success
               ([st_subheader "Glacier Velocity Analysis";
                 st_info "Measure glacier speed between two dates using Sentinel-2 satellite imagery."]
                ++ later))
       /\ session (snd (render_manual_velocity_interface covered pindari "Pindari Glacier"
                          idle after_success))
          = session after_success
       /\ backend_log (snd (render_manual_velocity_interface covered pindari
                              "Pindari Glacier" idle after_success))
          = backend_log after_success.
Proof.
  split; [reflexivity |].
  apply (idle_velocity_tab_only_draws covered pindari "Pindari Glacier" idle after_success).
  reflexivity.
Defined.

Lemma failure_is_shown_verbatim_witness :
  fst (calculate_velocity bare GlacierVelocityEngine pindari_lat pindari_lon
         (PStr "2023-06-01") (PStr "2023-08-31") (PInt 5) Demo.world0)
  = Ok failed_result
  /\ truthy (dict_get failed_result "success" PNone) = false
  /\ velocity_result (session after_failure) = Some failed_result
  /\ calculate_pressed idle = false
  /\ exists msg,
       dict_lookup failed_result "error" = Some (PStr msg)
       /\ render_manual_velocity_interface bare pindari "Pindari Glacier" idle after_failure
          = (Ok Completed,
             drawn after_failure
               [st_subheader "Glacier Velocity Analysis";
                st_info "Measure glacier speed between two dates using Sentinel-2 satellite imagery.";
                st_error ("Analysis Failed: " ++ msg)]).
Proof.
  assert (E : fst (calculate_velocity bare GlacierVelocityEngine pindari_lat pindari_lon
                     (PStr "2023-06-01") (PStr "2023-08-31") (PInt 5) Demo.world0)
              = Ok failed_result) by (vm_compute; reflexivity).
  split; [exact E |]. do 3 (split; [reflexivity |]).
  apply (failure_is_shown_verbatim bare GlacierVelocityEngine pindari_lat pindari_lon
           (PStr "2023-06-01") (PStr "2023-08-31") (PInt 5) Demo.world0 failed_result
           pindari "Pindari Glacier" idle after_failure);
    first [exact E | reflexivity].
Defined.

Lemma missing_statistics_read_zero_witness :
  velocity_result (session (stored Demo.world0 empty_result)) = Some empty_result
  /\ truthy (dict_get empty_result "success" PNone) = true
  /\ dict_lookup empty_result "stats"
     = Some (PDict [("velocity_mean", PNone); ("velocity_min", PNone);
                    ("velocity_max", PNone)])
  /\ dict_lookup empty_result "time_gap_days" = Some (PInt 91)
  /\ show_velocity_result covered (stored Demo.world0 empty_result)
     = (Ok tt,
        drawn (stored Demo.world0 empty_result)
          [st_success ("Analysis Complete for **" ++ py_str covered (PInt 91) ++ " days**.");
           st_metric "Avg. Velocity" "0.00 m/day";
           st_metric "Max. Velocity" "0.00 m/day";
           st_metric "Est. Annual Speed" "0.0 m/year"]).
Proof.
  do 4 (split; [reflexivity |]).
  apply (missing_statistics_read_zero covered (stored Demo.world0 empty_result) empty_result
           [("velocity_mean", PNone); ("velocity_min", PNone); ("velocity_max", PNone)]
           (PInt 91));
    reflexivity.
Defined.

End VelocityDisplayRuns.

(* ================================================================== *)
(** * Imagery collections and the cloud mask *)
(* ================================================================== *)

Section Collections.
Import Py Datetime World Trace Spec Example Frame Cases.

Variable rt : runtime.

Lemma calls_only_refl w : calls_only w w.
Proof. exists []. split; [now rewrite logged_nil | reflexivity]. Qed.

Lemma calls_only_trans w1 w2 w3 : calls_only w1 w2 -> calls_only w2 w3 -> calls_only w1 w3.
Proof.
  intros (a & -> & Ha) (b & -> & Hb). exists (a ++ b)%list.
  split; [apply logged_logged |]. rewrite forallb_app, Ha, Hb. reflexivity.
Qed.

Lemma within_calls_call e : within calls_only (call rt e).
Proof.
  intros w. unfold call, bind, log_event; simpl.
  destruct (ee_client rt e); simpl; exists [Call e]; split; reflexivity.
Qed.

(** A client-library call either hands back the object or raises; it is
    logged in both cases. *)
Lemma call_cases e w :
  call rt e w = (Ok e, logged w [Call e])
  \/ exists x, call rt e w = (Raise x, logged w [Call e]).
Proof.
  unfold call, bind, log_event, raise, ret; simpl.
  destruct (ee_client rt e) as [x |]; [right; exists x | left]; reflexivity.
Qed.

(** When the collection is handed back, every one of the thirteen calls
    was made, in order. *)
Lemma collection_run aoi p w c w' :
  _get_sentinel2_collection rt aoi (fst p) (snd p) w = (Ok c, w') ->
  c = collection_of aoi p /\ w' = logged w (collection aoi p).
Proof.
  destruct p as [s e]. cbn [fst snd].
  unfold _get_sentinel2_collection, mask_s2_clouds.
  repeat (rewrite ?bind_assoc;
          match goal with
          | |- context [bind (call rt ?o) ?k ?w0] =>
              destruct (call_cases o w0) as [H | [x H]];
              [ rewrite (bind_run _ _ _ _ _ H); clear H
              | unfold bind at 1; rewrite H; discriminate ]
          end).
  match goal with
  | |- call rt ?o ?w0 = _ -> _ =>
      destruct (call_cases o w0) as [H | [x H]]; rewrite H; [| discriminate]
  end.
  intros E. injection E as <- <-.
  repeat rewrite logged_logged. split; reflexivity.
Qed.

(** X13. Building a Sentinel-2 collection is client-side work: whatever
    the client library does, only calls are logged, none of them a server
    round trip; and a collection that is handed back is the harmonized
    surface-reflectance catalogue filtered by the area, the dates and a
    cloud percentage below 20, with the cloud mask mapped over it, built
    by exactly the thirteen calls of [Trace.collection]. *)
Theorem collection_is_built_client_side aoi start_date end_date w :
  calls_only w (snd (_get_sentinel2_collection rt aoi start_date end_date w))
  /\ forall c,
       fst (_get_sentinel2_collection rt aoi start_date end_date w) = Ok c ->
       c = map_ (filter (filterDate
                           (filterBounds (ImageCollection "COPERNICUS/S2_SR_HARMONIZED") aoi)
                           start_date end_date)
                        (Filter_lt "CLOUDY_PIXEL_PERCENTAGE" 20))
                (cloud_mask_of map_arg)
       /\ snd (_get_sentinel2_collection rt aoi start_date end_date w)
          = logged w (collection aoi (start_date, end_date)).
Proof.
  split.
  - revert w. change (within calls_only (_get_sentinel2_collection rt aoi start_date end_date)).
    unfold _get_sentinel2_collection, mask_s2_clouds.
    repeat first [ apply within_calls_call
                 | apply (within_bind _ calls_only_trans); [| intros ?] ].
  - intros c E.
    destruct (_get_sentinel2_collection rt aoi start_date end_date w) as [r w'] eqn:R.
    simpl in E. subst r.
    destruct (collection_run aoi (start_date, end_date) w c w' R) as [-> ->].
    split; reflexivity.
Qed.

End Collections.

Section CloudMask.
Import Py Datetime World Trace Spec Example Frame Cases.

Lemma land_pow2 z k :
  0 <= k -> Z.land z (2 ^ k) = if Z.testbit z k then 2 ^ k else 0.
Proof.
  intros Hk. apply Z.bits_inj'. intros i Hi.
  rewrite Z.land_spec, Z.pow2_bits_eqb by exact Hk.
  destruct (Z.eqb_spec k i) as [-> | N].
  - destruct (Z.testbit z i); simpl.
    + now rewrite Z.pow2_bits_true.
    + now rewrite Z.bits_0.
  - rewrite andb_false_r. destruct (Z.testbit z k).
    + now rewrite Z.pow2_bits_false.
    + now rewrite Z.bits_0.
Qed.

Lemma bit_test (sem : raster_semantics) qa_band k p qa :
  lawful_bits sem ->
  0 <= k ->
  sample sem qa_band p = Some (IZR qa) ->
  sample sem (eq_ (bitwiseAnd qa_band (2 ^ k)) 0) p
  = Some (if Z.testbit qa k then 0%R else 1%R).
Proof.
  intros L Hk Q.
  rewrite (bits_eq sem L), (bits_bitwiseAnd sem L _ _ _ _ Q). simpl.
  rewrite land_pow2 by exact Hk.
  destruct (Z.testbit qa k).
  - destruct (Req_dec_T (IZR (2 ^ k)) 0) as [E | _]; [| reflexivity].
    apply eq_IZR in E. pose proof (Z.pow_pos_nonneg 2 k ltac:(lia) Hk). lia.
  - destruct (Req_dec_T 0 0) as [_ | N]; [reflexivity | contradiction].
Qed.

Lemma if_zero_is_zero {A} (x y : A) : (if Req_dec_T 0 0 then x else y) = x.
Proof. destruct (Req_dec_T 0 0) as [_ | N]; [reflexivity | contradiction]. Qed.

Lemma if_one_is_zero {A} (x y : A) : (if Req_dec_T 1 0 then x else y) = y.
Proof. destruct (Req_dec_T 1 0) as [E | _]; [lra | reflexivity]. Qed.

(** X14. What the cloud mask keeps. Under the documented meaning of
    [select], [bitwiseAnd], [eq], [And] and [updateMask], a pixel of the
    masked image has the value of the image where bits 10 (opaque cloud)
    and 11 (cirrus) of its QA60 value are both clear, and no data where
    either is set. *)
Theorem cloud_mask_keeps_clear_pixels (sem : raster_semantics) image p qa :
  lawful_bits sem ->
  sample sem (select image "QA60") p = Some (IZR qa) ->
  sample sem (cloud_mask_of image) p
  = if cloud_free qa then sample sem image p else None.
Proof.
  intros L Q. unfold cloud_mask_of, cloud_free.
  rewrite (bits_updateMask sem L), (bits_And sem L).
  change (Z.shiftl 1 10) with (2 ^ 10). change (Z.shiftl 1 11) with (2 ^ 11).
  rewrite (bit_test sem _ 10 p qa L ltac:(lia) Q).
  rewrite (bit_test sem _ 11 p qa L ltac:(lia) Q).
  destruct (Z.testbit qa 10), (Z.testbit qa 11); cbn [negb andb];
    rewrite ?if_zero_is_zero, ?if_one_is_zero, ?if_zero_is_zero, ?if_one_is_zero;
    reflexivity.
Qed.

Lemma if_IZR_eq {A} z n (x y : A) :
  (if Req_dec_T (IZR z) (IZR n) then x else y) = if z =? n then x else y.
Proof.
  destruct (Req_dec_T (IZR z) (IZR n)) as [E | E], (Z.eqb_spec z n) as [F | F];
    try reflexivity.
  - apply eq_IZR in E. contradiction.
  - subst z. contradiction.
Qed.

Lemma bands_lawful : lawful_bits bands.
Proof.
  constructor; unfold bands; cbn [sample].
  - intros a n p z H. cbn [band_value].
    destruct (band_value a p) as [z' |]; [| discriminate H].
    simpl in H. injection H as H. apply eq_IZR in H. rewrite H. reflexivity.
  - intros a n p. cbn [band_value].
    destruct (band_value a p) as [z |]; [| reflexivity]. simpl.
    rewrite if_IZR_eq. destruct (z =? n); reflexivity.
  - intros a b p. cbn [band_value].
    destruct (band_value a p) as [x |]; [| reflexivity].
    destruct (band_value b p) as [y |]; [| reflexivity]. simpl.
    rewrite !if_IZR_eq. destruct (x =? 0), (y =? 0); reflexivity.
  - intros a m p. cbn [band_value].
    destruct (band_value m p) as [v |]; [| reflexivity]. simpl.
    rewrite if_IZR_eq. destruct (v =? 0); reflexivity.
Qed.

(** Pixel 1024 has the cloud bit set and is dropped; pixel 5 is kept. *)
Lemma cloud_mask_keeps_clear_pixels_witness :
  lawful_bits bands
  /\ sample bands (select map_arg "QA60") 1024 = Some (IZR 1024)
  /\ sample bands (select map_arg "QA60") 5 = Some (IZR 5)
  /\ sample bands (cloud_mask_of map_arg) 1024
     = (if cloud_free 1024 then sample bands map_arg 1024 else None)
  /\ cloud_free 1024 = false
  /\ sample bands (cloud_mask_of map_arg) 5
     = (if cloud_free 5 then sample bands map_arg 5 else None)
  /\ cloud_free 5 = true.
Proof.
  split; [exact bands_lawful |]. do 2 (split; [reflexivity |]).
  split; [apply (cloud_mask_keeps_clear_pixels bands map_arg 1024 1024 bands_lawful);
          reflexivity |].
  split; [reflexivity |].
  split; [apply (cloud_mask_keeps_clear_pixels bands map_arg 5 5 bands_lawful);
          reflexivity |].
  reflexivity.
Defined.

End CloudMask.

(* ================================================================== *)
(** * Dates at the edge of the calendar *)
(* ================================================================== *)

Section Bounds.
Import Py Datetime World Trace Spec Example Frame Cases.

Variable rt : runtime.
Hypothesis accepts : forall e, ee_client rt e = None.

Lemma window_in_range_dec self dt : {window_in_range self dt} + {~ window_in_range self dt}.
Proof.
  unfold window_in_range.
  destruct (Z_lt_dec 0 (toordinal dt - window_days self));
    destruct (Z_le_dec (toordinal dt - window_days self) MAXORDINAL);
    destruct (Z_lt_dec 0 (toordinal dt + window_days self));
    destruct (Z_le_dec (toordinal dt + window_days self) MAXORDINAL);
    first [left; lia | right; lia].
Qed.

Lemma window_out_of_range {B} self dt (k : string * string -> M B) w :
  ~ window_in_range self dt ->
  bind (window self dt) k w = (Raise (Exn "OverflowError" "date value out of range"), w).
Proof.
  intros N. unfold window, add_days.
  replace (toordinal dt + - window_days self) with (toordinal dt - window_days self) by lia.
  destruct ((0 <? toordinal dt - window_days self)
            && (toordinal dt - window_days self <=? MAXORDINAL)) eqn:E1; [| reflexivity].
  destruct ((0 <? toordinal dt + window_days self)
            && (toordinal dt + window_days self <=? MAXORDINAL)) eqn:E2; [| reflexivity].
  exfalso. apply N.
  apply andb_true_iff in E1. destruct E1 as [A1 B1].
  apply andb_true_iff in E2. destruct E2 as [A2 B2].
  apply Z.ltb_lt in A1, A2. apply Z.leb_le in B1, B2.
  unfold window_in_range. lia.
Qed.

(** X15. Dates whose search window leaves the calendar (within
    [window_days] of 0001-01-01 or 9999-12-31) make the estimator fail
    cleanly: the result is the failure dict with the overflow message of
    the date arithmetic, and the server was never asked anything. *)
Theorem unrepresentable_window_fails self lat lon date1 date2 buffer_km dist dt1 dt2 w :
  py_mul_int buffer_km 1000 = Ok dist ->
  strptime date1 = Ok dt1 ->
  strptime date2 = Ok dt2 ->
  ~ (window_in_range self dt1 /\ window_in_range self dt2) ->
  fst (calculate_velocity rt self lat lon date1 date2 buffer_km w)
  = Ok [("success", PBool false);
        ("error", PStr "Velocity calculation failed: date value out of range")]
  /\ calls_only w (snd (calculate_velocity rt self lat lon date1 date2 buffer_km w)).
Proof.
  intros Hd H1 H2 N.
  unfold calculate_velocity, try_except, calculate_velocity_try.
  rewrite (bind_call rt accepts), (bind_lift_ok _ dist) by exact Hd.
  rewrite (bind_call rt accepts), (bind_lift_ok _ dt1), (bind_lift_ok _ dt2) by assumption.
  destruct (window_in_range_dec self dt1) as [R1 | R1].
  - assert (R2 : ~ window_in_range self dt2) by tauto.
    rewrite bind_window, (bind_collection rt accepts) by exact R1.
    rewrite (window_out_of_range _ _ _ _ R2).
    cbn [fst snd ret]. split; [reflexivity |].
    repeat rewrite logged_logged. eexists. split; reflexivity.
  - rewrite (window_out_of_range _ _ _ _ R1).
    cbn [fst snd ret]. split; [reflexivity |].
    repeat rewrite logged_logged. eexists. split; reflexivity.
Qed.

Lemma bind_size_info_raise {B} col x (k : pyval -> M B) w :
  ee_server rt (size col) = Raise x ->
  bind (size_info rt col) k w = (Raise x, logged w (count col)).
Proof.
  intros H. unfold size_info. rewrite bind_assoc, (bind_call rt accepts).
  unfold bind, getInfo, bind, log_event, lift; simpl. rewrite H.
  unfold logged, count; simpl. rewrite <- app_assoc. reflexivity.
Qed.

(** X16. When the server fails while the glaciers of the area are counted,
    the page shows the error with the server's message and stops: no tab is
    drawn, nothing else is asked of the backend, no prompt is sent and the
    session is left as it was. *)
Theorem backend_failure_stops_the_page inp w e location selected_glacier lat lon x :
  velocity_engine (session w) = Some e ->
  choose_location inp = Ok (location, selected_glacier) ->
  dict_lookup location "lat" = Some lat ->
  dict_lookup location "lon" = Some lon ->
  ee_server rt (size (glaciers_of (aoi_of lat lon (PInt (buffer_size inp * 1000)))))
    = Raise x ->
  app_py rt inp w
  = (Ok Stopped,
     drawn (logged w (fetch lat lon (buffer_size inp)))
           [st_error ("An error occurred during Earth Engine processing: " ++ exn_msg x)]).
Proof.
  intros E C La Lo Sg.
  unfold app_py.
  rewrite bind_get_session, E. cbv beta iota.
  rewrite bind_ret, (bind_lift_ok _ _ _ _ C).
  cbn [fst snd].
  assert (F : (r <- fetch_data rt location selected_glacier inp ;; ret (Some r)) w
              = (Raise x, logged w (fetch lat lon (buffer_size inp)))).
  { unfold fetch_data, dict_index. rewrite La, Lo.
    repeat (rewrite ?bind_assoc;
            first [ rewrite (bind_lift_ok _ _ _ _ eq_refl)
                  | rewrite (bind_call rt accepts) ]).
    rewrite ?bind_assoc.
    rewrite (bind_size_info_raise _ x) by exact Sg.
    repeat rewrite logged_logged. reflexivity. }
  unfold try_except at 1. unfold bind at 1. rewrite F.
  rewrite bind_draw. reflexivity.
Qed.

End Bounds.

Section Locations.
Import Py Datetime World Trace Spec Example Frame Cases.

(** X17. Whatever the header widgets return, a location that is chosen
    holds float coordinates and the zoom of the slider, so that the lookups
    [location["lat"]] and [location["lon"]] of the page cannot fail. Custom
    coordinates are the numbers entered, under the name "Custom Location";
    a pre-defined glacier has the coordinates of its table entry, and a
    name outside the table raises [KeyError]. *)
Theorem chosen_location_has_coordinates inp :
  match choose_location inp with
  | Ok (location, selected_glacier) =>
      exists lat lon,
        dict_lookup location "lat" = Some (PFloat lat)
        /\ dict_lookup location "lon" = Some (PFloat lon)
        /\ dict_lookup location "zoom" = Some (PInt (zoom_level inp))
        /\ (search_mode inp = "Custom Coordinates" ->
            lat = number_input_lat inp /\ lon = number_input_lon inp
            /\ selected_glacier = "Custom Location")
        /\ (search_mode inp <> "Custom Coordinates" ->
            selected_glacier = selectbox_glacier inp
            /\ exists zoom,
                 dict_lookup glacier_locations selected_glacier
                 = Some (PDict (place lat lon zoom)))
  | Raise e =>
      search_mode inp <> "Custom Coordinates"
      /\ dict_lookup glacier_locations (selectbox_glacier inp) = None
      /\ e = Exn "KeyError" ("'" ++ selectbox_glacier inp ++ "'")
  end.
Proof.
  unfold choose_location.
  destruct (String.eqb_spec (search_mode inp) "Custom Coordinates") as [Eq | Ne].
  - exists (number_input_lat inp), (number_input_lon inp).
    do 3 (split; [reflexivity |]).
    split; [intros _; repeat split | intros N; contradiction].
  - unfold dict_index, glacier_locations. cbn [dict_lookup].
    destruct (String.eqb "Pindari Glacier" (selectbox_glacier inp)) eqn:E1;
      [| destruct (String.eqb "Gangotri Glacier" (selectbox_glacier inp)) eqn:E2;
         [| destruct (String.eqb "Siachen Glacier" (selectbox_glacier inp)) eqn:E3;
            [| destruct (String.eqb "Baltoro Glacier" (selectbox_glacier inp)) eqn:E4]]];
      cbv beta iota delta [and_then as_dict]; rewrite ?E1, ?E2, ?E3, ?E4;
      first [ eexists; eexists;
              do 3 (split; [reflexivity |]);
              split; [intros N; contradiction
                     | intros _; split; [reflexivity | eexists; reflexivity]]
            | split; [exact Ne | split; reflexivity] ].
Qed.

Lemma choose_location_floats inp location selected_glacier :
  choose_location inp = Ok (location, selected_glacier) ->
  exists lat lon,
    dict_lookup location "lat" = Some (PFloat lat)
    /\ dict_lookup location "lon" = Some (PFloat lon).
Proof.
  unfold choose_location.
  destruct (String.eqb (search_mode inp) "Custom Coordinates").
  - intros E. injection E as <- _. eexists. eexists. split; reflexivity.
  - unfold dict_index, glacier_locations. cbn [dict_lookup].
    destruct (String.eqb "Pindari Glacier" (selectbox_glacier inp));
      [| destruct (String.eqb "Gangotri Glacier" (selectbox_glacier inp));
         [| destruct (String.eqb "Siachen Glacier" (selectbox_glacier inp));
            [| destruct (String.eqb "Baltoro Glacier" (selectbox_glacier inp))]]];
      cbv beta iota delta [and_then as_dict]; intros E; try discriminate E;
      injection E as <- _; eexists; eexists; split; reflexivity.
Qed.

Variable rt : runtime.

(** What [fetch_data] returns describes the location it was given. *)
Lemma returns_fetch_data location selected_glacier inp :
  returns (fetch_data rt location selected_glacier inp)
    (fun r =>
       dict_lookup (snd (fst r)) "name" = Some (PStr selected_glacier)
       /\ Some (dict_get (snd (fst r)) "lat" PNone) = dict_lookup location "lat"
       /\ Some (dict_get (snd (fst r)) "lon" PNone) = dict_lookup location "lon").
Proof.
  unfold fetch_data, dict_index.
  apply returns_bind, returns_lift. intros lon0 H0.
  apply returns_bind, returns_lift. intros lat0 H1.
  repeat (apply returns_bind, returns_call).
  apply returns_bind, returns_size_info. intros n Hn.
  apply returns_bind, returns_lift. intros lat Hlat.
  apply returns_bind, returns_lift. intros lon Hlon.
  apply returns_ret. cbn [fst snd].
  destruct (dict_lookup location "lat"); [| discriminate Hlat].
  destruct (dict_lookup location "lon"); [| discriminate Hlon].
  injection Hlat as ->. injection Hlon as ->. repeat split.
Qed.

(** X18. On the page the context builder never lacks coordinates: when
    the location is chosen and the area data is fetched, the record handed
    to the assistant names the glacier and holds the float coordinates of
    the location, which [create_context] formats with four decimals. *)
Theorem page_context_has_coordinates inp location selected_glacier w area gi di w' :
  choose_location inp = Ok (location, selected_glacier) ->
  fetch_data rt location selected_glacier inp w = (Ok (area, gi, di), w') ->
  exists lat lon,
    dict_lookup location "lat" = Some (PFloat lat)
    /\ dict_lookup location "lon" = Some (PFloat lon)
    /\ dict_lookup gi "name" = Some (PStr selected_glacier)
    /\ py_format_f 4 (dict_get gi "lat" (PStr "N/A")) = Ok (format_f 4 lat)
    /\ py_format_f 4 (dict_get gi "lon" (PStr "N/A")) = Ok (format_f 4 lon).
Proof.
  intros C F.
  destruct (choose_location_floats inp location selected_glacier C) as (lat & lon & La & Lo).
  pose proof (returns_fetch_data location selected_glacier inp w) as R.
  rewrite F in R. cbn [fst snd] in R. destruct R as (N & Ga & Go).
  rewrite La in Ga. rewrite Lo in Go.
  exists lat, lon. do 3 (split; [assumption |]).
  unfold dict_get in *.
  destruct (dict_lookup gi "lat") as [v |]; [| discriminate Ga].
  destruct (dict_lookup gi "lon") as [u |]; [| discriminate Go].
  injection Ga as ->. injection Go as ->. split; reflexivity.
Qed.

End Locations.

Section BoundsRuns.
Import Py Datetime World Trace Spec Example Frame Cases.

(** The fifteenth of January of year 1: thirty days earlier there is no
    date. *)
Lemma unrepresentable_window_fails_witness :
  (forall e, ee_client covered e = None)
  /\ py_mul_int (PInt 5) 1000 = Ok (PInt 5000)
  /\ strptime (PStr "0001-01-15") = Ok (Date 1 1 15)
  /\ strptime (PStr "2023-08-31") = Ok (Date 2023 8 31)
  /\ ~ (window_in_range GlacierVelocityEngine (Date 1 1 15)
        /\ window_in_range GlacierVelocityEngine (Date 2023 8 31))
  /\ fst (calculate_velocity covered GlacierVelocityEngine pindari_lat pindari_lon
            (PStr "0001-01-15") (PStr "2023-08-31") (PInt 5) Demo.world0)
     = Ok [("success", PBool false);
           ("error", PStr "Velocity calculation failed: date value out of range")]
  /\ calls_only Demo.world0
       (snd (calculate_velocity covered GlacierVelocityEngine pindari_lat pindari_lon
               (PStr "0001-01-15") (PStr "2023-08-31") (PInt 5) Demo.world0)).
Proof.
  assert (A : forall e, ee_client covered e = None) by reflexivity.
  assert (N : ~ (window_in_range GlacierVelocityEngine (Date 1 1 15)
                 /\ window_in_range GlacierVelocityEngine (Date 2023 8 31))).
  { intros [[[H _] _] _]. vm_compute in H. discriminate H. }
  split; [exact A |]. do 3 (split; [reflexivity |]). split; [exact N |].
  apply (unrepresentable_window_fails covered A GlacierVelocityEngine pindari_lat pindari_lon
           (PStr "0001-01-15") (PStr "2023-08-31") (PInt 5) (PInt 5000)
           (Date 1 1 15) (Date 2023 8 31) Demo.world0);
    first [exact N | reflexivity].
Defined.

Lemma backend_failure_stops_the_page_witness :
  (forall e, ee_client offline e = None)
  /\ velocity_engine (session Demo.world0) = Some GlacierVelocityEngine
  /\ choose_location custom
     = Ok ([("lat", PFloat (b64_literal 3093 2)); ("lon", PFloat (b64_literal 7908 2));
            ("zoom", PInt 9)], "Custom Location")
  /\ ee_server offline
       (size (glaciers_of (aoi_of (PFloat (b64_literal 3093 2)) (PFloat (b64_literal 7908 2))
                                  (PInt (buffer_size custom * 1000)))))
     = Raise (Exn "EEException" "Connection timed out")
  /\ app_py offline custom Demo.world0
     = (Ok Stopped,
        drawn (logged Demo.world0
                 (fetch (PFloat (b64_literal 3093 2)) (PFloat (b64_literal 7908 2))
                        (buffer_size custom)))
              [st_error ("An error occurred during Earth Engine processing: "
                         ++ exn_msg (Exn "EEException" "Connection timed out"))]).
Proof.
  assert (A : forall e, ee_client offline e = None) by reflexivity.
  split; [exact A |]. do 3 (split; [reflexivity |]).
  apply (backend_failure_stops_the_page offline A custom Demo.world0 GlacierVelocityEngine
           [("lat", PFloat (b64_literal 3093 2)); ("lon", PFloat (b64_literal 7908 2));
            ("zoom", PInt 9)] "Custom Location"
           (PFloat (b64_literal 3093 2)) (PFloat (b64_literal 7908 2))
           (Exn "EEException" "Connection timed out"));
    reflexivity.
Defined.

Lemma page_context_has_coordinates_witness :
  choose_location wide = Ok (pindari, "Pindari Glacier")
  /\ fetch_data covered pindari "Pindari Glacier" wide Demo.world0
     = (Ok (aoi_of pindari_lat pindari_lon (PInt 10000), glacier_info, date_info),
        logged Demo.world0 (fetch pindari_lat pindari_lon 10))
  /\ exists lat lon,
       dict_lookup pindari "lat" = Some (PFloat lat)
       /\ dict_lookup pindari "lon" = Some (PFloat lon)
       /\ dict_lookup glacier_info "name" = Some (PStr "Pindari Glacier")
       /\ py_format_f 4 (dict_get glacier_info "lat" (PStr "N/A")) = Ok (format_f 4 lat)
       /\ py_format_f 4 (dict_get glacier_info "lon" (PStr "N/A")) = Ok (format_f 4 lon).
Proof.
  assert (C : choose_location wide = Ok (pindari, "Pindari Glacier")) by reflexivity.
  assert (F : fetch_data covered pindari "Pindari Glacier" wide Demo.world0
              = (Ok (aoi_of pindari_lat pindari_lon (PInt 10000), glacier_info, date_info),
                 logged Demo.world0 (fetch pindari_lat pindari_lon 10)))
    by (vm_compute; reflexivity).
  split; [exact C |]. split; [exact F |].
  apply (page_context_has_coordinates covered wide pindari "Pindari Glacier" Demo.world0
           (aoi_of pindari_lat pindari_lon (PInt 10000)) glacier_info date_info
           (logged Demo.world0 (fetch pindari_lat pindari_lon 10)) C F).
Defined.

End BoundsRuns.

(* ================================================================== *)
(** * The two-tab interface and the map layer *)
(* ================================================================== *)

Section CompleteInterface.
Import Py Datetime World Trace Spec Example Frame Cases.

Variable rt : runtime.

(** X19. [render_complete_glacier_interface] does not pass a failed result
    on as velocity data. With a failure of the estimator stored and a
    question asked, the velocity tab shows the failure, the prompt holds
    the context built without velocity data, and the suggestions are the
    two that do not mention velocity. *)
Theorem complete_interface_hides_failures self lat lon date1 date2 buffer_km w0 r
    location selected_glacier gi cd di sd vinp qinp w q c0 :
  fst (calculate_velocity rt self lat lon date1 date2 buffer_km w0) = Ok r ->
  truthy (dict_get r "success" PNone) = false ->
  velocity_result (session w) = Some r ->
  calculate_pressed vinp = false ->
  qa_system (session w) = Some q ->
  ask_pressed qinp = true ->
  strip_nonempty (question qinp) = true ->
  create_context rt gi cd di sd PNone = Ok c0 ->
  exists msg,
    dict_lookup r "error" = Some (PStr msg)
    /\ fst (render_complete_glacier_interface rt location selected_glacier gi cd di sd
              vinp qinp w) = Ok Completed
    /\ prompts (snd (render_complete_glacier_interface rt location selected_glacier gi cd di
                       sd vinp qinp w))
       = (prompts w ++ [full_prompt (question qinp) c0])%list
    /\ screen (snd (render_complete_glacier_interface rt location selected_glacier gi cd di
                      sd vinp qinp w))
       = (screen w
          ++ [st_subheader "Glacier Velocity Analysis";
              st_info "Measure glacier speed between two dates using Sentinel-2 satellite imagery.";
              st_error ("Analysis Failed: " ++ msg);
              st_subheader "Ask the AI Glacier Expert";
              st_spinner "AI is analyzing your data...";
              st_write "**Suggested Questions:**"]
          ++ map st_button
               (suggest_questions rt (dict_get gi "name" (PStr "this glacier"))
                                  (dict_get cd "description" (PStr "climate data")) false)
          ++ [st_markdown "---";
              st_info ("**Your Question:** " ++ question qinp);
              st_markdown (answer_of rt (full_prompt (question qinp) c0));
              st_download_button "Download Answer"
                ("Question: " ++ question qinp ++ LF ++ LF ++ "Answer:" ++ LF
                 ++ answer_of rt (full_prompt (question qinp) c0))
                "glacier_analysis.txt"])%list.
Proof.
  intros E S V P Q A B C.
  destruct (calculate_velocity_outcome rt self lat lon date1 date2 buffer_km w0)
    as (r' & w' & E' & O).
  rewrite E' in E. simpl in E. injection E as ->.
  destruct (failure_shape rt self lat lon date1 date2 buffer_km r O S) as [msg ->].
  exists msg. split; [reflexivity |].
  assert (R : render_complete_glacier_interface rt location selected_glacier gi cd di sd
                vinp qinp w
              = bind (render_ai_assistant_tab rt gi cd di sd PNone qinp)
                     (fun _ => ret Completed)
                     (drawn w [st_subheader "Glacier Velocity Analysis";
                               st_info "Measure glacier speed between two dates using Sentinel-2 satellite imagery.";
                               st_error ("Analysis Failed: " ++ msg)])).
  { unfold render_complete_glacier_interface.
    rewrite bind_get_session. unfold complete_velocity_data. rewrite V.
    cbn [dict_get dict_lookup String.eqb Ascii.eqb Bool.eqb truthy].
    rewrite (bind_lift_ok _ PNone) by reflexivity.
    rewrite (bind_run _ _ _ _ _ (stored_failure_run rt location selected_glacier vinp w msg
                                   V P)).
    reflexivity. }
  rewrite R. set (w1 := drawn w _).
  rewrite (bind_run _ _ _ _ _
             (render_ai_assistant_tab_run rt gi cd di sd PNone qinp w1 q c0 Q A B C)).
  subst w1.
  cbn [fst snd ret prompts screen drawn answered asked is_not_None].
  repeat split.
  repeat rewrite <- app_assoc. reflexivity.
Qed.

(** X20. For a successful result of the estimator whose statistics are a
    dict, the velocity data of [render_complete_glacier_interface] carries
    the two date strings the estimator was given and its elapsed days, and
    replaces a mean or maximum that is missing, [None] or zero by [0]: the
    context then reads "0.0000", while a float mean is shown as it is. *)
Theorem complete_interface_velocity_data self lat lon date1 date2 buffer_km w0 r stats s :
  fst (calculate_velocity rt self lat lon date1 date2 buffer_km w0) = Ok r ->
  truthy (dict_get r "success" PNone) = true ->
  velocity_result s = Some r ->
  dict_lookup r "stats" = Some (PDict stats) ->
  exists days,
    dict_lookup r "time_gap_days" = Some (PInt days)
    /\ 1 <= days
    /\ complete_velocity_data s
       = Ok (PDict [("date1", date1);
                    ("date2", date2);
                    ("time_gap_days", PInt days);
                    ("avg_velocity",
                     py_or (dict_get stats "velocity_mean" (PInt 0)) (PInt 0));
                    ("max_velocity",
                     py_or (dict_get stats "velocity_max" (PInt 0)) (PInt 0))])
    /\ (truthy (dict_get stats "velocity_mean" (PInt 0)) = false ->
        vel_str (py_or (dict_get stats "velocity_mean" (PInt 0)) (PInt 0)) = Ok "0.0000")
    /\ (forall x, dict_get stats "velocity_mean" (PInt 0) = PFloat x ->
        truthy (PFloat x) = true ->
        vel_str (py_or (dict_get stats "velocity_mean" (PInt 0)) (PInt 0))
        = Ok (format_f 4 x)).
Proof.
  intros E S V St.
  destruct (calculate_velocity_outcome rt self lat lon date1 date2 buffer_km w0)
    as (r' & w' & E' & O).
  rewrite E' in E. simpl in E. injection E as ->.
  destruct O as [x | dist dt1 dt2 n1 n2 | dist dt1 dt2 n1 n2 g
                 | dist dt1 dt2 n1 n2 g stats' Hd H1 H2 S1 S2 Z Sg Zg Ss];
    try discriminate S.
  unfold success_dict in *.
  cbn [dict_lookup String.eqb Ascii.eqb Bool.eqb] in St. injection St as ->.
  exists (time_gap dt1 dt2). split; [reflexivity |]. split.
  { unfold time_gap. destruct (Z.eqb_spec (Z.abs (days_between dt2 dt1)) 0); lia. }
  split.
  { unfold complete_velocity_data. rewrite V. reflexivity. }
  split.
  - intros F. unfold py_or. rewrite F. vm_compute. reflexivity.
  - intros x Ex T. unfold py_or. rewrite Ex, T. reflexivity.
Qed.

End CompleteInterface.

Section MapLayer.
Import Py Datetime World Trace Spec Example Frame Cases.

Variable rt : runtime.
Variable Map : Type.
Variable addLayer : Map -> pyval -> vis -> string -> result Map.

(** X21. [add_velocity_to_map] touches the map only for a success. For
    [None], for an empty dict and for every failure of the estimator the
    map is handed back as it was and [addLayer] is not called; for a
    success the one layer added is the masked speed field of the result,
    under the name "Glacier Velocity (m/day)" with the colour ramp from 0
    to 2.0. *)
Theorem velocity_layer_only_for_success self lat lon date1 date2 buffer_km w0 r m :
  fst (calculate_velocity rt self lat lon date1 date2 buffer_km w0) = Ok r ->
  add_velocity_to_map Map addLayer m PNone = Ok m
  /\ add_velocity_to_map Map addLayer m (PDict []) = Ok m
  /\ (truthy (dict_get r "success" PNone) = false ->
      add_velocity_to_map Map addLayer m (PDict r) = Ok m)
  /\ (truthy (dict_get r "success" PNone) = true ->
      exists disp days glaciers,
        dict_lookup r "time_gap_days" = Some (PInt days)
        /\ add_velocity_to_map Map addLayer m (PDict r)
           = addLayer m
               (PObj (updateMask
                        (rename (divide (hypot (select disp "dx") (select disp "dy")) days)
                                "velocity")
                        (glacier_mask_of glaciers)))
               {| vis_min := PInt 0; vis_max := PFloat (b64_literal 20 1);
                  palette := ["blue"; "cyan"; "yellow"; "red"] |}
               "Glacier Velocity (m/day)").
Proof.
  intros E.
  destruct (calculate_velocity_outcome rt self lat lon date1 date2 buffer_km w0)
    as (r' & w' & E' & O).
  rewrite E' in E. simpl in E. injection E as ->.
  split; [reflexivity |]. split; [reflexivity |]. split.
  - intros S.
    destruct (failure_shape rt self lat lon date1 date2 buffer_km r O S) as [msg ->].
    reflexivity.
  - intros S.
    destruct O as [x | dist dt1 dt2 n1 n2 | dist dt1 dt2 n1 n2 g
                   | dist dt1 dt2 n1 n2 g stats Hd H1 H2 S1 S2 Z Sg Zg Ss];
      try discriminate S.
    eexists. eexists. eexists. split; reflexivity.
Qed.

End MapLayer.

Section InterfaceRuns.
Import Py Datetime World Trace Spec Example Frame Cases.

Lemma complete_interface_hides_failures_witness :
  fst (calculate_velocity bare GlacierVelocityEngine pindari_lat pindari_lon
         (PStr "2023-06-01") (PStr "2023-08-31") (PInt 5) Demo.world0)
  = Ok failed_result
  /\ truthy (dict_get failed_result "success" PNone) = false
  /\ velocity_result (session after_failure) = Some failed_result
  /\ calculate_pressed idle = false
  /\ qa_system (session after_failure) = Some {| model := "gemini-1.5-flash" |}
  /\ ask_pressed asking = true
  /\ strip_nonempty (question asking) = true
  /\ create_context bare glacier_info climate_data date_info climate_stats PNone
     = Ok plain_context
  /\ exists msg,
       dict_lookup failed_result "error" = Some (PStr msg)
       /\ fst (render_complete_glacier_interface bare pindari "Pindari Glacier" glacier_info
                 climate_data date_info climate_stats idle asking after_failure)
          = Ok Completed
       /\ prompts (snd (render_complete_glacier_interface bare pindari "Pindari Glacier"
                          glacier_info climate_data date_info climate_stats idle asking
                          after_failure))
          = (prompts after_failure ++ [full_prompt (question asking) plain_context])%list.
Proof.
  assert (E : fst (calculate_velocity bare GlacierVelocityEngine pindari_lat pindari_lon
                     (PStr "2023-06-01") (PStr "2023-08-31") (PInt 5) Demo.world0)
              = Ok failed_result) by (vm_compute; reflexivity).
  assert (C : create_context bare glacier_info climate_data date_info climate_stats PNone
              = Ok plain_context) by (vm_compute; reflexivity).
  split; [exact E |]. do 6 (split; [reflexivity |]). split; [exact C |].
  destruct (complete_interface_hides_failures bare GlacierVelocityEngine pindari_lat
              pindari_lon (PStr "2023-06-01") (PStr "2023-08-31") (PInt 5) Demo.world0
              failed_result pindari "Pindari Glacier" glacier_info climate_data date_info
              climate_stats idle asking after_failure {| model := "gemini-1.5-flash" |}
              plain_context E eq_refl eq_refl eq_refl eq_refl eq_refl eq_refl C)
    as (msg & H1 & H2 & H3 & _).
  exists msg. split; [exact H1 |]. split; [exact H2 | exact H3].
Defined.

Lemma complete_interface_velocity_data_witness :
  fst (calculate_velocity covered GlacierVelocityEngine pindari_lat pindari_lon
         (PStr "2023-06-01") (PStr "2023-08-31") (PInt 5) Demo.world0)
  = Ok summer_result
  /\ truthy (dict_get summer_result "success" PNone) = true
  /\ velocity_result (session after_success) = Some summer_result
  /\ dict_lookup summer_result "stats"
     = Some (PDict [("velocity_mean", PFloat Demo.slow);
                    ("velocity_min", PFloat (b64_literal 1 1));
                    ("velocity_max", PFloat (b64_literal 25 1))])
  /\ exists days,
       dict_lookup summer_result "time_gap_days" = Some (PInt days)
       /\ 1 <= days
       /\ complete_velocity_data (session after_success)
          = Ok (PDict [("date1", PStr "2023-06-01");
                       ("date2", PStr "2023-08-31");
                       ("time_gap_days", PInt days);
                       ("avg_velocity", PFloat Demo.slow);
                       ("max_velocity", PFloat (b64_literal 25 1))]).
Proof.
  assert (E : fst (calculate_velocity covered GlacierVelocityEngine pindari_lat pindari_lon
                     (PStr "2023-06-01") (PStr "2023-08-31") (PInt 5) Demo.world0)
              = Ok summer_result) by (vm_compute; reflexivity).
  split; [exact E |]. do 3 (split; [reflexivity |]).
  destruct (complete_interface_velocity_data covered GlacierVelocityEngine pindari_lat
              pindari_lon (PStr "2023-06-01") (PStr "2023-08-31") (PInt 5) Demo.world0
              summer_result
              [("velocity_mean", PFloat Demo.slow);
               ("velocity_min", PFloat (b64_literal 1 1));
               ("velocity_max", PFloat (b64_literal 25 1))]
              (session after_success) E eq_refl eq_refl eq_refl)
    as (days & H1 & H2 & H3 & _).
  exists days. split; [exact H1 |]. split; [exact H2 |]. exact H3.
Defined.

Lemma velocity_layer_only_for_success_witness :
  fst (calculate_velocity covered GlacierVelocityEngine pindari_lat pindari_lon
         (PStr "2023-06-01") (PStr "2023-08-31") (PInt 5) Demo.world0)
  = Ok summer_result
  /\ add_velocity_to_map layers append_layer [] (PDict summer_result)
     = Ok [(PObj (speed_final_of summer_disp 91 (glaciers_of summer_aoi)), speed_vis,
            "Glacier Velocity (m/day)")]
  /\ add_velocity_to_map layers append_layer [] PNone = Ok []
  /\ add_velocity_to_map layers append_layer [] (PDict []) = Ok []
  /\ (truthy (dict_get summer_result "success" PNone) = false ->
      add_velocity_to_map layers append_layer [] (PDict summer_result) = Ok [])
  /\ (truthy (dict_get summer_result "success" PNone) = true ->
      exists disp days glaciers,
        dict_lookup summer_result "time_gap_days" = Some (PInt days)
        /\ add_velocity_to_map layers append_layer [] (PDict summer_result)
           = append_layer []
               (PObj (updateMask
                        (rename (divide (hypot (select disp "dx") (select disp "dy")) days)
                                "velocity")
                        (glacier_mask_of glaciers)))
               {| vis_min := PInt 0; vis_max := PFloat (b64_literal 20 1);
                  palette := ["blue"; "cyan"; "yellow"; "red"] |}
               "Glacier Velocity (m/day)").
Proof.
  assert (E : fst (calculate_velocity covered GlacierVelocityEngine pindari_lat pindari_lon
                     (PStr "2023-06-01") (PStr "2023-08-31") (PInt 5) Demo.world0)
              = Ok summer_result) by (vm_compute; reflexivity).
  split; [exact E |]. split; [reflexivity |].
  apply (velocity_layer_only_for_success covered layers append_layer GlacierVelocityEngine
           pindari_lat pindari_lon (PStr "2023-06-01") (PStr "2023-08-31") (PInt 5)
           Demo.world0 summer_result []).
  exact E.
Defined.

End InterfaceRuns.

(* ================================================================== *)
(** * What each part of the page leaves alone *)
(* ================================================================== *)

Section Separation.
Import Py Datetime World Trace Spec Example Frame Cases.

Lemma keeps_engine_refl w : keeps_engine w w.
Proof. reflexivity. Qed.

Lemma keeps_engine_trans w1 w2 w3 :
  keeps_engine w1 w2 -> keeps_engine w2 w3 -> keeps_engine w1 w3.
Proof. unfold keeps_engine. congruence. Qed.

Lemma keeps_velocity_refl w : keeps_velocity w w.
Proof. repeat split. Qed.

Lemma keeps_velocity_trans w1 w2 w3 :
  keeps_velocity w1 w2 -> keeps_velocity w2 w3 -> keeps_velocity w1 w3.
Proof. unfold keeps_velocity. intros (A & B & C) (D & E & F). repeat split; congruence. Qed.

Lemma keeps_assistant_refl w : keeps_assistant w w.
Proof. repeat split. Qed.

Lemma keeps_assistant_trans w1 w2 w3 :
  keeps_assistant w1 w2 -> keeps_assistant w2 w3 -> keeps_assistant w1 w3.
Proof.
  unfold keeps_assistant. intros (A & B & C & D) (E & F & G & H). repeat split; congruence.
Qed.

(** A computation that stays within one relation stays within every
    weaker one. *)
Lemma within_weaken {A} (R R' : world -> world -> Prop) (m : M A) :
  (forall w w', R w w' -> R' w w') -> within R m -> within R' m.
Proof. intros H Hm w. apply H, Hm. Qed.

Lemma screen_grows_keeps_engine w w' : screen_grows w w' -> keeps_engine w w'.
Proof. intros [ws ->]. reflexivity. Qed.

Lemma screen_grows_keeps_velocity w w' : screen_grows w w' -> keeps_velocity w w'.
Proof. intros [ws ->]. repeat split. Qed.

Lemma screen_grows_keeps_assistant w w' : screen_grows w w' -> keeps_assistant w w'.
Proof. intros [ws ->]. repeat split. Qed.

Lemma log_grows_keeps_engine w w' : log_grows w w' -> keeps_engine w w'.
Proof. intros [evs ->]. reflexivity. Qed.

Lemma log_grows_keeps_assistant w w' : log_grows w w' -> keeps_assistant w w'.
Proof. intros [evs ->]. repeat split. Qed.

Variable rt : runtime.

Lemma velocity_tab_keeps_assistant location selected_glacier inp :
  within keeps_assistant (render_manual_velocity_interface rt location selected_glacier inp).
Proof.
  unfold render_manual_velocity_interface, set_velocity_result.
  repeat first
    [ apply (within_weaken _ _ _ screen_grows_keeps_assistant), within_draw
    | apply (within_weaken _ _ _ screen_grows_keeps_assistant), within_show_velocity_result
    | apply (within_weaken _ _ _ log_grows_keeps_assistant), within_calculate_velocity
    | apply (within_ret _ keeps_assistant_refl)
    | apply (within_lift _ keeps_assistant_refl)
    | apply (within_raise _ keeps_assistant_refl)
    | apply (within_get_session _ keeps_assistant_refl)
    | apply (within_bind _ keeps_assistant_trans); [| intros ?]
    | progress cbv zeta
    | match goal with
      | |- within _ (put_session _) => intros w; repeat split
      | |- within _ (if ?b then _ else _) => destruct b
      | |- within _ (match ?x with _ => _ end) => destruct x
      end ].
Qed.

Lemma within_velocity_answer_question q ctx : within keeps_velocity (answer_question rt q ctx).
Proof. intros w. rewrite answer_question_run. repeat split. Qed.

Lemma within_velocity_draw_suggestions l : within keeps_velocity (draw_suggestions l).
Proof. intros w. rewrite draw_suggestions_run. repeat split. Qed.

Lemma assistant_tab_keeps_velocity gi cd di sd vd inp :
  within keeps_velocity (render_ai_assistant_tab rt gi cd di sd vd inp).
Proof.
  unfold render_ai_assistant_tab, GlacierQA, set_qa_system, set_qa_latest.
  repeat first
    [ apply (within_weaken _ _ _ screen_grows_keeps_velocity), within_draw
    | apply within_velocity_answer_question
    | apply within_velocity_draw_suggestions
    | apply (within_ret _ keeps_velocity_refl)
    | apply (within_lift _ keeps_velocity_refl)
    | apply (within_raise _ keeps_velocity_refl)
    | apply (within_get_session _ keeps_velocity_refl)
    | apply (within_bind _ keeps_velocity_trans); [| intros ?]
    | progress cbv zeta
    | match goal with
      | |- within _ (put_session _) => intros w; repeat split
      | |- within _ (if ?b then _ else _) => destruct b
      | |- within _ (match ?x with _ => _ end) => destruct x
      end ].
Qed.

(** X22. The two tabs do not interfere. The velocity tab never changes the
    assistant, the latest question and answer or the prompts sent; the
    assistant tab never changes the engine or the stored velocity result
    and never talks to the geo backend. *)
Theorem tabs_do_not_interfere location selected_glacier vinp gi cd di sd vd qinp w :
  keeps_assistant w
    (snd (render_manual_velocity_interface rt location selected_glacier vinp w))
  /\ keeps_velocity w (snd (render_ai_assistant_tab rt gi cd di sd vd qinp w)).
Proof.
  split; [apply velocity_tab_keeps_assistant | apply assistant_tab_keeps_velocity].
Qed.

Lemma keeps_velocity_keeps_engine w w' : keeps_velocity w w' -> keeps_engine w w'.
Proof. intros (A & _). exact A. Qed.

Lemma velocity_tab_keeps_engine location selected_glacier inp :
  within keeps_engine (render_manual_velocity_interface rt location selected_glacier inp).
Proof.
  unfold render_manual_velocity_interface, set_velocity_result.
  repeat first
    [ apply (within_weaken _ _ _ screen_grows_keeps_engine), within_draw
    | apply (within_weaken _ _ _ screen_grows_keeps_engine), within_show_velocity_result
    | apply (within_weaken _ _ _ log_grows_keeps_engine), within_calculate_velocity
    | apply (within_ret _ keeps_engine_refl)
    | apply (within_lift _ keeps_engine_refl)
    | apply (within_raise _ keeps_engine_refl)
    | apply (within_get_session _ keeps_engine_refl)
    | apply (within_bind _ keeps_engine_trans); [| intros ?]
    | progress cbv zeta
    | match goal with
      | |- within _ (put_session _) => intros w; reflexivity
      | |- within _ (if ?b then _ else _) => destruct b
      | |- within _ (match ?x with _ => _ end) => destruct x
      end ].
Qed.

Lemma engine_setup_run w :
  (e <- initialize_velocity_engine ;; set_velocity_engine e) w
  = (Ok tt,
     {| backend_log := backend_log w; prompts := prompts w;
        session := {| velocity_engine := Some GlacierVelocityEngine;
                      velocity_result := velocity_result (session w);
                      qa_system := qa_system (session w);
                      qa_latest_question := qa_latest_question (session w);
                      qa_latest_answer := qa_latest_answer (session w) |};
        screen := screen w |}).
Proof. reflexivity. Qed.

Lemma fetch_data_keeps_engine location selected_glacier inp :
  within keeps_engine (fetch_data rt location selected_glacier inp).
Proof.
  apply (within_weaken _ _ _ log_grows_keeps_engine).
  unfold fetch_data.
  repeat first [apply within_size_info | progress log_only].
Qed.

Lemma tab_ai_keeps_engine area gi di inp : within keeps_engine (tab_ai rt area gi di inp).
Proof.
  unfold tab_ai.
  repeat match goal with
         | |- within _ (call _ _) =>
             apply (within_weaken _ _ _ log_grows_keeps_engine), within_call
         | |- within _ (getInfo _ _) =>
             apply (within_weaken _ _ _ log_grows_keeps_engine), within_getInfo
         | |- within _ (size_info _ _) =>
             apply (within_weaken _ _ _ log_grows_keeps_engine), within_size_info
         | |- within _ (render_ai_assistant_tab _ _ _ _ _ _ _) =>
             apply (within_weaken _ _ _ keeps_velocity_keeps_engine),
               assistant_tab_keeps_velocity
         | |- within _ (ret _) => apply (within_ret _ keeps_engine_refl)
         | |- within _ get_session => apply (within_get_session _ keeps_engine_refl)
         | |- within _ (bind _ _) => apply (within_bind _ keeps_engine_trans); [| intros ?]
         | |- within _ (let _ := _ in _) => cbv zeta
         | |- within _ (match ?x with _ => _ end) => destruct x
         end.
Qed.

(** X23. A run of the script whose Earth Engine initialisation fails draws
    the error and stops with the session as it was: no engine is set up.
    After every run that passes the initialisation the session holds a
    velocity engine, however the run ends (stopped after a backend error,
    ended by an exception of the climate-map tab or of a later tab, rerun,
    or completed): a session without one gets the engine with a maximum
    offset of 100 m and a 30-day window, and an engine that is there is
    never replaced.  The climate-map tab is any computation that leaves the
    session's engine alone. *)
Theorem page_keeps_an_engine tab_map inp w :
  within keeps_engine tab_map ->
  (forall e,
     app_script rt (Raise e) tab_map inp w
     = (Ok Stopped,
        drawn w [st_error ("Failed to initialize Google Earth Engine. Error: "
                           ++ exn_msg e)]))
  /\ (forall u,
        velocity_engine (session (snd (app_script rt (Ok u) tab_map inp w)))
        = Some (match velocity_engine (session w) with
                | Some e => e
                | None => {| max_offset_m := 100; window_days := 30 |}
                end)).
Proof.
  intros M. split.
  { intros e. unfold app_script. rewrite bind_draw. reflexivity. }
  intros u.
  assert (B : forall w1 : world,
            velocity_engine
              (session (snd (app_script rt (Ok u) tab_map inp w1)))
            = velocity_engine
                (session (snd ((match velocity_engine (session w1) with
                                | Some _ => ret tt
                                | None => e <- initialize_velocity_engine ;;
                                          set_velocity_engine e
                                end) w1)))).
  { intros w1. unfold app_script. rewrite bind_get_session.
    set (setup := match velocity_engine (session w1) with
                  | Some _ => ret tt
                  | None => e <- initialize_velocity_engine ;; set_velocity_engine e
                  end).
    assert (S : exists w2, setup w1 = (Ok tt, w2)).
    { subst setup. destruct (velocity_engine (session w1)); eexists; reflexivity. }
    destruct S as [w2 S]. rewrite (bind_run _ _ _ _ _ S), S. cbn [snd].
    match goal with
    | |- velocity_engine (session (snd (?m w2))) = _ => assert (K : within keeps_engine m)
    end.
    { repeat match goal with
             | |- within _ tab_map => exact M
             | |- within _ (draw _) =>
                 apply (within_weaken _ _ _ screen_grows_keeps_engine), within_draw
             | |- within _ (fetch_data _ _ _ _) => apply fetch_data_keeps_engine
             | |- within _ (tab_ai _ _ _ _ _) => apply tab_ai_keeps_engine
             | |- within _ (render_manual_velocity_interface _ _ _ _) =>
                 apply velocity_tab_keeps_engine
             | |- within _ (ret _) => apply (within_ret _ keeps_engine_refl)
             | |- within _ (lift _) => apply (within_lift _ keeps_engine_refl)
             | |- within _ (bind _ _) =>
                 apply (within_bind _ keeps_engine_trans); [| intros ?]
             | |- within _ (try_except _ _) =>
                 apply (within_try_except _ keeps_engine_trans); [| intros ?]
             | |- within _ (fun _ => _) => cbv beta
             | |- within _ (let _ := _ in _) => cbv zeta
             | |- within _ (match ?x with _ => _ end) => destruct x
             end. }
    exact (K w2). }
  rewrite B. destruct (velocity_engine (session w)) as [e |] eqn:E.
  - cbn [ret snd]. exact E.
  - rewrite engine_setup_run. reflexivity.
Qed.

End Separation.

Section SeparationRuns.
Import Py Datetime World Trace Spec Example Frame Cases.

Lemma broken_map_keeps_engine : within keeps_engine broken_map.
Proof. intros w. reflexivity. Qed.

Lemma page_keeps_an_engine_witness :
  within keeps_engine broken_map
  /\ velocity_engine (session first_visit) = None
  /\ app_script covered no_credentials broken_map wide first_visit
     = (Ok Stopped,
        drawn first_visit
          [st_error ("Failed to initialize Google Earth Engine. Error: "
                     ++ "Please authorize access to your Earth Engine account.")])
  /\ velocity_engine (session (snd (app_script covered (Ok tt) broken_map wide first_visit)))
     = Some {| max_offset_m := 100; window_days := 30 |}
  /\ velocity_engine (session (snd (app_script covered (Ok tt) broken_map wide
                                      after_failure)))
     = Some GlacierVelocityEngine.
Proof.
  split; [exact broken_map_keeps_engine |].
  split; [reflexivity |].
  split.
  - exact (proj1 (page_keeps_an_engine covered broken_map wide first_visit
                    broken_map_keeps_engine)
                 (Exn "EEException" "Please authorize access to your Earth Engine account.")).
  - split.
    + exact (proj2 (page_keeps_an_engine covered broken_map wide first_visit
                      broken_map_keeps_engine) tt).
    + exact (proj2 (page_keeps_an_engine covered broken_map wide after_failure
                      broken_map_keeps_engine) tt).
Defined.

(** The first visit with a failing map tab, evaluated: the run ends with the
    tab's exception, after the engine was stored. *)
Lemma first_visit_with_broken_map :
  fst (app_script covered (Ok tt) broken_map wide first_visit)
  = Raise (Exn "EEException" "Connection timed out")
  /\ velocity_engine (session (snd (app_script covered (Ok tt) broken_map wide first_visit)))
     = Some GlacierVelocityEngine
  /\ velocity_engine (session (snd (app_script covered no_credentials broken_map wide
                                      first_visit)))
     = None.
Proof. vm_compute. repeat split. Qed.

End SeparationRuns.

(* ================================================================== *)
(** * Dates the estimator accepts, and what it asks of the server *)
(* ================================================================== *)

Section Accepted.
Import Py Datetime World Trace Spec Example Frame Cases.

Variable rt : runtime.

(** X24. The estimator succeeds only on calendar dates: in every
    successful result both date arguments are strings that denote a date
    that exists, in the years 1 to 9999. A string like "2023-02-30" can
    only end in the failure dict. *)
Theorem success_needs_calendar_dates self lat lon date1 date2 buffer_km w r :
  fst (calculate_velocity rt self lat lon date1 date2 buffer_km w) = Ok r ->
  truthy (dict_get r "success" PNone) = true ->
  exists s1 s2 dt1 dt2,
    date1 = PStr s1 /\ date2 = PStr s2
    /\ strptime date1 = Ok dt1 /\ strptime date2 = Ok dt2
    /\ valid_date dt1 /\ MINYEAR <= year dt1 <= MAXYEAR
    /\ valid_date dt2 /\ MINYEAR <= year dt2 <= MAXYEAR.
Proof.
  intros E S.
  destruct (calculate_velocity_outcome rt self lat lon date1 date2 buffer_km w)
    as (r' & w' & E' & O).
  rewrite E' in E. simpl in E. injection E as ->.
  destruct O as [x | dist dt1 dt2 n1 n2 | dist dt1 dt2 n1 n2 g
                 | dist dt1 dt2 n1 n2 g stats Hd H1 H2 S1 S2 Z Sg Zg Ss];
    try discriminate S.
  destruct (strptime_valid _ _ H1) as [V1 Y1].
  destruct (strptime_valid _ _ H2) as [V2 Y2].
  destruct date1 as [| | | | s1 | | |]; try discriminate H1.
  destruct date2 as [| | | | s2 | | |]; try discriminate H2.
  exists s1, s2, dt1, dt2.
  do 2 (split; [reflexivity |]). repeat (split; [assumption |]). assumption.
Qed.

Hypothesis accepts : forall e, ee_client rt e = None.

(** X25. A successful run asks the server four questions, in this order:
    the number of images of the first window, that of the second, the
    number of glacier polygons in the area, and the statistics of the
    masked speed field. Everything else is client-side construction. *)
Theorem successful_run_round_trips self lat lon date1 date2 buffer_km
    dist dt1 dt2 n1 n2 g stats w :
  py_mul_int buffer_km 1000 = Ok dist ->
  strptime date1 = Ok dt1 ->
  strptime date2 = Ok dt2 ->
  window_in_range self dt1 ->
  window_in_range self dt2 ->
  ee_server rt (size (collection_of (aoi_of lat lon dist) (window_of self dt1))) = Ok n1 ->
  ee_server rt (size (collection_of (aoi_of lat lon dist) (window_of self dt2))) = Ok n2 ->
  eq_zero n1 || eq_zero n2 = false ->
  ee_server rt (size (glaciers_of (aoi_of lat lon dist))) = Ok g ->
  eq_zero g = false ->
  ee_server rt
    (stats_query
       (speed_final_of
          (displacement_of self (collection_of (aoi_of lat lon dist) (window_of self dt1))
                                (collection_of (aoi_of lat lon dist) (window_of self dt2)))
          (time_gap dt1 dt2) (glaciers_of (aoi_of lat lon dist)))
       (aoi_of lat lon dist)) = Ok stats ->
  exists evs,
    snd (calculate_velocity rt self lat lon date1 date2 buffer_km w) = logged w evs
    /\ List.filter (fun ev => negb (is_call ev)) evs
       = [GetInfo (size (collection_of (aoi_of lat lon dist) (window_of self dt1)));
          GetInfo (size (collection_of (aoi_of lat lon dist) (window_of self dt2)));
          GetInfo (size (glaciers_of (aoi_of lat lon dist)));
          GetInfo (stats_query
                     (speed_final_of
                        (displacement_of self
                           (collection_of (aoi_of lat lon dist) (window_of self dt1))
                           (collection_of (aoi_of lat lon dist) (window_of self dt2)))
                        (time_gap dt1 dt2) (glaciers_of (aoi_of lat lon dist)))
                     (aoi_of lat lon dist))].
Proof.
  intros Hd H1 H2 R1 R2 S1 S2 Z Sg Zg Ss.
  pose proof (successful_run rt self lat lon date1 date2 buffer_km dist dt1 dt2 n1 n2 g
                stats w accepts Hd H1 H2 R1 R2 S1 S2 Z Sg Zg Ss) as E.
  cbv zeta in E. rewrite E. cbn [snd].
  eexists. split; [reflexivity |].
  apply orb_false_elim in Z. destruct Z as [Z1 _].
  unfold imagery, emptiness_test, tracking. rewrite Z1.
  reflexivity.
Qed.

End Accepted.

Section AcceptedRuns.
Import Py Datetime World Trace Spec Example Frame Cases.

Lemma success_needs_calendar_dates_witness :
  fst (calculate_velocity covered GlacierVelocityEngine pindari_lat pindari_lon
         (PStr "2023-06-01") (PStr "2023-08-31") (PInt 5) Demo.world0)
  = Ok summer_result
  /\ truthy (dict_get summer_result "success" PNone) = true
  /\ exists s1 s2 dt1 dt2,
       PStr "2023-06-01" = PStr s1 /\ PStr "2023-08-31" = PStr s2
       /\ strptime (PStr "2023-06-01") = Ok dt1 /\ strptime (PStr "2023-08-31") = Ok dt2
       /\ valid_date dt1 /\ MINYEAR <= year dt1 <= MAXYEAR
       /\ valid_date dt2 /\ MINYEAR <= year dt2 <= MAXYEAR.
Proof.
  assert (E : fst (calculate_velocity covered GlacierVelocityEngine pindari_lat pindari_lon
                     (PStr "2023-06-01") (PStr "2023-08-31") (PInt 5) Demo.world0)
              = Ok summer_result) by (vm_compute; reflexivity).
  split; [exact E |]. split; [reflexivity |].
  apply (success_needs_calendar_dates covered GlacierVelocityEngine pindari_lat pindari_lon
           (PStr "2023-06-01") (PStr "2023-08-31") (PInt 5) Demo.world0 summer_result E).
  reflexivity.
Defined.

Lemma successful_run_round_trips_witness :
  (forall e, ee_client covered e = None)
  /\ py_mul_int (PInt 5) 1000 = Ok (PInt 5000)
  /\ strptime (PStr "2023-06-01") = Ok (Date 2023 6 1)
  /\ strptime (PStr "2023-08-31") = Ok (Date 2023 8 31)
  /\ window_in_range GlacierVelocityEngine (Date 2023 6 1)
  /\ window_in_range GlacierVelocityEngine (Date 2023 8 31)
  /\ ee_server covered
       (size (collection_of summer_aoi (window_of GlacierVelocityEngine (Date 2023 6 1))))
     = Ok (PInt 4)
  /\ ee_server covered
       (size (collection_of summer_aoi (window_of GlacierVelocityEngine (Date 2023 8 31))))
     = Ok (PInt 4)
  /\ ee_server covered (size (glaciers_of summer_aoi)) = Ok (PInt 3)
  /\ ee_server covered
       (stats_query (speed_final_of summer_disp 91 (glaciers_of summer_aoi)) summer_aoi)
     = Ok Demo.stats
  /\ exists evs,
       snd (calculate_velocity covered GlacierVelocityEngine pindari_lat pindari_lon
              (PStr "2023-06-01") (PStr "2023-08-31") (PInt 5) Demo.world0)
       = logged Demo.world0 evs
       /\ List.filter (fun ev => negb (is_call ev)) evs
          = [GetInfo (size (collection_of summer_aoi
                              (window_of GlacierVelocityEngine (Date 2023 6 1))));
             GetInfo (size (collection_of summer_aoi
                              (window_of GlacierVelocityEngine (Date 2023 8 31))));
             GetInfo (size (glaciers_of summer_aoi));
             GetInfo (stats_query (speed_final_of summer_disp 91 (glaciers_of summer_aoi))
                                  summer_aoi)].
Proof.
  assert (A : forall e, ee_client covered e = None) by reflexivity.
  destruct summer_windows_in_range as [R1 R2].
  split; [exact A |]. do 3 (split; [reflexivity |]).
  split; [exact R1 |]. split; [exact R2 |]. do 4 (split; [reflexivity |]).
  apply (successful_run_round_trips covered A GlacierVelocityEngine pindari_lat pindari_lon
           (PStr "2023-06-01") (PStr "2023-08-31") (PInt 5) (PInt 5000)
           (Date 2023 6 1) (Date 2023 8 31) (PInt 4) (PInt 4) (PInt 3) Demo.stats
           Demo.world0);
    first [exact R1 | exact R2 | reflexivity].
Defined.

End AcceptedRuns.

